(** * Rehab backend: score engine, aggregator, report composer, renderer

    A shallow embedding of [backend/app.py].  Python values are modelled
    with their run-time behaviour made explicit: exceptions are a result
    type, [int / int] and [float * float] round to binary64 (round to
    nearest, ties to even) and [round] rounds half to even. *)

From Stdlib Require Import ZArith List String Ascii Bool Lia Sorted.
From Stdlib Require PrimFloat FloatOps SpecFloat Uint63.
From stdpp Require Import base tactics option list gmap strings pretty.

Local Open Scope Z_scope.

(** ** Exceptions *)

Inductive exn : Type :=
  | ValueError
  | TypeError
  | OverflowError
  | ZeroDivisionError
  | IndexError
  | KeyError.

Inductive result (A : Type) : Type :=
  | Ok (a : A)
  | Raise (e : exn).
Arguments Ok {A} a.
Arguments Raise {A} e.

#[global] Instance result_ret : MRet result := fun A a => Ok a.
#[global] Instance result_bind : MBind result := fun A B f r =>
  match r with
  | Ok a => f a
  | Raise e => Raise e
  end.

Definition is_ok {A} (r : result A) : bool :=
  match r with Ok _ => true | Raise _ => false end.

(** ** Python floats (binary64)

    A finite float is the dyadic number [m * 2^e]. *)

Inductive pyfloat : Type :=
  | FFinite (m e : Z)
  | FInf (negative : bool)
  | FNan.

(** Integer nearest to [n / d], ties to the even one ([0 < d]). *)
Definition div_half_even (n d : Z) : Z :=
  let q := n / d in
  let r := n mod d in
  if 2 * r <? d then q
  else if d <? 2 * r then q + 1
  else if Z.even q then q else q + 1.

(** [floor (log2 (n / d))] for [0 < n] and [0 < d]. *)
Definition ilog2_ratio (n d : Z) : Z :=
  let k := Z.log2 n - Z.log2 d in
  if n * 2 ^ Z.max 0 (- k) <? d * 2 ^ Z.max 0 k then k - 1 else k.

(** The binary64 number nearest to [n / d] ([0 < d]): 53 bits of
    precision, least exponent -1074, infinite from [2^1024] on. *)
Definition round_binary64 (n d : Z) : pyfloat :=
  if n =? 0 then FFinite 0 0
  else
    let a := Z.abs n in
    let e := Z.max (-1074) (ilog2_ratio a d - 52) in
    let m := div_half_even (a * 2 ^ Z.max 0 (- e)) (d * 2 ^ Z.max 0 e) in
    if 2 ^ 1024 * 2 ^ Z.max 0 (- e) <=? m * 2 ^ Z.max 0 e
    then FInf (n <? 0)
    else FFinite (Z.sgn n * m) e.

(** [a / b] on Python integers: the correctly rounded quotient. *)
Definition py_truediv (a b : Z) : result pyfloat :=
  if b =? 0 then Raise ZeroDivisionError
  else
    match round_binary64 (Z.sgn b * a) (Z.abs b) with
    | FInf _ => Raise OverflowError
    | f => Ok f
    end.

(** [float(i)] for an integer that binary64 holds exactly. *)
Definition float_of_small_int (i : Z) : pyfloat := FFinite i 0.

(** [x * y] on floats. *)
Definition float_mul (x y : pyfloat) : pyfloat :=
  match x, y with
  | FNan, _ | _, FNan => FNan
  | FInf s1, FInf s2 => FInf (xorb s1 s2)
  | FInf s, FFinite m _ | FFinite m _, FInf s =>
      if m =? 0 then FNan else FInf (xorb s (m <? 0))
  | FFinite m1 e1, FFinite m2 e2 =>
      let e := e1 + e2 in
      round_binary64 (m1 * m2 * 2 ^ Z.max 0 e) (2 ^ Z.max 0 (- e))
  end.

(** [round(x)] with one argument: nearest integer, ties to even. *)
Definition py_round (x : pyfloat) : result Z :=
  match x with
  | FFinite m e => Ok (div_half_even (m * 2 ^ Z.max 0 e) (2 ^ Z.max 0 (- e)))
  | FInf _ => Raise OverflowError
  | FNan => Raise ValueError
  end.

(** [int(x)] on a float truncates towards zero. *)
Definition py_int_of_float (x : pyfloat) : result Z :=
  match x with
  | FFinite m e => Ok (Z.quot (m * 2 ^ Z.max 0 e) (2 ^ Z.max 0 (- e)))
  | FInf _ => Raise OverflowError
  | FNan => Raise ValueError
  end.

(** [round(num / den)] and [round(num / den * 100)], as the aggregations
    write them. *)
Definition round_ratio (num den : Z) : result Z :=
  q ← py_truediv num den; py_round q.

Definition round_percent (num den : Z) : result Z :=
  q ← py_truediv num den; py_round (float_mul q (float_of_small_int 100)).

(** ** Python strings

    A [str] is modelled by the bytes of its UTF-8 encoding, so that
    [encode] is the identity on the bytes.  White space, letters and
    digits are the ASCII ones: the markup, the category vocabulary and the
    rating keys are ASCII, and a byte above 127 is never white space, a
    digit or a letter here. *)

Local Open Scope string_scope.
Local Open Scope list_scope.
Local Open Scope Z_scope.

Definition py_isspace (c : ascii) : bool :=
  let n := Z.of_nat (nat_of_ascii c) in
  ((9 <=? n) && (n <=? 13)) || ((28 <=? n) && (n <=? 32)).

Fixpoint lstrip (s : string) : string :=
  match s with
  | String c s' => if py_isspace c then lstrip s' else s
  | EmptyString => EmptyString
  end.

Fixpoint rstrip (s : string) : string :=
  match s with
  | String c s' =>
      match rstrip s' with
      | EmptyString => if py_isspace c then EmptyString else String c EmptyString
      | t => String c t
      end
  | EmptyString => EmptyString
  end.

(** [s.strip()] *)
Definition strip (s : string) : string := rstrip (lstrip s).

(** [s.startswith(p)] *)
Definition startswith (s p : string) : bool := String.prefix p s.

(** [s[n:]] *)
Fixpoint str_drop (n : nat) (s : string) : string :=
  match n, s with
  | S n', String _ s' => str_drop n' s'
  | _, _ => s
  end.

(** [s.replace(old, new)] for a non-empty [old]: occurrences are replaced
    left to right and do not overlap; [skip] counts the characters of a
    match still to be passed over. *)
Fixpoint replace_go (old new : string) (skip : nat) (s : string) : string :=
  match s with
  | EmptyString => EmptyString
  | String c s' =>
      match skip with
      | S k => replace_go old new k s'
      | O =>
          if String.prefix old s
          then new +:+ replace_go old new (Nat.pred (String.length old)) s'
          else String c (replace_go old new O s')
      end
  end.

Definition replace (old new s : string) : string := replace_go old new O s.

(** [p in s] *)
Fixpoint contains (p s : string) : bool :=
  String.prefix p s ||
  match s with
  | String _ s' => contains p s'
  | EmptyString => false
  end.

(** [s.split('\n')] *)
Definition newline : ascii := ascii_of_nat 10.

Fixpoint split_lines (s : string) : list string :=
  match s with
  | EmptyString => [EmptyString]
  | String c s' =>
      if Ascii.eqb c newline then EmptyString :: split_lines s'
      else
        match split_lines s' with
        | l :: ls => String c l :: ls
        | [] => [String c EmptyString]
        end
  end.

(** [s.lower()].  The vocabulary it is compared with is ASCII and has no
    "k", the one ASCII letter that a character outside ASCII lowers to,
    so a category matches a word here exactly when it does in Python. *)
Definition lower_char (c : ascii) : ascii :=
  let n := nat_of_ascii c in
  if (65 <=? n)%nat && (n <=? 90)%nat then ascii_of_nat (n + 32) else c.

Fixpoint lower (s : string) : string :=
  match s with
  | EmptyString => EmptyString
  | String c s' => String (lower_char c) (lower s')
  end.

(** [s.encode("utf-8")] *)
Definition encode_utf8 (s : string) : list Byte.byte := list_byte_of_string s.

(** ** JSON values and [int()] *)

#[local] Unset Elimination Schemes.
Inductive pyval : Type :=
  | VNone
  | VBool (b : bool)
  | VInt (z : Z)
  | VFloat (f : pyfloat)
  | VStr (s : string)
  | VList (l : list pyval)
  | VDict (d : list (string * pyval)).
#[local] Set Elimination Schemes.

Definition digit_of (c : ascii) : option Z :=
  let n := Z.of_nat (nat_of_ascii c) in
  if (48 <=? n) && (n <=? 57) then Some (n - 48) else None.

(** Decimal digits, single underscores allowed between two digits. *)
Fixpoint parse_digits (s : string) (acc : Z) (after_digit : bool) : option Z :=
  match s with
  | EmptyString => if after_digit then Some acc else None
  | String c s' =>
      match digit_of c with
      | Some d => parse_digits s' (10 * acc + d) true
      | None =>
          if Ascii.eqb c "_" && after_digit then parse_digits s' acc false
          else None
      end
  end.

(** The white space that [int] skips around the digits of a string: tab
    to carriage return and the space, not the separators 28 to 31 that
    [strip] removes. *)
Definition int_isspace (c : ascii) : bool :=
  let n := Z.of_nat (nat_of_ascii c) in
  ((9 <=? n) && (n <=? 13)) || (n =? 32).

Fixpoint int_lstrip (s : string) : string :=
  match s with
  | String c s' => if int_isspace c then int_lstrip s' else s
  | EmptyString => EmptyString
  end.

Fixpoint int_rstrip (s : string) : string :=
  match s with
  | String c s' =>
      match int_rstrip s' with
      | EmptyString => if int_isspace c then EmptyString else String c EmptyString
      | t => String c t
      end
  | EmptyString => EmptyString
  end.

Fixpoint count_digits (s : string) : Z :=
  match s with
  | EmptyString => 0
  | String c s' =>
      (match digit_of c with Some _ => 1 | None => 0 end) + count_digits s'
  end.

(** [sys.int_max_str_digits], as interpreters set it when nothing
    configures it. *)
Definition int_max_str_digits : Z := 4300.

(** [int(s)] on a string: surrounding white space, an optional sign,
    digits, no more of them than the interpreter converts.  Decimal
    digits and white space outside ASCII, which [int] accepts as well,
    are not modelled: on a string that holds them this function raises
    where Python may convert. *)
Definition py_int_of_str (s : string) : result Z :=
  let t := int_rstrip (int_lstrip s) in
  let r :=
    match t with
    | String "-" t' => Z.opp <$> parse_digits t' 0 false
    | String "+" t' => parse_digits t' 0 false
    | _ => parse_digits t 0 false
    end in
  match r with
  | Some z => if int_max_str_digits <? count_digits t then Raise ValueError else Ok z
  | None => Raise ValueError
  end.

(** [int(v)] *)
Definition py_int (v : pyval) : result Z :=
  match v with
  | VNone => Raise TypeError
  | VBool b => Ok (if b then 1 else 0)
  | VInt z => Ok z
  | VFloat f => py_int_of_float f
  | VStr s => py_int_of_str s
  | VList _ => Raise TypeError
  | VDict _ => Raise TypeError
  end.

Definition is_none (v : pyval) : bool :=
  match v with VNone => true | _ => false end.

(** [d.get(k)]: the value of the first binding of [k], [None] without one. *)
Fixpoint dict_get (d : list (string * pyval)) (k : string) : pyval :=
  match d with
  | [] => VNone
  | (k', v) :: d' => if String.eqb k' k then v else dict_get d' k
  end.

(** [sum(l)] and [len(l)] *)
Definition sum (l : list Z) : Z := foldl Z.add 0 l.
Definition len {A} (l : list A) : Z := Z.of_nat (length l).

(** ** Data model *)

(** A [datetime]: the proleptic Gregorian ordinal of its calendar date
    ([date.toordinal()]) and the seconds elapsed on that day. *)
Record datetime : Type := mk_datetime {
  date_ordinal : Z;
  day_seconds : Z
}.

(** [t.date()], as an ordinal; [isoformat] is one-to-one on dates, so
    dates are compared and used as keys through their ordinals. *)
Definition date (t : datetime) : Z := date_ordinal t.

(** [t.weekday()]: Monday is 0 and Sunday is 6. *)
Definition weekday (t : datetime) : Z := (date_ordinal t + 6) mod 7.

Record Patient : Type := mk_Patient {
  p_id : string;
  p_name : string;
  p_age : option Z
}.

Record Assessment : Type := mk_Assessment {
  a_id : string;
  a_patientId : string;
  a_timestamp : datetime;
  a_data : list (string * pyval)
}.

Record Workout : Type := mk_Workout {
  w_id : string;
  w_patientId : string;
  w_activityName : string;
  w_category : string;
  w_duration : Z;
  w_frequency : string;
  w_instructions : option string;
  w_timestamp : datetime
}.

(** The three JSON files, as the lists of records that the endpoints
    build from them; reading the files and validating their entries come
    before everything modelled here. *)
Record store : Type := mk_store {
  patients : list Patient;
  assessments : list Assessment;
  workouts : list Workout
}.

(** ** Score engine *)

Definition rating_keys : list string :=
  [ "fineMotor_grip"; "grossMotor_balance"; "cognitive_approach";
    "emotional_quality"; "communication_clarity"; "communication_grammar" ].

(** One turn of the loop [for k in keys]: a value that is [None] and a
    value on which [int] raises leave [values] as it is. *)
Definition collect_int (data : list (string * pyval)) (values : list Z) (k : string)
  : list Z :=
  let v := dict_get data k in
  if is_none v then values
  else
    match py_int v with
    | Ok i => values ++ [i]
    | Raise _ => values
    end.

Definition compute_assessment_score (assessment : Assessment) : result Z :=
  let values := foldl (collect_int (a_data assessment)) [] rating_keys in
  match values with
  | [] => Ok 0
  | _ => round_percent (sum values) (len values * 5)
  end.

(** ** Aggregator *)

(** [for x in l: acc = step(acc, x)] where the step may raise. *)
Fixpoint foldl_result {A B} (step : B -> A -> result B) (acc : B) (l : list A)
  : result B :=
  match l with
  | [] => Ok acc
  | x :: l' => acc' ← step acc x; foldl_result step acc' l'
  end.

(** [range(lo, hi)] *)
Definition range (lo hi : Z) : list Z :=
  (fun i => lo + Z.of_nat i) <$> seq 0 (Z.to_nat (hi - lo)).

(** [d[k]] *)
Definition getitem {K V M} `{Lookup K V M} (d : M) (k : K) : result V :=
  match d !! k with
  | Some v => Ok v
  | None => Raise KeyError
  end.

(** The [labels] and [data] arrays of a chart. *)
Record chart : Type := mk_chart {
  labels : list string;
  data : list Z
}.

(** [if patientId: items = [x for x in items if str(x.patientId) == str(patientId)]];
    an empty [patientId] is false and selects everything. *)
Definition for_patient {A} (pid : A -> string) (patientId : option string)
    (items : list A) : list A :=
  match patientId with
  | Some (String c s) => List.filter (fun x => String.eqb (pid x) (String c s)) items
  | _ => items
  end.

Record dashboard : Type := mk_dashboard {
  activePatients : Z;
  todaysAssessments : Z;
  averageProgress : Z;
  homeWorkouts : Z
}.

(** [today] is the ordinal of [datetime.now(timezone.utc).date()]. *)
Definition compute_dashboard_stats (today : Z) (assessments : list Assessment)
    (workouts : list Workout) : result dashboard :=
  let patients : gset string :=
    list_to_set (a_patientId <$> assessments) ∪ list_to_set (w_patientId <$> workouts) in
  let todays_assessments :=
    List.filter (fun a => date (a_timestamp a) =? today) assessments in
  scores ← mapM compute_assessment_score assessments;
  let avg_progress_list := List.filter (fun s => 0 <? s) scores in
  avg_progress ←
    match avg_progress_list with
    | [] => Ok 0
    | _ => round_ratio (sum avg_progress_list) (len avg_progress_list)
    end;
  mret {| activePatients := Z.of_nat (size patients);
          todaysAssessments := len todays_assessments;
          averageProgress := avg_progress;
          homeWorkouts := len workouts |}.

Definition weekday_labels : list string :=
  ["Mon"; "Tue"; "Wed"; "Thu"; "Fri"; "Sat"; "Sun"].

(** One turn of [for w in workouts]. *)
Definition count_weekday (counts : gmap Z Z) (w : Workout) : gmap Z Z :=
  let d := weekday (w_timestamp w) in
  <[d := default 0 (counts !! d) + 1]> counts.

Definition compute_weekly_activity (workouts : list Workout) : result chart :=
  let counts0 : gmap Z Z := foldl (fun counts i => <[i := 0]> counts) ∅ (range 0 7) in
  let counts := foldl count_weekday counts0 workouts in
  data ← mapM (getitem counts) (range 0 7);
  mret {| labels := weekday_labels; data := data |}.

Definition categories : list string :=
  ["fine-motor"; "gross-motor"; "cognitive"; "sensory"; "communication";
   "social"; "adl"; "attention"].

Definition category_labels : list string :=
  ["Fine Motor"; "Gross Motor"; "Cognitive"; "Sensory"; "Communication";
   "Social"; "ADL"; "Attention"].

(** One turn of [for w in workouts]. *)
Definition count_category (counts : gmap string Z) (w : Workout) : gmap string Z :=
  let c := lower (w_category w) in
  match counts !! c with
  | Some n => <[c := n + 1]> counts
  | None => counts
  end.

Definition compute_activity_distribution (workouts : list Workout) : result chart :=
  let counts0 : gmap string Z := foldl (fun counts c => <[c := 0]> counts) ∅ categories in
  let counts := foldl count_category counts0 workouts in
  data ← mapM (getitem counts) categories;
  mret {| labels := category_labels; data := data |}.

(** *** Calendar dates *)

(** [date.fromordinal(n)]: ordinals run from 0001-01-01 to 9999-12-31. *)
Definition max_ordinal : Z := 3652059.

Definition date_fromordinal (n : Z) : result Z :=
  if (1 <=? n) && (n <=? max_ordinal) then Ok n else Raise ValueError.

Definition days_in_month (leap : bool) (month : Z) : Z :=
  if month =? 2 then (if leap then 29 else 28)
  else if (month =? 4) || (month =? 6) || (month =? 9) || (month =? 11) then 30
  else 31.

(** Days of the year before the first of [month]. *)
Definition days_before_month (leap : bool) (month : Z) : Z :=
  sum ((days_in_month leap) <$> range 1 month).

(** Year, month and day of an ordinal, by the 400/100/4/1-year cycles. *)
Definition ord2ymd (ordinal : Z) : Z * Z * Z :=
  let n := ordinal - 1 in
  let n400 := n / 146097 in
  let n := n mod 146097 in
  let n100 := n / 36524 in
  let n := n mod 36524 in
  let n4 := n / 1461 in
  let n := n mod 1461 in
  let n1 := n / 365 in
  let n := n mod 365 in
  let year := n400 * 400 + 1 + n100 * 100 + n4 * 4 + n1 in
  if (n1 =? 4) || (n100 =? 4) then (year - 1, 12, 31)
  else
    let leap := (n1 =? 3) && (negb (n4 =? 24) || (n100 =? 3)) in
    let month := Z.shiftr (n + 50) 5 in
    let preceding := days_before_month leap month in
    if n <? preceding
    then (year, month - 1, n - (preceding - days_in_month leap (month - 1)) + 1)
    else (year, month, n - preceding + 1).

Definition month_abbr (month : Z) : string :=
  nth (Z.to_nat (month - 1))
      ["Jan"; "Feb"; "Mar"; "Apr"; "May"; "Jun";
       "Jul"; "Aug"; "Sep"; "Oct"; "Nov"; "Dec"] "".

(** [d.strftime('%b %d')] *)
Definition strftime_b_d (ordinal : Z) : string :=
  let '(_, month, day) := ord2ymd ordinal in
  month_abbr month +:+ " " +:+ (if day <? 10 then "0" else "") +:+ pretty day.

(** *** Progress over time *)

(** [max(1, min(int(days or 7), 90))]: [None] and 0 are both false. *)
Definition clamp_days (days : option Z) : Z :=
  let d :=
    match days with
    | Some d => if d =? 0 then 7 else d
    | None => 7
    end in
  Z.max 1 (Z.min d 90).

(** The [dates] list: today and the [n - 1] days before it, reversed. *)
Definition progress_dates (today n : Z) : result (list Z) :=
  earlier ← mapM (fun i => date_fromordinal (today - i)) (range 1 n);
  mret (rev (today :: earlier)).

(** One turn of [for a in assessments]. *)
Definition add_to_bucket (buckets : gmap Z (list Z)) (a : Assessment)
  : result (gmap Z (list Z)) :=
  let iso := date (a_timestamp a) in
  match buckets !! iso with
  | Some vals =>
      s ← compute_assessment_score a;
      mret (<[iso := vals ++ [s]]> buckets)
  | None => mret buckets
  end.

(** [round(sum(vals)/len(vals)) if vals else 0] *)
Definition rounded_mean (vals : list Z) : result Z :=
  match vals with
  | [] => Ok 0
  | _ => round_ratio (sum vals) (len vals)
  end.

Definition chart_dashboard_progress (st : store) (today : Z)
    (patientId : option string) (days : option Z) : result chart :=
  let assessments := for_patient a_patientId patientId (assessments st) in
  let n := clamp_days days in
  dates ← progress_dates today n;
  let buckets0 : gmap Z (list Z) :=
    foldl (fun buckets iso => <[iso := []]> buckets) ∅ dates in
  buckets ← foldl_result add_to_bucket buckets0 assessments;
  data ← mapM (fun iso => vals ← getitem buckets iso; rounded_mean vals) dates;
  mret {| labels := strftime_b_d <$> dates; data := data |}.

(** *** Skills radar *)

Definition radar_categories : list (string * list string) :=
  [ ("Fine Motor", ["fineMotor_grip"; "fineMotor_beads"]);
    ("Gross Motor", ["grossMotor_balance"; "grossMotor_time"; "grossMotor_falls"]);
    ("Cognitive", ["cognitive_approach"; "cognitive_memory"]);
    ("Sensory", ["sensory_behavior"]);
    ("Communication", ["communication_clarity"; "communication_grammar"]);
    ("Social", ["social_interaction"]);
    ("ADL", ["adl_independence"]);
    ("Attention", ["attention_span"]) ].

(** [round(sum(vals) / (len(vals) * 5) * 100) if vals else 0] *)
Definition percentage_score (vals : list Z) : result Z :=
  match vals with
  | [] => Ok 0
  | _ => round_percent (sum vals) (len vals * 5)
  end.

Definition chart_dashboard_skills (st : store) (patientId : option string)
  : result chart :=
  let assessments := for_patient a_patientId patientId (assessments st) in
  data ←
    mapM (fun '(label, keys) =>
            let vals :=
              foldl (fun vals a => foldl (collect_int (a_data a)) vals keys)
                    [] assessments in
            percentage_score vals)
         radar_categories;
  mret {| labels := fst <$> radar_categories; data := data |}.

(** *** Skill-performance report *)

Definition performance_categories : list (string * list string) :=
  [ ("Fine Motor Skills", ["fineMotor_grip"]);
    ("Gross Motor Skills", ["grossMotor_balance"]);
    ("Cognitive Abilities", ["cognitive_approach"]);
    ("Communication Skills", ["communication_clarity"; "communication_grammar"]);
    ("Social Skills", []);
    ("ADL Skills", ["adl_independence"]);
    ("Sensory Processing", ["sensory_behavior"]);
    ("Attention & Concentration", []) ].

Record skill_row : Type := mk_skill_row {
  skill : string;
  current : Z;
  previous : Z;
  goal : Z;
  status : string
}.

(** [[int(a.data.get(k)) for k in keys if a.data.get(k) is not None]]:
    no handler surrounds this [int]. *)
Definition present_ints (a : Assessment) (keys : list string) : result (list Z) :=
  mapM py_int (List.filter (fun v => negb (is_none v)) (dict_get (a_data a) <$> keys)).

(** One turn of [for a in assessments] within a category. *)
Definition add_category_score (keys : list string) (scores : list Z) (a : Assessment)
  : result (list Z) :=
  vals ← present_ints a keys;
  match vals with
  | [] => mret scores
  | _ => s ← round_percent (sum vals) (len vals * 5); mret (scores ++ [s])
  end.

Definition skill_performance_row (assessments : list Assessment)
    (category : string * list string) : result skill_row :=
  let '(label, keys) := category in
  scores ← foldl_result (add_category_score keys) [] assessments;
  let prev_scores :=
    if 1 <? len scores then take (length scores - 1) scores else [] in
  current ← rounded_mean scores;
  previous ←
    match prev_scores with
    | [] => Ok (Z.max 0 (current - 5))
    | _ => round_ratio (sum prev_scores) (len prev_scores)
    end;
  let status :=
    if previous <=? current then "On Track"
    else if 0 <? current then "Improving"
    else "Needs Attention" in
  let goal :=
    if current =? 0 then 80 else Z.min 100 (Z.max 80 (current + 5)) in
  mret {| skill := label; current := current; previous := previous;
          goal := goal; status := status |}.

Definition reports_skill_performance (st : store) (patientId : option string)
  : result (list skill_row) :=
  let assessments := for_patient a_patientId patientId (assessments st) in
  mapM (skill_performance_row assessments) performance_categories.

(** The dashboard query over the stored collections. *)
Definition dashboard_stats (st : store) (today : Z) (patientId : option string)
  : result dashboard :=
  compute_dashboard_stats today
    (for_patient a_patientId patientId (assessments st))
    (for_patient w_patientId patientId (workouts st)).

(** ** Record store: bulk clear *)

Record clear_response : Type := mk_clear_response {
  cleared_status : string;
  cleared_type : option string
}.

(** [type in (a, b)] *)
Definition type_in (type : option string) (a b : string) : bool :=
  match type with
  | Some t => String.eqb t a || String.eqb t b
  | None => false
  end.

Definition admin_clear (type : option string) (st : store) : store * clear_response :=
  let st :=
    if type_in type "assessments" "all"
    then {| patients := patients st; assessments := []; workouts := workouts st |}
    else st in
  let st :=
    if type_in type "workouts" "all"
    then {| patients := patients st; assessments := assessments st; workouts := [] |}
    else st in
  let st :=
    if type_in type "patients" "all"
    then {| patients := []; assessments := assessments st; workouts := workouts st |}
    else st in
  (st, {| cleared_status := "cleared"; cleared_type := type |}).

(** ** Document renderer *)

Definition nl : string := String newline EmptyString.

Inductive style : Type :=
  | Title
  | Heading1
  | Heading2
  | Normal
  | BulletPoint
  | NestedBullet.

Record paragraph : Type := Paragraph {
  text : string;
  para_style : style
}.

(** The blocks handed to the document engine; a spacer's height is in
    hundredths of an inch. *)
Inductive flowable : Type :=
  | Para (p : paragraph)
  | Spacer (height : Z).

Record render_state : Type := mk_render_state {
  story : list flowable;
  current_section : list paragraph;
  in_bullet_list : bool
}.

(** [story.extend(current_section); current_section = []] *)
Definition flushed (st : render_state) : list flowable :=
  story st ++ (Para <$> current_section st).

Definition nbsp (s : string) : string := replace "  " "&nbsp;&nbsp;" s.

(** [Paragraph(text, style)]: reportlab reads [text] as markup when the
    paragraph is built and raises [ValueError] on markup it cannot read.
    Text without [<] and [&] is character data and is always taken; on
    any other text [accepts], the parser of the installed library,
    decides. *)
Definition has_markup (text : string) : bool :=
  contains "<" text || contains "&" text.

Definition parses (accepts : string -> bool) (text : string) : bool :=
  negb (has_markup text) || accepts text.

Definition new_paragraph (accepts : string -> bool) (text : string) (s : style)
  : result paragraph :=
  if parses accepts text then Ok (Paragraph text s) else Raise ValueError.

(** The body of [for line in content.split('\n')]. *)
Definition render_line (accepts : string -> bool) (st : render_state) (line : string)
  : result render_state :=
  let line := strip line in
  if String.eqb line "" then
    Ok {| story := story st ++ [Spacer 15];
          current_section := current_section st;
          in_bullet_list := false |}
  else if startswith line "# " then
    p ← new_paragraph accepts (str_drop 2 line) Heading1;
    Ok {| story := flushed st ++ [Para p; Spacer 15];
          current_section := [];
          in_bullet_list := false |}
  else if startswith line "## " then
    p ← new_paragraph accepts (str_drop 3 line) Heading2;
    Ok {| story := flushed st ++ [Para p; Spacer 10];
          current_section := [];
          in_bullet_list := false |}
  else if startswith line "* " || startswith line "- " then
    let bullet_text := nbsp (str_drop 2 line) in
    p ← new_paragraph accepts ("• " +:+ bullet_text) BulletPoint;
    Ok {| story := story st;
          current_section := current_section st ++ [p];
          in_bullet_list := true |}
  else if startswith line "  * " || startswith line "  - " then
    let bullet_text := nbsp (str_drop 4 line) in
    p ← new_paragraph accepts ("  ○ " +:+ bullet_text) NestedBullet;
    Ok {| story := story st;
          current_section := current_section st ++ [p];
          in_bullet_list := in_bullet_list st |}
  else if in_bullet_list st && (startswith line "  " || startswith line "   ") then
    match last (current_section st) with
    | None => Raise IndexError
    | Some last_item =>
        let text := text last_item +:+ " " +:+ nbsp (strip line) in
        p ← new_paragraph accepts text BulletPoint;
        Ok {| story := story st;
              current_section :=
                take (length (current_section st) - 1) (current_section st) ++ [p];
              in_bullet_list := in_bullet_list st |}
    end
  else
    p ← new_paragraph accepts (nbsp line) Normal;
    Ok {| story := story st;
          current_section := current_section st ++ [p];
          in_bullet_list := false |}.

(** What the renderer returns: the blocks given to [doc.build] when
    reportlab can be imported, the bytes of the text when it cannot. *)
Inductive document : Type :=
  | PdfStory (doc_title : string) (blocks : list flowable)
  | PlainText (bytes : list Byte.byte).

Definition build_story (accepts : string -> bool) (title content : string)
  : result (list flowable) :=
  p ← new_paragraph accepts title Title;
  st ← foldl_result (render_line accepts)
         {| story := [Para p; Spacer 20];
            current_section := [];
            in_bullet_list := false |}
         (split_lines content);
  mret (flushed st).

Definition _build_pdf_bytes (accepts : string -> bool) (reportlab : bool)
    (title content : string) : result document :=
  if reportlab then
    blocks ← build_story accepts title content; mret (PdfStory title blocks)
  else Ok (PlainText (encode_utf8 (title +:+ nl +:+ nl +:+ content))).

(** ** Report composer *)

Record ReportRequest : Type := mk_ReportRequest {
  r_patientId : option string;
  reportType : string;
  startDate : option Z;
  endDate : option Z;
  format : option string
}.

Record assessment_preview : Type := mk_assessment_preview {
  ap_patientId : string;
  ap_timestamp : datetime;
  ap_score : Z;
  ap_highlights : list (string * pyval)
}.

Record workout_preview : Type := mk_workout_preview {
  wp_patientId : string;
  wp_activityName : string;
  wp_category : string;
  wp_duration : Z;
  wp_timestamp : datetime
}.

(** The payload serialised for the generator. *)
Record user_prompt : Type := mk_user_prompt {
  up_reportType : string;
  up_dateRange : option Z * option Z;
  up_patient : option Patient;
  up_stats : dashboard;
  up_assessmentsSample : list assessment_preview;
  up_workoutsSample : list workout_preview
}.

(** What building the model and calling [generate_content] comes to: the
    [text] of the result, or an exception with its message. *)
Inductive generation : Type :=
  | Generated (text : option string)
  | GenerationFailed (reason : string).

(** What the process finds around it: the current UTC date, whether the
    generator is configured ([genai], the API key and the model name are
    all set), the generator itself, whether reportlab can be imported,
    and the markup that its paragraphs accept.  The system instruction is
    a constant of the source and part of the generator. *)
Record environment : Type := mk_environment {
  today_utc : Z;
  gemini_configured : bool;
  generate_content : user_prompt -> generation;
  reportlab_available : bool;
  markup_ok : string -> bool
}.

Definition _read_patients_as_map (st : store) : gmap string Patient :=
  foldl (fun result p =>
           let p :=
             if String.eqb (p_id p) ""
             then {| p_id := pretty (Z.of_nat (size result) + 1);
                     p_name := p_name p; p_age := p_age p |}
             else p in
           <[p_id p := p]> result)
        ∅ (patients st).

(** [any(compute_assessment_score(a) > 0 for a in assessments)] *)
Fixpoint has_scores (assessments : list Assessment) : result bool :=
  match assessments with
  | [] => Ok false
  | a :: rest =>
      s ← compute_assessment_score a;
      if 0 <? s then Ok true else has_scores rest
  end.

(** [l[-n:]] *)
Definition last_n {A} (n : nat) (l : list A) : list A := drop (length l - n) l.

Definition insufficient_data_content (patient_info : option Patient) : string :=
  let pname := match patient_info with Some p => p_name p | None => "the patient" end in
  let page := patient_info ≫= p_age in
  let age_str :=
    match page with
    | Some age => " (Age " +:+ pretty age +:+ ")"
    | None => ""
    end in
  "Insufficient data to generate a detailed report for " +:+ pname +:+ age_str
    +:+ " at this time." +:+ nl +:+ nl
  +:+ "What this means:"
  +:+ "- No scored assessment fields were provided yet, and no home workouts are recorded."
  +:+ nl +:+ nl
  +:+ "Recommended next steps:"
  +:+ "- Complete at least one assessment with key skill ratings (e.g., Fine Motor, Gross Motor, Communication)."
  +:+ nl
  +:+ "- Optionally log a few home workout activities to enrich the analysis." +:+ nl
  +:+ "Once new data is available, generate the report again to see personalized insights and recommendations.".

Definition headline_stats (stats : dashboard) : string :=
  "Active Patients: " +:+ pretty (activePatients stats) +:+ nl
  +:+ "Average Progress: " +:+ pretty (averageProgress stats) +:+ "%" +:+ nl
  +:+ "Total Workouts: " +:+ pretty (homeWorkouts stats) +:+ nl.

Definition not_configured_content (stats : dashboard) : string :=
  "AI is not configured. Summary placeholder:" +:+ nl +:+ headline_stats stats.

Definition generation_failed_content (reason : string) (stats : dashboard) : string :=
  "AI generation failed. Fallback summary based on available data." +:+ nl
  +:+ "Reason: " +:+ reason +:+ nl
  +:+ headline_stats stats.

Definition preview_assessment (a : Assessment) : result assessment_preview :=
  s ← compute_assessment_score a;
  mret {| ap_patientId := a_patientId a;
          ap_timestamp := a_timestamp a;
          ap_score := s;
          ap_highlights :=
            (fun k => (k, dict_get (a_data a) k)) <$> take 8 (fst <$> a_data a) |}.

Definition preview_workout (w : Workout) : workout_preview :=
  {| wp_patientId := w_patientId w;
     wp_activityName := w_activityName w;
     wp_category := w_category w;
     wp_duration := w_duration w;
     wp_timestamp := w_timestamp w |}.

(** The narrative and the payloads sent to the generator on the way. *)
Record composed : Type := mk_composed {
  content : string;
  generator_calls : list user_prompt
}.

(** [assessments_preview], [workouts_preview] and [user_prompt]. *)
Definition build_prompt (req : ReportRequest) (patient_info : option Patient)
    (stats : dashboard) (assessments : list Assessment) (workouts : list Workout)
  : result user_prompt :=
  assessments_preview ← mapM preview_assessment (last_n 50 assessments);
  let workouts_preview := preview_workout <$> last_n 100 workouts in
  mret {| up_reportType := reportType req;
          up_dateRange := (startDate req, endDate req);
          up_patient := patient_info;
          up_stats := stats;
          up_assessmentsSample := assessments_preview;
          up_workoutsSample := workouts_preview |}.

(** The part of [generate_report] that prepares [content]. *)
Definition compose_content (env : environment) (req : ReportRequest)
    (patient_info : option Patient) (assessments : list Assessment)
    (workouts : list Workout) : result composed :=
  stats ← compute_dashboard_stats (today_utc env) assessments workouts;
  scored ← has_scores assessments;
  let content : option string :=
    if negb scored && (len workouts =? 0)
    then Some (insufficient_data_content patient_info)
    else None in
  if negb (gemini_configured env) then
    mret {| content := default (not_configured_content stats) content;
            generator_calls := [] |}
  else
    prompt ← build_prompt req patient_info stats assessments workouts;
    match content with
    | Some c => mret {| content := c; generator_calls := [] |}
    | None =>
        match generate_content env prompt with
        | Generated (Some (String c s)) =>
            mret {| content := String c s; generator_calls := [prompt] |}
        | Generated _ =>
            mret {| content := "No content generated."; generator_calls := [prompt] |}
        | GenerationFailed reason =>
            mret {| content := generation_failed_content reason stats;
                    generator_calls := [prompt] |}
        end
    end.

(** [s.title()]: a letter after a letter is lowered, any other letter is
    raised. *)
Definition upper_char (c : ascii) : ascii :=
  let n := nat_of_ascii c in
  if (97 <=? n)%nat && (n <=? 122)%nat then ascii_of_nat (n - 32) else c.

Definition is_alpha (c : ascii) : bool :=
  let n := nat_of_ascii c in
  ((65 <=? n)%nat && (n <=? 90)%nat) || ((97 <=? n)%nat && (n <=? 122)%nat).

Fixpoint title_go (after_letter : bool) (s : string) : string :=
  match s with
  | EmptyString => EmptyString
  | String c s' =>
      String (if after_letter then lower_char c else upper_char c)
             (title_go (is_alpha c) s')
  end.

Definition title_case (s : string) : string := title_go false s.

(** [while '\n\n\n' in s: s = s.replace('\n\n\n', '\n\n')]; every turn
    shortens [s], so its length bounds the number of turns. *)
Fixpoint collapse_blank_lines (turns : nat) (s : string) : string :=
  match turns with
  | O => s
  | S turns' =>
      if contains (nl +:+ nl +:+ nl) s
      then collapse_blank_lines turns' (replace (nl +:+ nl +:+ nl) (nl +:+ nl) s)
      else s
  end.

Definition clean_content (content : string) : string :=
  let s := replace "```" "" (replace "```markdown" "" content) in
  collapse_blank_lines (String.length s) s.

Inductive response : Type :=
  | JsonContent (content : string)
  | PdfDownload (content_disposition : string) (body : document).

Definition wants_pdf (req : ReportRequest) (accept : string) : bool :=
  String.eqb (lower (default "" (format req))) "pdf"
  || contains "application/pdf" (lower accept).

(** The part of [generate_report] that returns [content] as JSON or as a
    document. *)
Definition respond (env : environment) (req : ReportRequest)
    (patient_info : option Patient) (accept : string) (content : string)
  : result response :=
  if wants_pdf req accept then
    let title :=
      match patient_info with Some p => p_name p | None => "Patient Report" end
      +:+ " - " +:+ title_case (reportType req) in
    pdf_bytes ← _build_pdf_bytes (markup_ok env) (reportlab_available env) title
                  (clean_content content);
    mret (PdfDownload
            ("attachment; filename=report_" +:+ reportType req +:+ "_"
             +:+ match patient_info with Some p => p_id p | None => "all" end
             +:+ ".pdf")
            pdf_bytes)
  else Ok (JsonContent content).

Definition truthy (s : option string) : bool :=
  match s with Some (String _ _) => true | _ => false end.

(** [patients_map.get(str(req.patientId)) if req.patientId else None] *)
Definition patient_info_of (st : store) (req : ReportRequest) : option Patient :=
  if truthy (r_patientId req)
  then _read_patients_as_map st !! default "" (r_patientId req)
  else None.

Definition generate_report (env : environment) (st : store) (req : ReportRequest)
    (accept : string) : result (response * list user_prompt) :=
  let assessments := for_patient a_patientId (r_patientId req) (assessments st) in
  let workouts := for_patient w_patientId (r_patientId req) (workouts st) in
  let patient_info := patient_info_of st req in
  c ← compose_content env req patient_info assessments workouts;
  r ← respond env req patient_info accept (content c);
  mret (r, generator_calls c).

(** ** Specification-side notions *)

(** The integer a value converts to, when [int] accepts it. *)
Definition convertible (v : pyval) : option Z :=
  match py_int v with
  | Ok i => Some i
  | Raise _ => None
  end.

(** The convertible values among the six rating keys, in key order. *)
Definition rating_values (a : Assessment) : list Z :=
  omap (fun k => convertible (dict_get (a_data a) k)) rating_keys.

(** The score of an assessment, where it is defined (0 stands in where
    the computation raises). *)
Definition score_value (a : Assessment) : Z :=
  match compute_assessment_score a with
  | Ok s => s
  | Raise _ => 0
  end.

(** The scores of the assessments dated [day], in stored order. *)
Definition on_day (day : Z) (a : Assessment) : bool := date (a_timestamp a) =? day.

Definition scores_on (assessments : list Assessment) (day : Z) : list Z :=
  score_value <$> List.filter (on_day day) assessments.

(** The [n] days that end today, oldest first. *)
Definition window (today n : Z) : list Z :=
  (fun j => today - (n - 1) + j) <$> range 0 n.

(** [N] clamped to [1, 90]. *)
Definition clamp (N : Z) : Z := Z.max 1 (Z.min N 90).

(** Workouts whose timestamp falls on weekday [i]. *)
Definition on_weekday (i : Z) (w : Workout) : bool := weekday (w_timestamp w) =? i.

(** Workouts whose category, lowered, is the vocabulary word [c]. *)
Definition in_category (c : string) (w : Workout) : bool :=
  String.eqb (lower (w_category w)) c.

Definition in_vocabulary (w : Workout) : bool :=
  existsb (fun c => in_category c w) categories.

(** The largest finite binary64 number. *)
Definition float_max : Z := (2 ^ 53 - 1) * 2 ^ 971.

(** [2^j <= a / d], without fractions. *)
Definition ratio_ge (a d j : Z) : Prop :=
  d * 2 ^ Z.max 0 j <= a * 2 ^ Z.max 0 (- j).

(** The value of a float is at most [B] in magnitude. *)
Definition float_within (B : Z) (x : pyfloat) : Prop :=
  match x with
  | FFinite m e => Z.abs m * 2 ^ Z.max 0 e <= B * 2 ^ Z.max 0 (- e)
  | _ => False
  end.

(** The kernel's binary64 numbers, read as Python floats. *)
Definition float_of_prim (f : PrimFloat.float) : pyfloat :=
  match FloatOps.Prim2SF f with
  | SpecFloat.S754_zero _ => FFinite 0 0
  | SpecFloat.S754_infinity s => FInf s
  | SpecFloat.S754_nan => FNan
  | SpecFloat.S754_finite s m e => FFinite (if s then Z.neg m else Z.pos m) e
  end.

(** Two floats denote the same number. *)
Definition same_float (x y : pyfloat) : bool :=
  match x, y with
  | FFinite m1 e1, FFinite m2 e2 =>
      m1 * 2 ^ Z.max 0 (e1 - e2) =? m2 * 2 ^ Z.max 0 (e2 - e1)
  | FInf s1, FInf s2 => Bool.eqb s1 s2
  | FNan, FNan => true
  | _, _ => false
  end.

(** [a / b] and [a / b * 100] on the kernel's floats, for integers that
    binary64 holds exactly. *)
Definition prim_of_Z (a : Z) : PrimFloat.float :=
  PrimFloat.of_uint63 (Uint63.of_Z a).

Definition prim_div (a b : Z) : PrimFloat.float :=
  PrimFloat.div (prim_of_Z a) (prim_of_Z b).

Definition agrees_with_prim (a b : Z) : bool :=
  same_float (round_binary64 a b) (float_of_prim (prim_div a b))
  && same_float (float_mul (round_binary64 a b) (float_of_small_int 100))
                (float_of_prim (PrimFloat.mul (prim_div a b) (prim_of_Z 100))).

(** ** Sample data *)

Definition sample_day : datetime := {| date_ordinal := 739923; day_seconds := 36000 |}.

Definition sample_assessment (data : list (string * pyval)) : Assessment :=
  {| a_id := "ASSESS_1"; a_patientId := "p1"; a_timestamp := sample_day; a_data := data |}.

Definition sample_workout (category : string) : Workout :=
  {| w_id := "WORK_1"; w_patientId := "p1"; w_activityName := "Bead threading";
     w_category := category; w_duration := 15; w_frequency := "daily";
     w_instructions := None; w_timestamp := sample_day |}.

(** A store whose one assessment rates communication clarity in words. *)
Definition store_with_text_rating : store :=
  {| patients := [];
     assessments := [sample_assessment [("communication_clarity", VStr "good")]];
     workouts := [] |}.

(** A parser that wants every [<b>] closed. *)
Definition closed_bold (text : string) : bool :=
  negb (contains "<b>" text) || contains "</b>" text.

(** A generator that is out of quota, and a request for one patient. *)
Definition sample_environment (configured : bool) : environment :=
  {| today_utc := 739923;
     gemini_configured := configured;
     generate_content := fun _ => GenerationFailed "429 quota exceeded";
     reportlab_available := true;
     markup_ok := closed_bold |}.

Definition sample_request : ReportRequest :=
  {| r_patientId := Some "p1"; reportType := "daily";
     startDate := None; endDate := None; format := Some "text" |}.

Definition store_with_one_rating : store :=
  {| patients := [ {| p_id := "p1"; p_name := "Ann"; p_age := Some 7 |} ];
     assessments := [sample_assessment [("fineMotor_grip", VInt 4)]];
     workouts := [sample_workout "fine-motor"] |}.

(** A store whose one assessment, dated 2026-11-03, rates grip 10 of 5. *)
Definition store_with_high_rating : store :=
  {| patients := [];
     assessments := [sample_assessment [("fineMotor_grip", VInt 10)]];
     workouts := [] |}.

(** A store whose one assessment, dated 2026-11-03, rates grip [10^400]. *)
Definition store_with_huge_rating : store :=
  {| patients := [];
     assessments := [sample_assessment [("fineMotor_grip", VInt (10 ^ 400))]];
     workouts := [] |}.

(** Three days ending 2026-11-03: one score of 80 on the first, scores
    of 60 and 40 on the third. *)
Definition assessment_on (ordinal grip : Z) : Assessment :=
  {| a_id := "ASSESS_2"; a_patientId := "p1";
     a_timestamp := {| date_ordinal := ordinal; day_seconds := 0 |};
     a_data := [("fineMotor_grip", VInt grip)] |}.

Definition store_with_three_days : store :=
  {| patients := [];
     assessments := [assessment_on 739923 3; assessment_on 739921 4; assessment_on 739923 2];
     workouts := [] |}.

(** One heading, one subheading, two bullets and an indented line. *)
Definition sample_markup : string :=
  "# Title" +:+ nl +:+ "## Sub" +:+ nl +:+ "* one" +:+ nl +:+ "* two" +:+ nl
  +:+ "  more text".

(** ** Record store: writes and listings *)

(** [bool(v)] *)
Definition py_truthy (v : pyval) : bool :=
  match v with
  | VNone => false
  | VBool b => b
  | VInt z => negb (z =? 0)
  | VFloat (FFinite m _) => negb (m =? 0)
  | VFloat _ => true
  | VStr s => negb (String.eqb s "")
  | VList l => match l with [] => false | _ => true end
  | VDict d => match d with [] => false | _ => true end
  end.

(** [d[k] = v]: the binding of [k] is replaced where it stands, a new key
    goes to the end. *)
Fixpoint dict_set (d : list (string * pyval)) (k : string) (v : pyval)
  : list (string * pyval) :=
  match d with
  | [] => [(k, v)]
  | (k', v') :: d' =>
      if String.eqb k' k then (k', v) :: d' else (k', v') :: dict_set d' k v
  end.

(** [k in d] and the value bound to [k], kept apart from a bound [None]. *)
Fixpoint dict_find (d : list (string * pyval)) (k : string) : option pyval :=
  match d with
  | [] => None
  | (k', v) :: d' => if String.eqb k' k then Some v else dict_find d' k
  end.

(** What a request reads from its surroundings: the clock, as the
    [datetime] and as the milliseconds since the epoch that identifiers
    are made of; [datetime.fromisoformat]; [str] on floats, lists and
    dictionaries; and what [json.loads(model_dump_json())] makes of a
    value that JSON text may not hold as it is, or the exception it ends
    in. *)
Record runtime : Type := mk_runtime {
  now_utc : datetime;
  now_ms : Z;
  fromisoformat : string -> option datetime;
  repr_other : pyval -> string;
  dump_json : pyval -> result pyval
}.

(** [str(v)] *)
Definition py_str (rt : runtime) (v : pyval) : string :=
  match v with
  | VStr s => s
  | VInt z => pretty z
  | VBool true => "True"
  | VBool false => "False"
  | VNone => "None"
  | _ => repr_other rt v
  end.

(** A value without [replace] raises inside the [try] and ends, like a
    string that does not parse, at the current time. *)
Definition parse_iso_ts (rt : runtime) (value : pyval) : datetime :=
  if negb (py_truthy value) then now_utc rt
  else
    match value with
    | VStr s => default (now_utc rt) (fromisoformat rt (replace "Z" "+00:00" s))
    | _ => now_utc rt
    end.

Record NewPatient : Type := mk_NewPatient {
  np_name : string;
  np_age : option Z
}.

Definition create_patient (rt : runtime) (p : NewPatient) (st : store)
  : store * Patient :=
  let new_id := pretty (now_ms rt) in
  let rec := {| p_id := new_id; p_name := strip (np_name p); p_age := np_age p |} in
  ({| patients := patients st ++ [rec];
      assessments := assessments st;
      workouts := workouts st |},
   rec).

(** The [message] and [id] of the answer. *)
Definition create_workout (workout : Workout) (st : store) : store * (string * string) :=
  ({| patients := patients st;
      assessments := assessments st;
      workouts := workouts st ++ [workout] |},
   ("Workout saved successfully", w_id workout)).

Definition list_workouts (st : store) (patientId : option string) : list Workout :=
  for_patient w_patientId patientId (workouts st).

(** How a creation ends: the answer, the [HTTPException] raised on
    purpose, or an exception that nothing handles. *)
Inductive creation : Type :=
  | Created (message id : string) (score : Z)
  | HTTPException (status_code : Z) (detail : string)
  | Unhandled (e : exn).

(** [k not in ['patientId', 'timestamp']] *)
Definition is_data_key (k : string) : bool :=
  negb (String.eqb k "patientId" || String.eqb k "timestamp").

(** The first lines of [create_assessment]: the payload with its patient
    identifier in place, or nothing when there is no identifier. *)
Definition require_patient (payload : list (string * pyval))
  : option (list (string * pyval)) :=
  if negb (py_truthy (dict_get payload "patientId")) then
    let pid :=
      if py_truthy (dict_get payload "patientId") then dict_get payload "patientId"
      else dict_get payload "patient_id" in
    if negb (py_truthy pid) then None
    else Some (dict_set payload "patientId" pid)
  else Some payload.

(** [None], booleans, strings and the integers of 64 bits come back from
    JSON text as they went in; floats, longer integers and containers are
    the serialiser's business. *)
Definition plain_json (v : pyval) : bool :=
  match v with
  | VNone | VBool _ | VStr _ => true
  | VInt z => (- 2 ^ 63 <=? z) && (z <? 2 ^ 63)
  | _ => false
  end.

(** One entry of [json.loads(assessment.model_dump_json())['data']]. *)
Definition stored_entry (rt : runtime) (kv : string * pyval)
  : result (string * pyval) :=
  v ← (if plain_json (snd kv) then Ok (snd kv) else dump_json rt (snd kv));
  mret (fst kv, v).

(** The record goes to the file as the serialiser gives it back, and
    before the score of the answer is computed from the payload. *)
Definition create_assessment (rt : runtime) (payload : list (string * pyval))
    (st : store) : store * creation :=
  match require_patient payload with
  | None => (st, HTTPException 400 "patientId is required")
  | Some payload =>
      let assessment :=
        {| a_id := "ASSESS_" +:+ pretty (now_ms rt);
           a_patientId := py_str rt (dict_get payload "patientId");
           a_timestamp := parse_iso_ts rt (dict_get payload "timestamp");
           a_data := List.filter (fun kv => is_data_key (fst kv)) payload |} in
      match mapM (stored_entry rt) (a_data assessment) with
      | Raise e => (st, Unhandled e)
      | Ok dumped =>
          let st' :=
            {| patients := patients st;
               assessments :=
                 assessments st
                 ++ [ {| a_id := a_id assessment;
                         a_patientId := a_patientId assessment;
                         a_timestamp := a_timestamp assessment;
                         a_data := dumped |} ];
               workouts := workouts st |} in
          (st',
           match compute_assessment_score assessment with
           | Ok s => Created "Assessment saved successfully" (a_id assessment) s
           | Raise e => Unhandled e
           end)
      end
  end.

(** *** Session history *)

Record session_item : Type := mk_session_item {
  si_date : Z;
  si_patient : string;
  si_patientId : string;
  si_age : option Z;
  si_duration : Z;
  si_activities : string;
  si_score : Z;
  si_notes : pyval
}.

(** A byte that continues a character begun before it. *)
Definition is_continuation_byte (c : ascii) : bool :=
  let n := nat_of_ascii c in (128 <=? n)%nat && (n <? 192)%nat.

(** [s[:n]], counted in characters. *)
Fixpoint take_chars (n : nat) (s : string) : string :=
  match s with
  | EmptyString => EmptyString
  | String c s' =>
      if is_continuation_byte c then String c (take_chars n s')
      else
        match n with
        | O => EmptyString
        | S n' => String c (take_chars n' s')
        end
  end.

(** [v[:60]]: strings and lists can be sliced, nothing else can (on a
    dictionary the exception is a [KeyError] from Python 3.12 on). *)
Definition slice60 (v : pyval) : result pyval :=
  match v with
  | VStr s => Ok (VStr (take_chars 60 s))
  | VList l => Ok (VList (take 60 l))
  | _ => Raise TypeError
  end.

(** The entry appended for one assessment; the values of the dictionary
    are evaluated in the order written, the score before the notes. *)
Definition session_item_of (patients_map : gmap string Patient) (a : Assessment)
  : result session_item :=
  let pid := a_patientId a in
  let p := patients_map !! pid in
  let name := default "" (p_name <$> p) in
  score ← compute_assessment_score a;
  notes ← slice60 (default (VStr "") (dict_find (a_data a) "fineMotor_notes"));
  mret {| si_date := date (a_timestamp a);
          si_patient := if String.eqb name "" then a_patientId a else name;
          si_patientId := pid;
          si_age := p ≫= p_age;
          si_duration := 45;
          si_activities := "Assessment Session";
          si_score := score;
          si_notes := notes |}.

(** [items.sort(key=lambda x: x['date'], reverse=True)]: later dates
    first, items of one date in the order they had. *)
Fixpoint insert_by_date (x : session_item) (l : list session_item)
  : list session_item :=
  match l with
  | [] => [x]
  | y :: l' =>
      if si_date x <? si_date y then y :: insert_by_date x l' else x :: y :: l'
  end.

Definition sort_by_date_desc (items : list session_item) : list session_item :=
  foldr insert_by_date [] items.

Definition reports_session_history (st : store) (patientId : option string)
  : result (list session_item) :=
  let patients_map := _read_patients_as_map st in
  items ← mapM (session_item_of patients_map)
               (for_patient a_patientId patientId (assessments st));
  mret (sort_by_date_desc items).

(** ** Further specification-side notions *)

(** The convertible values that the assessments hold under [keys],
    assessment after assessment. *)
Definition pooled_values (keys : list string) (assessments : list Assessment) : list Z :=
  concat ((fun a => omap (fun k => convertible (dict_get (a_data a) k)) keys)
            <$> assessments).

(** Every convertible value of an assessment lies between 0 and 5. *)
Definition rated_0_to_5 (a : Assessment) : Prop :=
  forall k v, convertible (dict_get (a_data a) k) = Some v -> 0 <= v <= 5.

(** Every value an assessment holds is absent or converts to an integer
    between 0 and 5. *)
Definition rated_or_absent (a : Assessment) : Prop :=
  forall k, dict_get (a_data a) k <> VNone ->
            exists v, py_int (dict_get (a_data a) k) = Ok v /\ 0 <= v <= 5.

(** The bounds of a row of the skill-performance report. *)
Definition row_in_range (row : skill_row) : Prop :=
  0 <= current row <= 100 /\ 0 <= previous row <= 100 /\ 80 <= goal row <= 100.

(** A string without white space at either end. *)
Definition trimmed (s : string) : Prop := lstrip s = s /\ rstrip s = s.

(** The three collections of a store are those of another. *)
Definition clear_type (type : string) (st : store) : store :=
  fst (admin_clear (Some type) st).

(** The convertible values a payload holds under the six rating keys. *)
Definition payload_ratings (payload : list (string * pyval)) : list Z :=
  omap (fun k => convertible (dict_get payload k)) rating_keys.

(** The patient identifier a payload names: [patientId], or [patient_id]
    when that is absent or false. *)
Definition named_patient (payload : list (string * pyval)) : pyval :=
  if py_truthy (dict_get payload "patientId") then dict_get payload "patientId"
  else dict_get payload "patient_id".

(** A query for [patientId] selects the records of patient [pid]. *)
Definition selects (patientId : option string) (pid : string) : bool :=
  match patientId with
  | Some (String c s) => String.eqb pid (String c s)
  | _ => true
  end.

(** The serialiser accepts every entry of a payload. *)
Definition serialisable (rt : runtime) (payload : list (string * pyval)) : Prop :=
  Forall (fun kv => plain_json (snd kv) = true \/ is_ok (dump_json rt (snd kv)) = true)
         payload.

(** A payload that names patient p1 under [patient_id] and rates grip
    with the digits of [10^400], a number that no float holds. *)
Definition payload_with_huge_rating : list (string * pyval) :=
  [("patient_id", VStr "p1"); ("timestamp", VStr "2026-11-03T10:00:00Z");
   ("fineMotor_grip", VStr (String "1" (string_of_list_ascii (repeat "0"%char 400))));
   ("fineMotor_notes", VStr "tired")].

(** A runtime whose serialiser refuses what is not plain. *)
Definition sample_runtime : runtime :=
  {| now_utc := sample_day; now_ms := 1793700000000;
     fromisoformat := fun _ => Some sample_day;
     repr_other := fun _ => "";
     dump_json := fun _ => Raise ValueError |}.

(** The number of characters of a string: the bytes that begin one. *)
Fixpoint char_count (s : string) : nat :=
  match s with
  | EmptyString => 0%nat
  | String c s' => ((if is_continuation_byte c then 0 else 1) + char_count s')%nat
  end.

(** The notes of an assessment as the session history reads them. *)
Definition notes_of (a : Assessment) : pyval :=
  default (VStr "") (dict_find (a_data a) "fineMotor_notes").

(** The order of the session history: no item before a later one. *)
Definition later_first (x y : session_item) : Prop := si_date y <= si_date x.

Definition dated (d : Z) (it : session_item) : bool := si_date it =? d.

(** The item of the session history that stands for an assessment. *)
Definition item_of (a : Assessment) (it : session_item) : Prop :=
  si_date it = date (a_timestamp a)
  /\ si_patientId it = a_patientId a
  /\ compute_assessment_score a = Ok (si_score it)
  /\ slice60 (notes_of a) = Ok (si_notes it)
  /\ si_duration it = 45.

(** A store whose second assessment holds notes that are [null]. *)
Definition store_with_null_notes : store :=
  {| patients := [];
     assessments := [assessment_on 739923 3;
                     sample_assessment [("fineMotor_notes", VNone)]];
     workouts := [] |}.
(** A store with one assessment, dated two days before 2026-11-03, whose
    score raises. *)
Definition store_with_old_huge_rating : store :=
  {| patients := [];
     assessments := [assessment_on 739923 3; assessment_on 739921 (10 ^ 400)];
     workouts := [] |}.
(** How a line reads once it is stripped. *)
Definition is_blank (line : string) : bool := String.eqb (strip line) "".

Definition is_heading (line : string) : bool :=
  startswith (strip line) "# " || startswith (strip line) "## ".

(** The paragraph that stands for a line that is not blank. *)
Definition line_paragraph (line : string) : paragraph :=
  let line := strip line in
  if startswith line "# " then Paragraph (str_drop 2 line) Heading1
  else if startswith line "## " then Paragraph (str_drop 3 line) Heading2
  else if startswith line "* " || startswith line "- "
  then Paragraph ("• " +:+ nbsp (str_drop 2 line)) BulletPoint
  else Paragraph (nbsp line) Normal.

(** The paragraphs among the blocks of a document, in their order. *)
Definition paragraphs_of (blocks : list flowable) : list paragraph :=
  omap (fun b => match b with Para p => Some p | Spacer _ => None end) blocks.

Definition written_lines (content : string) : list string :=
  List.filter (fun line => negb (is_blank line)) (split_lines content).

Definition blank_lines (content : string) : list string :=
  List.filter is_blank (split_lines content).

(** The texts of the paragraphs that rendering builds, the title first. *)
Definition paragraph_texts (title content : string) : list string :=
  title :: (text <$> (line_paragraph <$> written_lines content)).

(** Text of ASCII characters only. *)
Definition is_ascii (s : string) : bool :=
  forallb (fun c => (nat_of_ascii c <? 128)%nat) (list_ascii_of_string s).

(** Three line breaks in a row. *)
Definition blank_gap : string := nl +:+ nl +:+ nl.

(** The records that a request for [patientId] may draw on. *)
Definition sample_of_patient (patientId : option string) (prompt : user_prompt) : Prop :=
  Forall (fun ap => selects patientId (ap_patientId ap) = true)
         (up_assessmentsSample prompt)
  /\ Forall (fun wp => selects patientId (wp_patientId wp) = true)
            (up_workoutsSample prompt).

Definition sample_bounded (prompt : user_prompt) : Prop :=
  (length (up_assessmentsSample prompt) <= 50)%nat
  /\ (length (up_workoutsSample prompt) <= 100)%nat
  /\ Forall (fun ap => (length (ap_highlights ap) <= 8)%nat)
            (up_assessmentsSample prompt).

(** A store without workouts whose one assessment rates grip [-10^400]. *)
Definition store_with_huge_negative_rating : store :=
  {| patients := [];
     assessments := [sample_assessment [("fineMotor_grip", VInt (- 10 ^ 400))]];
     workouts := [] |}.

(** A request for the report of patient p1 as a PDF. *)
Definition pdf_request : ReportRequest :=
  {| r_patientId := Some "p1"; reportType := "daily";
     startDate := None; endDate := None; format := Some "pdf" |}.

(** The surroundings in which the generator fails with a reason that
    opens a bold tag. *)
Definition failing_environment (generate : user_prompt -> generation)
    (accepts : string -> bool) : environment :=
  {| today_utc := 739923;
     gemini_configured := true;
     generate_content := generate;
     reportlab_available := true;
     markup_ok := accepts |}.

(** A generator that answers with a fenced text. *)
Definition fenced_environment : environment :=
  {| today_utc := 739923;
     gemini_configured := true;
     generate_content :=
       fun _ => Generated (Some ("```markdown" +:+ nl +:+ "# Summary" +:+ nl +:+ nl
                                 +:+ nl +:+ nl +:+ "* steady" +:+ nl +:+ "```"));
     reportlab_available := true;
     markup_ok := closed_bold |}.

(** * Properties *)

(** ** Lists, sums and the result monad *)

Lemma sum_from (l : list Z) (acc : Z) : foldl Z.add acc l = acc + sum l.
Proof.
  unfold sum. revert acc.
  induction l as [| x l IH]; intros acc; simpl; [lia |].
  rewrite (IH (acc + x)), (IH (0 + x)). lia.
Qed.

Lemma sum_cons (x : Z) (l : list Z) : sum (x :: l) = x + sum l.
Proof. unfold sum at 1. simpl. by rewrite sum_from. Qed.

Lemma len_cons {A} (x : A) (l : list A) : len (x :: l) = 1 + len l.
Proof. unfold len. simpl length. lia. Qed.

Lemma len_filter_le {A} (p : A -> bool) (l : list A) : len (List.filter p l) <= len l.
Proof.
  induction l as [| x l IH]; simpl; [done |].
  destruct (p x); rewrite ?len_cons; lia.
Qed.

Lemma length_omap_le {A B} (f : A -> option B) (l : list A) :
  (length (omap f l) <= length l)%nat.
Proof.
  induction l as [| x l IH]; csimpl; [done |].
  destruct (f x); csimpl; lia.
Qed.

Lemma bind_ok_inv {A B} (r : result A) (f : A -> result B) (y : B) :
  (x ← r; f x) = Ok y -> exists x, r = Ok x /\ f x = Ok y.
Proof. destruct r as [x |]; simpl; [eauto | discriminate]. Qed.

Lemma mapM_cons {A B} (f : A -> result B) (x : A) (l : list A) :
  mapM f (x :: l) = (y ← f x; k ← mapM f l; mret (y :: k)).
Proof. reflexivity. Qed.

Lemma mapM_ok_fmap {A B} (f : A -> result B) (g : A -> B) (l : list A) :
  (forall x, x ∈ l -> f x = Ok (g x)) -> mapM f l = Ok (g <$> l).
Proof.
  induction l as [| x l IH]; intros Hf; [done |].
  simpl. rewrite (Hf x) by set_solver. simpl.
  rewrite IH by (intros y Hy; apply Hf; set_solver). done.
Qed.

Lemma mapM_ok_inv {A B} (f : A -> result B) (l : list A) (k : list B) :
  mapM f l = Ok k -> Forall2 (fun x y => f x = Ok y) l k.
Proof.
  revert k. induction l as [| x l IH]; intros k; simpl.
  - intros [= <-]. constructor.
  - destruct (f x) as [y |] eqn:Hx; simpl; [| discriminate].
    destruct (mapM f l) as [ys |]; simpl; [| discriminate].
    intros [= <-]. constructor; auto.
Qed.

Lemma mapM_ext_in {A B} (f g : A -> result B) (l : list A) :
  (forall x, x ∈ l -> f x = g x) -> mapM f l = mapM g l.
Proof.
  induction l as [| x l IH]; intros Hfg; [done |].
  rewrite !mapM_cons, (Hfg x), IH; [done | | apply elem_of_cons; auto].
  intros y Hy. apply Hfg, elem_of_cons. auto.
Qed.

Lemma mapM_ok_exists {A B} (f : A -> result B) (l : list A) :
  (forall x, exists y, f x = Ok y) ->
  exists k, mapM f l = Ok k /\ Forall2 (fun x y => f x = Ok y) l k.
Proof.
  intros Hf. induction l as [| x l (k & Hk & Hall)].
  - exists []. split; [done | constructor].
  - destruct (Hf x) as [y Hy]. exists (y :: k).
    rewrite mapM_cons, Hy, Hk. split; [done | by constructor].
Qed.

Lemma foldl_result_cons {A B} (step : B -> A -> result B) (acc : B) (x : A) (l : list A) :
  foldl_result step acc (x :: l) = (acc' ← step acc x; foldl_result step acc' l).
Proof. reflexivity. Qed.

Lemma foldl_result_ok {A B} (step : B -> A -> result B) (l : list A) (acc : B) :
  (forall acc x, exists acc', step acc x = Ok acc') ->
  exists r, foldl_result step acc l = Ok r.
Proof.
  intros Hstep. revert acc.
  induction l as [| x l IH]; intros acc; simpl; [eauto |].
  destruct (Hstep acc x) as [acc' ->]. simpl. apply IH.
Qed.

Lemma sum_within (B : Z) (vals : list Z) :
  Forall (fun s => Z.abs s <= B) vals -> Z.abs (sum vals) <= B * len vals.
Proof.
  induction 1 as [| s l Hs _ IH].
  - unfold sum, len. simpl. lia.
  - rewrite sum_cons, len_cons. lia.
Qed.

Lemma sum_nonneg (vals : list Z) : Forall (fun s => 0 <= s) vals -> 0 <= sum vals.
Proof.
  induction 1 as [| s l Hs _ IH]; [done |]. rewrite sum_cons. lia.
Qed.

(** ** Rounding to binary64 and back to integers *)

Lemma div_half_even_bounds (n d lo hi : Z) :
  0 < d -> lo * d <= n <= hi * d -> lo <= div_half_even n d <= hi.
Proof.
  intros Hd [Hlo Hhi]. unfold div_half_even.
  pose proof (Z.div_mod n d ltac:(lia)) as Hn.
  pose proof (Z.mod_pos_bound n d Hd) as Hr.
  assert (lo <= n / d) by nia.
  assert (n / d <= hi) by nia.
  destruct (Z.ltb_spec (2 * (n mod d)) d); [lia |].
  assert (n / d < hi) by nia.
  destruct (d <? 2 * (n mod d)); [lia |].
  destruct (Z.even (n / d)); lia.
Qed.

Lemma pow2_pos (k : Z) : 0 < 2 ^ Z.max 0 k.
Proof. apply Z.pow_pos_nonneg; lia. Qed.

(** Both sides of [2^j <= a / d] may be scaled by any power of two. *)
Lemma ratio_ge_cross (a d u v : Z) :
  0 <= u -> 0 <= v -> (d * 2 ^ u <= a * 2 ^ v <-> ratio_ge a d (u - v)).
Proof.
  intros Hu Hv. unfold ratio_ge.
  destruct (Z.le_ge_cases v u) as [Hle | Hle].
  - replace (Z.max 0 (u - v)) with (u - v) by lia.
    replace (Z.max 0 (- (u - v))) with 0 by lia.
    replace u with ((u - v) + v) at 1 by lia.
    rewrite Z.pow_add_r by lia. rewrite Z.pow_0_r.
    pose proof (Z.pow_pos_nonneg 2 v ltac:(lia) Hv).
    pose proof (Z.pow_pos_nonneg 2 (u - v) ltac:(lia) ltac:(lia)).
    split; intros; nia.
  - replace (Z.max 0 (u - v)) with 0 by lia.
    replace (Z.max 0 (- (u - v))) with (v - u) by lia.
    replace v with ((v - u) + u) at 1 by lia.
    rewrite Z.pow_add_r by lia. rewrite Z.pow_0_r.
    pose proof (Z.pow_pos_nonneg 2 u ltac:(lia) Hu).
    pose proof (Z.pow_pos_nonneg 2 (v - u) ltac:(lia) ltac:(lia)).
    split; intros; nia.
Qed.

Lemma ratio_ge_mono (a d j j' : Z) :
  0 < a -> 0 < d -> j <= j' -> ratio_ge a d j' -> ratio_ge a d j.
Proof.
  intros Ha Hd Hj H.
  set (T := Z.abs j + Z.abs j').
  replace j' with ((T + j') - T) in H by lia.
  replace j with ((T + j) - T) by lia.
  apply (proj2 (ratio_ge_cross a d (T + j') T ltac:(lia) ltac:(lia))) in H.
  apply (proj1 (ratio_ge_cross a d (T + j) T ltac:(lia) ltac:(lia))).
  etransitivity; [| exact H].
  apply Z.mul_le_mono_nonneg_l; [lia |].
  apply Z.pow_le_mono_r; lia.
Qed.

(** [ilog2_ratio a d] is the exponent of the binade of [a / d]. *)
Lemma ilog2_ratio_spec (a d : Z) :
  0 < a -> 0 < d ->
  ratio_ge a d (ilog2_ratio a d) /\ ~ ratio_ge a d (ilog2_ratio a d + 1).
Proof.
  intros Ha Hd.
  destruct (Z.log2_spec a Ha) as [Ha1 Ha2].
  destruct (Z.log2_spec d Hd) as [Hd1 Hd2].
  pose proof (Z.log2_nonneg a). pose proof (Z.log2_nonneg d).
  unfold ilog2_ratio.
  set (k := Z.log2 a - Z.log2 d).
  assert (Hup : ~ ratio_ge a d (k + 1)).
  { replace (k + 1) with (Z.succ (Z.log2 a) - Z.log2 d) by lia.
    rewrite <- ratio_ge_cross by lia.
    pose proof (Z.pow_pos_nonneg 2 (Z.log2 d) ltac:(lia) ltac:(lia)). nia. }
  assert (Hlow : ratio_ge a d (k - 1)).
  { replace (k - 1) with (Z.log2 a - Z.succ (Z.log2 d)) by lia.
    rewrite <- ratio_ge_cross by lia.
    pose proof (Z.pow_pos_nonneg 2 (Z.log2 a) ltac:(lia) ltac:(lia)). nia. }
  destruct (Z.ltb_spec (a * 2 ^ Z.max 0 (- k)) (d * 2 ^ Z.max 0 k)) as [Hlt | Hge].
  - split; [exact Hlow |]. replace (k - 1 + 1) with k by lia.
    unfold ratio_ge. lia.
  - split; [exact Hge | exact Hup].
Qed.

(** The quotient of magnitudes bounded by the float [b * 2^t] rounds to a
    float within that bound, and does not overflow. *)
Lemma round_binary64_within (n d b t : Z) :
  0 < d -> 1 <= b < 2 ^ 53 -> 0 <= t <= 971 -> Z.abs n <= b * 2 ^ t * d ->
  exists m e,
    round_binary64 n d = FFinite m e
    /\ float_within (b * 2 ^ t) (FFinite m e)
    /\ (0 <= n -> 0 <= m).
Proof.
  intros Hd Hb Ht Hn. unfold round_binary64.
  destruct (Z.eqb_spec n 0) as [-> | Hn0].
  { exists 0, 0. split; [done |]. split; [| done].
    simpl. pose proof (Z.pow_pos_nonneg 2 t ltac:(lia) ltac:(lia)). nia. }
  set (a := Z.abs n) in *.
  assert (Ha : 0 < a) by (unfold a; lia).
  destruct (ilog2_ratio_spec a d Ha Hd) as [Hk _].
  set (k := ilog2_ratio a d) in *.
  assert (H2t : 0 < 2 ^ t) by (apply Z.pow_pos_nonneg; lia).
  assert (Hkt : k <= 52 + t).
  { destruct (Z.le_gt_cases k (52 + t)) as [| Hgt]; [done | exfalso].
    apply (ratio_ge_mono a d (53 + t) k Ha Hd ltac:(lia)) in Hk.
    unfold ratio_ge in Hk.
    replace (Z.max 0 (53 + t)) with (53 + t) in Hk by lia.
    replace (Z.max 0 (- (53 + t))) with 0 in Hk by lia.
    rewrite Z.pow_add_r, Z.pow_0_r in Hk by lia. nia. }
  set (e := Z.max (-1074) (k - 52)).
  assert (He : e <= t) by lia.
  clearbody e. clear Hk Hkt. clearbody k.
  pose proof (pow2_pos e) as Hpe. pose proof (pow2_pos (- e)) as Hpne.
  set (N := a * 2 ^ Z.max 0 (- e)).
  set (D := d * 2 ^ Z.max 0 e).
  assert (HD : 0 < D) by (unfold D; nia).
  assert (HN : 0 <= N) by (unfold N; nia).
  assert (Hm : 0 <= div_half_even N D
               /\ div_half_even N D * 2 ^ Z.max 0 e <= b * 2 ^ t * 2 ^ Z.max 0 (- e)).
  { destruct (Z.le_gt_cases e 0) as [Hneg | Hpos].
    - assert (Hone : 2 ^ Z.max 0 e = 1)
        by (replace (Z.max 0 e) with 0 by lia; apply Z.pow_0_r).
      assert (N <= b * 2 ^ t * 2 ^ Z.max 0 (- e) * D).
      { unfold N, D. rewrite Hone, Z.mul_1_r.
        replace (b * 2 ^ t * 2 ^ Z.max 0 (- e) * d)
          with (b * 2 ^ t * d * 2 ^ Z.max 0 (- e)) by ring.
        apply Z.mul_le_mono_nonneg_r; lia. }
      destruct (div_half_even_bounds N D 0 (b * 2 ^ t * 2 ^ Z.max 0 (- e)) HD)
        as [? ?]; [lia |]. rewrite Hone. lia.
    - assert (Hone : 2 ^ Z.max 0 (- e) = 1)
        by (replace (Z.max 0 (- e)) with 0 by lia; apply Z.pow_0_r).
      assert (Hsplit : 2 ^ t = 2 ^ (t - e) * 2 ^ Z.max 0 e).
      { rewrite <- Z.pow_add_r by lia. f_equal. lia. }
      assert (N <= b * 2 ^ (t - e) * D).
      { unfold N, D. rewrite Hone, Z.mul_1_r.
        replace (b * 2 ^ (t - e) * (d * 2 ^ Z.max 0 e))
          with (b * (2 ^ (t - e) * 2 ^ Z.max 0 e) * d) by ring.
        rewrite <- Hsplit. lia. }
      destruct (div_half_even_bounds N D 0 (b * 2 ^ (t - e)) HD)
        as [? Hhi]; [lia |]. split; [done |].
      rewrite Hone, Z.mul_1_r, Hsplit.
      replace (b * (2 ^ (t - e) * 2 ^ Z.max 0 e))
        with (b * 2 ^ (t - e) * 2 ^ Z.max 0 e) by ring.
      apply Z.mul_le_mono_nonneg_r; lia. }
  destruct Hm as [Hm0 Hm].
  assert (Hmax : b * 2 ^ t < 2 ^ 1024).
  { replace 1024 with (53 + 971) by lia. rewrite Z.pow_add_r by lia.
    assert (2 ^ t <= 2 ^ 971) by (apply Z.pow_le_mono_r; lia).
    pose proof (Z.pow_pos_nonneg 2 53 ltac:(lia) ltac:(lia)). nia. }
  destruct (Z.leb_spec (2 ^ 1024 * 2 ^ Z.max 0 (- e)) (div_half_even N D * 2 ^ Z.max 0 e))
    as [Hover | _]; [exfalso; nia |].
  exists (Z.sgn n * div_half_even N D), e. split; [done |]. split.
  - unfold float_within.
    replace (Z.abs (Z.sgn n * div_half_even N D)) with (div_half_even N D); [done |].
    destruct (Z.sgn_spec n) as [[? ->] | [[? ->] | [? ->]]]; lia.
  - intros. replace (Z.sgn n) with 1 by lia. lia.
Qed.

(** On these quotients, among them every ratio that the six ratings of
    one assessment give when they lie between 0 and 5, the rounding agrees
    with the binary64 arithmetic of the kernel. *)
Lemma round_binary64_agrees_with_prim :
  forallb (fun a => forallb (fun b => agrees_with_prim a b) (range 1 61)) (range 0 301)
  && forallb (fun a =>
                forallb (fun b => agrees_with_prim (a * 123456789 + 17) (b * 7919 + 1))
                        (range 0 40))
             (range 0 40)
  && forallb (fun a =>
                forallb (fun b => agrees_with_prim (a + 1) (b * 791999999999 + 1))
                        (range 0 40))
             (range 0 40)
  = true.
Proof. by vm_compute. Qed.

(** A finite result of the rounding is at most the largest float. *)
Lemma round_binary64_finite (n d m e : Z) :
  0 < d -> round_binary64 n d = FFinite m e -> float_within float_max (FFinite m e).
Proof.
  intros Hd. unfold round_binary64, float_within, float_max.
  assert (H53 : 0 < 2 ^ 53) by (apply Z.pow_pos_nonneg; lia).
  assert (H971 : 0 < 2 ^ 971) by (apply Z.pow_pos_nonneg; lia).
  destruct (Z.eqb_spec n 0) as [-> | Hn0].
  { intros [= <- <-]. simpl Z.abs. pose proof (pow2_pos (- 0)). nia. }
  set (a := Z.abs n).
  assert (Ha : 0 < a) by (unfold a; lia).
  destruct (ilog2_ratio_spec a d Ha Hd) as [_ Hk].
  set (k := ilog2_ratio a d) in *.
  set (e' := Z.max (-1074) (k - 52)).
  assert (He' : k + 1 <= e' + 53) by lia.
  assert (Hk' : ~ ratio_ge a d (e' + 53))
    by (intros H; apply Hk; by apply (ratio_ge_mono a d _ (e' + 53))).
  clearbody e'. clear Hk He'. clearbody k.
  pose proof (pow2_pos e') as Hpe. pose proof (pow2_pos (- e')) as Hpne.
  set (N := a * 2 ^ Z.max 0 (- e')).
  set (D := d * 2 ^ Z.max 0 e').
  assert (HD : 0 < D) by (unfold D; nia).
  assert (HN : 0 <= N) by (unfold N; nia).
  assert (HND : N <= 2 ^ 53 * D).
  { replace (e' + 53) with ((Z.max 0 e' + 53) - Z.max 0 (- e')) in Hk' by lia.
    rewrite <- ratio_ge_cross in Hk' by lia.
    rewrite Z.pow_add_r in Hk' by lia. unfold N, D. lia. }
  destruct (div_half_even_bounds N D 0 (2 ^ 53) HD) as [HM0 HM]; [lia |].
  set (M := div_half_even N D) in *. clearbody M. clear HND HN HD. clearbody N D.
  destruct (Z.leb_spec (2 ^ 1024 * 2 ^ Z.max 0 (- e')) (M * 2 ^ Z.max 0 e'))
    as [| Hfin]; [discriminate |].
  intros [= <- <-].
  replace (Z.abs (Z.sgn n * M)) with M
    by (destruct (Z.sgn_spec n) as [[? ->] | [[? ->] | [? ->]]]; lia).
  replace 1024 with (53 + 971) in Hfin by lia. rewrite Z.pow_add_r in Hfin by lia.
  destruct (Z.le_gt_cases e' 0) as [Hneg | Hpos].
  - replace (Z.max 0 e') with 0 by lia. rewrite Z.pow_0_r. nia.
  - replace (Z.max 0 (- e')) with 0 in * by lia. rewrite Z.pow_0_r in *.
    replace (Z.max 0 e') with e' in * by lia.
    destruct (Z.le_gt_cases 971 e') as [Hbig | Hsmall].
    + replace e' with ((e' - 971) + 971) in * by lia.
      rewrite Z.pow_add_r in * by lia.
      pose proof (Z.pow_pos_nonneg 2 (e' - 971) ltac:(lia) ltac:(lia)).
      assert (M * 2 ^ (e' - 971) < 2 ^ 53) by nia. nia.
    + assert (Hle : 2 ^ e' <= 2 ^ 970) by (apply Z.pow_le_mono_r; lia).
      replace 971 with (1 + 970) by lia. rewrite Z.pow_add_r by lia.
      pose proof (Z.pow_pos_nonneg 2 970 ltac:(lia) ltac:(lia)).
      change (2 ^ 1) with 2. nia.
Qed.

Lemma py_round_within (B m e : Z) :
  float_within B (FFinite m e) ->
  exists v, py_round (FFinite m e) = Ok v /\ Z.abs v <= B /\ (0 <= m -> 0 <= v).
Proof.
  unfold float_within, py_round. intros Hin.
  pose proof (pow2_pos e) as Hpe. pose proof (pow2_pos (- e)) as Hpne.
  eexists. split; [reflexivity |]. split.
  - destruct (div_half_even_bounds (m * 2 ^ Z.max 0 e) (2 ^ Z.max 0 (- e)) (- B) B Hpne);
      [| lia].
    destruct (Z.abs_spec m) as [[? Habs] | [? Habs]]; rewrite Habs in Hin; nia.
  - intros Hm.
    destruct (div_half_even_bounds (m * 2 ^ Z.max 0 e) (2 ^ Z.max 0 (- e)) 0
                (m * 2 ^ Z.max 0 e) Hpne); [nia | lia].
Qed.

(** The rounded mean of values within a float bound is defined and
    within the bound. *)
Lemma rounded_mean_within (b t : Z) (vals : list Z) :
  1 <= b < 2 ^ 53 -> 0 <= t <= 971 ->
  Forall (fun s => Z.abs s <= b * 2 ^ t) vals ->
  exists v,
    rounded_mean vals = Ok v
    /\ Z.abs v <= b * 2 ^ t
    /\ (Forall (fun s => 0 <= s) vals -> 0 <= v).
Proof.
  intros Hb Ht Hvals.
  assert (H2t : 0 < 2 ^ t) by (apply Z.pow_pos_nonneg; lia).
  destruct vals as [| s vals]; [exists 0; simpl; split; [done | lia] |].
  set (l := s :: vals) in *.
  assert (Hlen : 0 < len l) by (unfold l; rewrite len_cons; unfold len; lia).
  unfold rounded_mean. fold l. unfold round_ratio, py_truediv.
  destruct (Z.eqb_spec (len l) 0) as [| _]; [lia |].
  replace (Z.sgn (len l)) with 1 by lia.
  replace (Z.abs (len l)) with (len l) by lia.
  rewrite Z.mul_1_l.
  destruct (round_binary64_within (sum l) (len l) b t Hlen Hb Ht) as (m & e & -> & Hin & Hpos).
  { pose proof (sum_within _ _ Hvals). lia. }
  simpl mbind.
  destruct (py_round_within _ _ _ Hin) as (v & Hv & Hle & Hv0).
  exists v. split; [exact Hv |]. split; [done |].
  intros Hnonneg. apply Hv0, Hpos. by apply sum_nonneg.
Qed.

(** A score that is computed is within the range of finite floats. *)
Lemma round_percent_within (n d s : Z) :
  round_percent n d = Ok s -> Z.abs s <= float_max.
Proof.
  unfold round_percent, py_truediv.
  destruct (Z.eqb_spec d 0) as [| Hd]; [discriminate |].
  destruct (round_binary64 (Z.sgn d * n) (Z.abs d)) as [mq eq' | |]; simpl; try discriminate.
  unfold float_of_small_int.
  destruct (round_binary64 (mq * 100 * 2 ^ Z.max 0 (eq' + 0)) (2 ^ Z.max 0 (- (eq' + 0))))
    as [m e | |] eqn:Hmul; try discriminate.
  apply round_binary64_finite in Hmul; [| apply pow2_pos].
  destruct (py_round_within _ _ _ Hmul) as (v & -> & Hv & _).
  by intros [= <-].
Qed.

(** A ratio between 0 and 1 is a percentage between 0 and 100. *)
Lemma round_percent_unit (n d : Z) :
  0 < d -> 0 <= n <= d -> exists s, round_percent n d = Ok s /\ 0 <= s <= 100.
Proof.
  intros Hd Hn. unfold round_percent, py_truediv.
  destruct (Z.eqb_spec d 0) as [| _]; [lia |].
  replace (Z.sgn d) with 1 by lia. replace (Z.abs d) with d by lia.
  rewrite Z.mul_1_l.
  destruct (round_binary64_within n d 1 0 Hd) as (m & e & -> & Hin & Hm);
    [lia | lia | lia |].
  cbn [mbind result_bind]. unfold float_of_small_int, float_mul.
  rewrite Z.add_0_r.
  unfold float_within in Hin. rewrite Z.pow_0_r in Hin.
  pose proof (pow2_pos e) as Hpe. pose proof (pow2_pos (- e)) as Hpne.
  destruct (round_binary64_within (m * 100 * 2 ^ Z.max 0 e) (2 ^ Z.max 0 (- e)) 100 0 Hpne)
    as (m' & e' & -> & Hin' & Hm'); [lia | lia | |].
  { rewrite Z.pow_0_r. rewrite !Z.abs_mul.
    replace (Z.abs (2 ^ Z.max 0 e)) with (2 ^ Z.max 0 e) by lia.
    change (Z.abs 100) with 100. nia. }
  destruct (py_round_within _ _ _ Hin') as (v & -> & Hv & Hv0).
  exists v. split; [done |]. rewrite Z.pow_0_r in Hv.
  assert (0 <= v) by (apply Hv0, Hm'; specialize (Hm ltac:(lia)); nia).
  lia.
Qed.

(** A quotient below [2^1017] in magnitude can be multiplied by 100 and
    rounded without leaving the finite floats. *)
Lemma round_percent_defined (n d : Z) :
  0 < d -> Z.abs n <= 2 ^ 1017 * d -> exists s, round_percent n d = Ok s.
Proof.
  intros Hd Hn. unfold round_percent, py_truediv.
  destruct (Z.eqb_spec d 0) as [| _]; [lia |].
  replace (Z.sgn d) with 1 by lia. replace (Z.abs d) with d by lia.
  rewrite Z.mul_1_l.
  assert (H46 : 2 ^ 46 * 128 = 2 ^ 53) by (by vm_compute).
  assert (H971 : 0 < 2 ^ 971) by (apply Z.pow_pos_nonneg; lia).
  destruct (round_binary64_within n d (2 ^ 46) 971 Hd) as (m & e & -> & Hin & _);
    [lia | lia | |].
  { rewrite <- Z.pow_add_r by lia. exact Hn. }
  cbn [mbind result_bind]. unfold float_of_small_int, float_mul.
  rewrite Z.add_0_r. unfold float_within in Hin.
  pose proof (pow2_pos e) as Hpe. pose proof (pow2_pos (- e)) as Hpne.
  destruct (round_binary64_within (m * 100 * 2 ^ Z.max 0 e) (2 ^ Z.max 0 (- e))
              (100 * 2 ^ 46) 971 Hpne) as (m' & e' & -> & Hin' & _); [lia | lia | |].
  { rewrite !Z.abs_mul.
    replace (Z.abs (2 ^ Z.max 0 e)) with (2 ^ Z.max 0 e) by lia.
    change (Z.abs 100) with 100. nia. }
  destruct (py_round_within _ _ _ Hin') as (v & -> & _). eauto.
Qed.

(** ** Score engine *)

Lemma collect_int_fold (data : list (string * pyval)) (keys : list string) (values : list Z) :
  foldl (collect_int data) values keys
  = values ++ omap (fun k => convertible (dict_get data k)) keys.
Proof.
  revert values. induction keys as [| k keys IH]; intros values; csimpl.
  - by rewrite app_nil_r.
  - rewrite IH. unfold collect_int, convertible.
    destruct (is_none (dict_get data k)) eqn:Hnone.
    + by destruct (dict_get data k).
    + destruct (py_int (dict_get data k)); simpl; [by rewrite <- app_assoc | done].
Qed.

Lemma compute_assessment_score_values (a : Assessment) :
  compute_assessment_score a = percentage_score (rating_values a).
Proof.
  unfold compute_assessment_score, percentage_score, rating_values.
  by rewrite collect_int_fold.
Qed.

Lemma percentage_score_all_five (values : list Z) :
  values <> [] -> (length values <= 6)%nat -> Forall (eq 5) values ->
  percentage_score values = Ok 100.
Proof.
  intros Hne Hlen Hall.
  do 7 (destruct values as [| ? values];
        [ try done; repeat (apply Forall_cons in Hall as [<- Hall]); by vm_compute |]).
  simpl in Hlen. lia.
Qed.

Lemma score_within (a : Assessment) (s : Z) :
  compute_assessment_score a = Ok s -> Z.abs s <= float_max.
Proof.
  rewrite compute_assessment_score_values. unfold percentage_score.
  destruct (rating_values a).
  - intros [= <-]. by vm_compute.
  - apply round_percent_within.
Qed.

(** Ratings between 0 and 5 give a score between 0 and 100. *)
Lemma score_in_range (a : Assessment) :
  Forall (fun v => 0 <= v <= 5) (rating_values a) ->
  exists s, compute_assessment_score a = Ok s /\ 0 <= s <= 100.
Proof.
  rewrite compute_assessment_score_values. unfold percentage_score.
  destruct (rating_values a) as [| v vals] eqn:Hvals; [exists 0; split; [done | lia] |].
  intros Hall. apply round_percent_unit.
  - rewrite len_cons. unfold len. lia.
  - clear Hvals. induction Hall as [| x l Hx _ IH].
    + unfold sum, len. simpl. lia.
    + rewrite sum_cons, len_cons. lia.
Qed.

Lemma score_defined (a : Assessment) :
  Forall (fun v => Z.abs v <= 10 ^ 300) (rating_values a) ->
  exists s, compute_assessment_score a = Ok s.
Proof.
  rewrite compute_assessment_score_values. unfold percentage_score.
  destruct (rating_values a) as [| v vals] eqn:Hvals; [eauto |].
  intros Hall. apply round_percent_defined.
  - rewrite len_cons. unfold len. lia.
  - pose proof (sum_within _ _ Hall) as Hsum.
    assert (Hlen : 0 < len (v :: vals)) by (rewrite len_cons; unfold len; lia).
    assert (10 ^ 300 <= 2 ^ 1017) by (apply Z.leb_le; by vm_compute).
    nia.
Qed.

(** C1: the score is computed from the integer-convertible values found
    under the six rating keys: 0 when there is none, and otherwise
    [round(sum(values) / (count * 5) * 100)] as Python evaluates it, which
    is an integer whenever the values are below [10^300] in magnitude.
    Ratings 5 and 3 score 80, and when the values are all 5 the score is
    100. *)
Theorem compute_assessment_score_spec :
  (forall a,
     compute_assessment_score a
     = match rating_values a with
       | [] => Ok 0
       | values => round_percent (sum values) (len values * 5)
       end)
  /\ (forall a, rating_values a = [] -> compute_assessment_score a = Ok 0)
  /\ (forall a,
        Forall (fun v => Z.abs v <= 10 ^ 300) (rating_values a) ->
        exists s, compute_assessment_score a = Ok s)
  /\ (forall a,
        rating_values a <> [] -> Forall (eq 5) (rating_values a) ->
        compute_assessment_score a = Ok 100)
  /\ compute_assessment_score
       (sample_assessment [("fineMotor_grip", VInt 5); ("grossMotor_balance", VInt 3)])
     = Ok 80.
Proof.
  split; [| split; [| split; [| split]]].
  - intros a. rewrite compute_assessment_score_values. by destruct (rating_values a).
  - intros a Hnone. by rewrite compute_assessment_score_values, Hnone.
  - apply score_defined.
  - intros a Hsome Hfive. rewrite compute_assessment_score_values.
    apply percentage_score_all_five; [done | | done].
    apply (length_omap_le _ rating_keys).
  - by vm_compute.
Qed.

Lemma compute_assessment_score_spec_witness :
  compute_assessment_score (sample_assessment [("notes", VStr "calm")]) = Ok 0
  /\ (exists s,
        compute_assessment_score (sample_assessment [("cognitive_approach", VInt 2)])
        = Ok s)
  /\ compute_assessment_score
       (sample_assessment [("fineMotor_grip", VInt 5); ("emotional_quality", VStr " 5 ");
                           ("communication_clarity", VStr "good")])
     = Ok 100.
Proof.
  split; [| split].
  - apply (proj1 (proj2 compute_assessment_score_spec)). reflexivity.
  - apply (proj1 (proj2 (proj2 compute_assessment_score_spec))).
    repeat constructor. by vm_compute.
  - apply (proj1 (proj2 (proj2 (proj2 compute_assessment_score_spec)))).
    + vm_compute. discriminate.
    + vm_compute. repeat constructor.
Defined.

(** ** Aggregator: values that are not numbers *)

(** C3, on the code as it is: with a rating given in words the dashboard
    statistics and the skills radar leave the value out and answer, but
    the skill-performance report converts it outside any handler and the
    [ValueError] of [int] ends the request. *)
Theorem skill_performance_raises_on_text_rating :
  reports_skill_performance store_with_text_rating None = Raise ValueError
  /\ chart_dashboard_skills store_with_text_rating None
     = Ok {| labels := category_labels; data := [0; 0; 0; 0; 0; 0; 0; 0] |}
  /\ dashboard_stats store_with_text_rating 739923 None
     = Ok {| activePatients := 1; todaysAssessments := 1;
             averageProgress := 0; homeWorkouts := 0 |}.
Proof. repeat split; by vm_compute. Qed.

(** ** Aggregator: weekly activity *)

Lemma weekly_counts_lookup (ws : list Workout) (counts : gmap Z Z) (i : Z) :
  default 0 (foldl count_weekday counts ws !! i)
  = default 0 (counts !! i) + len (List.filter (on_weekday i) ws).
Proof.
  revert counts. induction ws as [| w ws IH]; intros counts; simpl.
  - unfold len. simpl. lia.
  - rewrite IH. unfold count_weekday, on_weekday at 2.
    destruct (Z.eqb_spec (weekday (w_timestamp w)) i) as [-> | Hne].
    + rewrite lookup_insert_eq, len_cons. simpl. lia.
    + rewrite lookup_insert_ne by done. lia.
Qed.

Lemma weekly_counts_present (ws : list Workout) (counts : gmap Z Z) (i : Z) :
  is_Some (counts !! i) -> is_Some (foldl count_weekday counts ws !! i).
Proof.
  revert counts. induction ws as [| w ws IH]; intros counts Hi; simpl; [done |].
  apply IH. unfold count_weekday. rewrite lookup_insert. case_decide; [eauto | done].
Qed.

Lemma weekday_total (ws : list Workout) :
  sum ((fun i => len (List.filter (on_weekday i) ws)) <$> range 0 7) = len ws.
Proof.
  induction ws as [| w ws IH]; [done |].
  rewrite len_cons, <- IH. clear IH.
  change (range 0 7) with [0; 1; 2; 3; 4; 5; 6].
  simpl fmap. unfold on_weekday. simpl List.filter.
  assert (Hw : 0 <= weekday (w_timestamp w) < 7)
    by (apply Z.mod_pos_bound; lia).
  rewrite !sum_cons.
  repeat match goal with
         | |- context [?a =? ?b] => destruct (Z.eqb_spec a b)
         end;
    rewrite ?len_cons; unfold sum; simpl foldl; lia.
Qed.

(** C8: the weekly activity chart exists for every list of workouts, its
    seven counts are the numbers of workouts on Monday to Sunday by the
    weekday of each timestamp, and they add up to the number of workouts. *)
Theorem weekly_activity_sums_to_total (workouts : list Workout) :
  exists data,
    compute_weekly_activity workouts = Ok {| labels := weekday_labels; data := data |}
    /\ data = (fun i => len (List.filter (on_weekday i) workouts)) <$> range 0 7
    /\ length data = 7%nat
    /\ sum data = len workouts.
Proof.
  eexists. split; [| split; [reflexivity | split; [reflexivity | apply weekday_total]]].
  unfold compute_weekly_activity.
  erewrite mapM_ok_fmap; [reflexivity |].
  intros i Hi. unfold getitem.
  set (counts0 := foldl (fun counts i => <[i := 0]> counts) ∅ (range 0 7)).
  assert (H0 : counts0 !! i = Some 0).
  { change (range 0 7) with [0; 1; 2; 3; 4; 5; 6] in Hi.
    repeat (apply elem_of_cons in Hi as [-> | Hi]; [by vm_compute |]).
    by apply elem_of_nil in Hi. }
  pose proof (weekly_counts_lookup workouts counts0 i) as Hv.
  destruct (weekly_counts_present workouts counts0 i) as [v Hsome]; [by eexists |].
  rewrite Hsome in Hv |- *. rewrite H0 in Hv. simpl in Hv. by rewrite Hv.
Qed.

(** ** Aggregator: activity distribution *)

Lemma count_category_lookup (ws : list Workout) (counts : gmap string Z) (c : string) :
  foldl count_category counts ws !! c
  = (fun n => n + len (List.filter (in_category c) ws)) <$> (counts !! c).
Proof.
  revert counts. induction ws as [| w ws IH]; intros counts; simpl.
  - unfold len. simpl. destruct (counts !! c); simpl; [f_equal; lia | done].
  - rewrite IH. unfold count_category, in_category at 2.
    destruct (String.eqb_spec (lower (w_category w)) c) as [-> | Hne].
    + destruct (counts !! c) as [n |] eqn:Hc.
      * rewrite lookup_insert_eq, len_cons. simpl. f_equal. lia.
      * by rewrite Hc.
    + destruct (counts !! lower (w_category w)); [| done].
      by rewrite lookup_insert_ne.
Qed.

(** A string matches at most one word of a list without repetition. *)
Lemma sum_matches (x : string) (l : list string) :
  NoDup l ->
  sum ((fun c => if String.eqb x c then 1 else 0) <$> l)
  = if existsb (String.eqb x) l then 1 else 0.
Proof.
  induction 1 as [| c l Hc _ IH]; [done |].
  rewrite fmap_cons, sum_cons, IH. simpl.
  destruct (String.eqb_spec x c) as [-> | Hne]; simpl; [| done].
  destruct (existsb (String.eqb c) l) eqn:Hex; [| done].
  apply existsb_exists in Hex as (y & Hy & Heq).
  apply String.eqb_eq in Heq as <-. apply list_elem_of_In in Hy. contradiction.
Qed.

Lemma categories_NoDup : NoDup categories.
Proof. apply (bool_decide_unpack _). by vm_compute. Qed.

Lemma category_total (ws : list Workout) :
  sum ((fun c => len (List.filter (in_category c) ws)) <$> categories)
  = len (List.filter in_vocabulary ws).
Proof.
  induction ws as [| w ws IH]; [done |].
  transitivity
    (sum ((fun c => if String.eqb (lower (w_category w)) c then 1 else 0) <$> categories)
     + sum ((fun c => len (List.filter (in_category c) ws)) <$> categories)).
  - generalize categories. intros l.
    induction l as [| c l IHl]; [done |].
    rewrite !fmap_cons, !sum_cons, IHl. simpl List.filter. unfold in_category at 1.
    destruct (lower (w_category w) =? c)%string; rewrite ?len_cons; lia.
  - rewrite IH, sum_matches by apply categories_NoDup.
    simpl List.filter. unfold in_vocabulary at 2, in_category.
    destruct (existsb _ categories); rewrite ?len_cons; lia.
Qed.

(** C7: the activity distribution exists for every list of workouts; the
    count of each of the eight categories is the number of workouts whose
    lowered category is that word, so every workout is counted once when
    its category is in the vocabulary and not at all otherwise, and the
    counts add up to at most the number of workouts.  Four "fine-motor"
    and six "unknown" workouts give 4 for Fine Motor and 0 elsewhere. *)
Theorem activity_distribution_counts (workouts : list Workout) :
  (exists data,
     compute_activity_distribution workouts
     = Ok {| labels := category_labels; data := data |}
     /\ data = (fun c => len (List.filter (in_category c) workouts)) <$> categories
     /\ sum data = len (List.filter in_vocabulary workouts)
     /\ sum data <= len workouts)
  /\ compute_activity_distribution
       (replicate 4 (sample_workout "fine-motor") ++ replicate 6 (sample_workout "unknown"))
     = Ok {| labels := category_labels; data := [4; 0; 0; 0; 0; 0; 0; 0] |}.
Proof.
  split; [| by vm_compute].
  eexists. split; [| split; [reflexivity | split]].
  - unfold compute_activity_distribution.
    erewrite mapM_ok_fmap; [reflexivity |].
    intros c Hc. unfold getitem. rewrite count_category_lookup.
    set (counts0 := foldl (fun counts c => <[c := 0]> counts) ∅ categories).
    assert (H0 : counts0 !! c = Some 0).
    { unfold categories in Hc.
      repeat (apply elem_of_cons in Hc as [-> | Hc]; [by vm_compute |]).
      by apply elem_of_nil in Hc. }
    rewrite H0. done.
  - apply category_total.
  - rewrite category_total. apply len_filter_le.
Qed.

(** ** Aggregator: progress over time *)

Lemma elem_of_range (lo hi i : Z) : i ∈ range lo hi -> lo <= i < hi.
Proof.
  unfold range. intros (j & -> & Hj)%list_elem_of_fmap.
  apply elem_of_seq in Hj. lia.
Qed.

Lemma length_range (lo hi : Z) : length (range lo hi) = Z.to_nat (hi - lo).
Proof. unfold range. by rewrite length_fmap, length_seq. Qed.

(** Counting down from [base] and reversing is counting up to [base]. *)
Lemma rev_countdown (base : Z) (k : nat) :
  rev ((fun i => base - Z.of_nat i) <$> seq 0 (S k))
  = (fun j => base - Z.of_nat k + Z.of_nat j) <$> seq 0 (S k).
Proof.
  induction k as [| k IH].
  - simpl. f_equal. lia.
  - rewrite seq_S at 1. rewrite fmap_app, fmap_cons, rev_unit, IH.
    change (seq 0 (S (S k))) with (0%nat :: seq 1 (S k)).
    rewrite fmap_cons.
    f_equal; [simpl; lia |].
    rewrite <- fmap_S_seq, <- list_fmap_compose.
    apply list_fmap_ext. intros _ j _. simpl. lia.
Qed.

Lemma progress_dates_window (today n : Z) :
  1 <= n -> n <= today <= max_ordinal -> progress_dates today n = Ok (window today n).
Proof.
  intros Hn Htoday. unfold progress_dates.
  rewrite (mapM_ok_fmap _ (fun i => today - i)).
  2:{ intros i Hi%elem_of_range. unfold date_fromordinal.
      destruct (Z.leb_spec 1 (today - i)); [| lia].
      destruct (Z.leb_spec (today - i) max_ordinal); [done | lia]. }
  simpl. f_equal. unfold window, range.
  replace (Z.to_nat (n - 0)) with (S (Z.to_nat (n - 1))) by lia.
  rewrite <- !list_fmap_compose.
  transitivity (rev ((fun i => today - Z.of_nat i) <$> seq 0 (S (Z.to_nat (n - 1))))).
  - change (seq 0 (S (Z.to_nat (n - 1)))) with (0%nat :: seq 1 (Z.to_nat (n - 1))).
    rewrite fmap_cons. cbn [rev]. f_equal; [f_equal | f_equal; lia].
    rewrite <- fmap_S_seq, <- list_fmap_compose.
    apply list_fmap_ext. intros _ j _. simpl. lia.
  - rewrite rev_countdown. apply list_fmap_ext. intros _ j _. simpl. lia.
Qed.

Lemma empty_buckets_lookup (dates : list Z) (buckets : gmap Z (list Z)) (d : Z) :
  foldl (fun buckets iso => <[iso := []]> buckets) buckets dates !! d
  = if bool_decide (d ∈ dates) then Some [] else buckets !! d.
Proof.
  revert buckets. induction dates as [| iso dates IH]; intros buckets; simpl; [done |].
  rewrite IH. destruct (bool_decide_reflect (d ∈ dates)) as [Hin | Hout].
  - rewrite bool_decide_eq_true_2 by (apply elem_of_cons; auto). done.
  - destruct (decide (d = iso)) as [-> | Hne].
    + rewrite bool_decide_eq_true_2 by (apply elem_of_cons; auto).
      by rewrite lookup_insert_eq.
    + rewrite bool_decide_eq_false_2 by (intros [? | ?]%elem_of_cons; done).
      by rewrite lookup_insert_ne.
Qed.

Lemma scores_on_cons (a : Assessment) (l : list Assessment) (d : Z) :
  scores_on (a :: l) d
  = if date (a_timestamp a) =? d then score_value a :: scores_on l d else scores_on l d.
Proof. unfold scores_on, on_day. simpl. by destruct (date (a_timestamp a) =? d). Qed.

(** After the loop every bucket holds, after what it held, the scores of
    the assessments of its day in stored order. *)
Lemma add_to_bucket_fold (l : list Assessment) (buckets : gmap Z (list Z)) :
  Forall (fun a => is_ok (compute_assessment_score a) = true) l ->
  exists buckets',
    foldl_result add_to_bucket buckets l = Ok buckets'
    /\ forall d, buckets' !! d = (fun vals => vals ++ scores_on l d) <$> (buckets !! d).
Proof.
  intros Hl. revert buckets.
  induction Hl as [| a l Ha _ IH]; intros buckets.
  - exists buckets. split; [done |]. intros d.
    destruct (buckets !! d); simpl; [by rewrite app_nil_r | done].
  - assert (Hscore : compute_assessment_score a = Ok (score_value a)).
    { unfold score_value. by destruct (compute_assessment_score a). }
    destruct (buckets !! date (a_timestamp a)) as [vals |] eqn:Hiso.
    + assert (Hstep : add_to_bucket buckets a
                      = Ok (<[date (a_timestamp a) := vals ++ [score_value a]]> buckets)).
      { unfold add_to_bucket. cbv zeta. by rewrite Hiso, Hscore. }
      destruct (IH (<[date (a_timestamp a) := vals ++ [score_value a]]> buckets))
        as (buckets' & Hfold & Hlookup).
      exists buckets'. split; [by rewrite foldl_result_cons, Hstep |]. intros d.
      rewrite Hlookup, scores_on_cons.
      destruct (Z.eqb_spec (date (a_timestamp a)) d) as [<- | Hne].
      * rewrite lookup_insert_eq, Hiso. simpl. by rewrite <- app_assoc.
      * by rewrite lookup_insert_ne.
    + assert (Hstep : add_to_bucket buckets a = Ok buckets).
      { unfold add_to_bucket. cbv zeta. by rewrite Hiso. }
      destruct (IH buckets) as (buckets' & Hfold & Hlookup).
      exists buckets'. split; [by rewrite foldl_result_cons, Hstep |]. intros d.
      rewrite Hlookup, scores_on_cons.
      destruct (Z.eqb_spec (date (a_timestamp a)) d) as [<- | Hne]; [| done].
      by rewrite Hiso.
Qed.

Lemma scores_on_within (P : Z -> Prop) (assessments : list Assessment) (day : Z) :
  Forall (fun a => P (score_value a)) assessments ->
  Forall P (scores_on assessments day).
Proof.
  intros Hall. unfold scores_on. apply Forall_fmap.
  induction Hall as [| a l Ha _ IH]; simpl; [constructor |].
  destruct (on_day day a); [by constructor | done].
Qed.

Lemma score_value_within (a : Assessment) :
  is_ok (compute_assessment_score a) = true -> Z.abs (score_value a) <= float_max.
Proof.
  unfold score_value. destruct (compute_assessment_score a) as [s |] eqn:Hs; [| done].
  intros _. by apply (score_within a).
Qed.

Lemma clamp_days_nonzero (days : option Z) :
  days <> Some 0 ->
  clamp_days days = match days with Some N => clamp N | None => 7 end
  /\ 1 <= clamp_days days <= 90.
Proof.
  intros Hdays. unfold clamp_days, clamp.
  destruct days as [N |]; [| split; [done | lia]].
  destruct (Z.eqb_spec N 0) as [-> | _]; [done |]. split; [done | lia].
Qed.

(** C4, as the code has it: for a day count other than 0 (7 when absent)
    and assessments whose scores are defined, the series has as many
    values as the day count clamped to 1..90, one per day of the window
    that ends today, oldest first; each value is the rounded mean of the
    scores of that day's assessments, 0 for a day without any; the values
    lie between 0 and 100 when the scores do, as they do when every
    rating lies between 0 and 5. *)
Theorem progress_series (st : store) (today : Z) (patientId : option string)
    (days : option Z) :
  let assessments := for_patient a_patientId patientId (assessments st) in
  let n := match days with Some N => clamp N | None => 7 end in
  days <> Some 0 ->
  90 <= today <= max_ordinal ->
  Forall (fun a => is_ok (compute_assessment_score a) = true) assessments ->
  exists data,
    chart_dashboard_progress st today patientId days
    = Ok {| labels := strftime_b_d <$> window today n; data := data |}
    /\ length data = Z.to_nat n
    /\ Forall2 (fun day v => rounded_mean (scores_on assessments day) = Ok v)
               (window today n) data
    /\ (Forall (fun a => 0 <= score_value a <= 100) assessments ->
        Forall (fun v => 0 <= v <= 100) data)
    /\ (Forall (fun a => Forall (fun v => 0 <= v <= 5) (rating_values a)) assessments ->
        Forall (fun v => 0 <= v <= 100) data).
Proof.
  intros assessments n Hdays Htoday Hscored.
  destruct (clamp_days_nonzero days Hdays) as [Hn Hrange]. fold n in Hn.
  unfold chart_dashboard_progress. fold assessments. rewrite Hn.
  rewrite progress_dates_window by lia. cbn [mbind result_bind].
  set (buckets0 := foldl (fun buckets iso => <[iso := []]> buckets) ∅ (window today n)).
  destruct (add_to_bucket_fold assessments buckets0 Hscored) as (buckets & -> & Hlookup).
  cbn [mbind result_bind].
  rewrite (mapM_ext_in _ (fun day => rounded_mean (scores_on assessments day))).
  2:{ intros day Hday. unfold getitem. rewrite Hlookup. unfold buckets0.
      rewrite empty_buckets_lookup, bool_decide_eq_true_2 by done. done. }
  assert (Hwithin : forall day,
            Forall (fun s => Z.abs s <= (2 ^ 53 - 1) * 2 ^ 971) (scores_on assessments day)).
  { intros day. apply scores_on_within.
    eapply Forall_impl; [exact Hscored |]. intros a. apply score_value_within. }
  destruct (mapM_ok_exists (fun day => rounded_mean (scores_on assessments day))
              (window today n)) as (data & -> & Hdata).
  { intros day.
    destruct (rounded_mean_within (2 ^ 53 - 1) 971 (scores_on assessments day))
      as (v & Hv & _); [lia | lia | apply Hwithin | eauto]. }
  assert (Hbounded : Forall (fun a => 0 <= score_value a <= 100) assessments ->
                     Forall (fun v => 0 <= v <= 100) data).
  { intros Hscores. eapply Forall2_Forall_r; [exact Hdata |].
    apply Forall_forall. intros day _ v Hv.
    destruct (rounded_mean_within 100 0 (scores_on assessments day))
      as (v' & Hv' & Hle & Hge); [lia | lia | |].
    - apply scores_on_within. eapply Forall_impl; [exact Hscores |].
      intros a. simpl. lia.
    - rewrite Hv in Hv'. injection Hv' as <-.
      assert (0 <= v); [| lia].
      apply Hge, scores_on_within. eapply Forall_impl; [exact Hscores |].
      intros a. simpl. lia. }
  exists data. split; [done |]. split; [| split; [done | split; [done |]]].
  - apply Forall2_length in Hdata. rewrite <- Hdata.
    unfold window. rewrite length_fmap, length_range. f_equal. lia.
  - intros Hratings. apply Hbounded.
    eapply Forall_impl; [exact Hratings |]. intros a Ha.
    destruct (score_in_range a Ha) as (s & Hs & Hrange').
    unfold score_value. by rewrite Hs.
Qed.

(** The scenario of the specification: three days, scores [80], none and
    [60, 40]. *)
Example three_day_scenario :
  chart_dashboard_progress store_with_three_days 739923 None (Some 3)
  = Ok {| labels := ["Nov 01"; "Nov 02"; "Nov 03"]; data := [80; 0; 50] |}.
Proof. by vm_compute. Qed.

Lemma progress_series_witness :
  exists data,
    chart_dashboard_progress store_with_one_rating 739923 (Some "p1") (Some 3)
    = Ok {| labels := strftime_b_d <$> window 739923 (clamp 3); data := data |}
    /\ length data = Z.to_nat (clamp 3)
    /\ Forall2 (fun day v =>
                  rounded_mean
                    (scores_on (for_patient a_patientId (Some "p1")
                                  (assessments store_with_one_rating)) day) = Ok v)
               (window 739923 (clamp 3)) data
    /\ (Forall (fun a => 0 <= score_value a <= 100)
               (for_patient a_patientId (Some "p1") (assessments store_with_one_rating)) ->
        Forall (fun v => 0 <= v <= 100) data)
    /\ (Forall (fun a => Forall (fun v => 0 <= v <= 5) (rating_values a))
               (for_patient a_patientId (Some "p1") (assessments store_with_one_rating)) ->
        Forall (fun v => 0 <= v <= 100) data).
Proof.
  apply (progress_series store_with_one_rating 739923 (Some "p1") (Some 3)).
  - discriminate.
  - by vm_compute.
  - repeat constructor.
Defined.

(** C4 as stated fails: asked for 0 days the series has 7 values where
    0 clamped to 1..90 is 1, a rating of 10 puts 200 in the series, and
    with a rating of [10^400] there is no series because the score
    overflows the floats. *)
Lemma progress_series_counterexample :
  (exists data,
     chart_dashboard_progress store_with_high_rating 739923 None (Some 0)
     = Ok {| labels := ["Oct 28"; "Oct 29"; "Oct 30"; "Oct 31"; "Nov 01"; "Nov 02"; "Nov 03"];
             data := data |}
     /\ data = [0; 0; 0; 0; 0; 0; 200]
     /\ length data <> Z.to_nat (clamp 0)
     /\ ~ Forall (fun v => 0 <= v <= 100) data)
  /\ chart_dashboard_progress store_with_huge_rating 739923 None (Some 3)
     = Raise OverflowError.
Proof.
  split; [| by vm_compute].
  exists [0; 0; 0; 0; 0; 0; 200]. split; [by vm_compute |]. split; [done |]. split.
  - by vm_compute.
  - intros H. do 6 apply Forall_cons in H as [_ H]. apply Forall_cons in H as [H _]. lia.
Qed.

(** ** Document renderer *)

Lemma encode_utf8_app (s t : string) :
  encode_utf8 (s +:+ t) = encode_utf8 s ++ encode_utf8 t.
Proof.
  unfold encode_utf8, list_byte_of_string.
  induction s as [| c s IH]; simpl; [done | by rewrite IH].
Qed.

(** C9: without reportlab the renderer does not fail and returns the
    UTF-8 bytes of the title, two line feeds (one blank line) and the
    bytes of the content. *)
Theorem build_pdf_bytes_without_reportlab (accepts : string -> bool)
    (title content : string) :
  _build_pdf_bytes accepts false title content
  = Ok (PlainText (encode_utf8 title ++ [Byte.x0a; Byte.x0a] ++ encode_utf8 content)).
Proof.
  unfold _build_pdf_bytes. by rewrite !encode_utf8_app.
Qed.

Lemma lstrip_head (s t : string) (c : ascii) :
  lstrip s = String c t -> py_isspace c = false.
Proof.
  induction s as [| a s IH]; simpl; [discriminate |].
  destruct (py_isspace a) eqn:Ha; [done |].
  by intros [= <- _].
Qed.

Lemma rstrip_head (s t : string) (c : ascii) :
  rstrip s = String c t -> exists t', s = String c t'.
Proof.
  destruct s as [| a s]; simpl; [discriminate |].
  destruct (rstrip s).
  - destruct (py_isspace a); [discriminate |]. intros [= <- _]. eauto.
  - intros [= <- _]. eauto.
Qed.

Lemma prefix_cons (a b : ascii) (s t : string) :
  String.prefix (String a s) (String b t)
  = if ascii_dec a b then String.prefix s t else false.
Proof. reflexivity. Qed.

(** A stripped line does not begin with a space. *)
Lemma strip_not_indented (s p : string) :
  startswith (strip s) (String " " p) = false.
Proof.
  unfold startswith, strip.
  destruct (rstrip (lstrip s)) as [| c t] eqn:Hstrip; [reflexivity |].
  apply rstrip_head in Hstrip as [t' Hl]. apply lstrip_head in Hl.
  rewrite prefix_cons.
  destruct (ascii_dec " " c) as [<- | _]; [discriminate Hl | reflexivity].
Qed.

(** The branches for nested bullets and for continuation lines are never
    taken: a stripped line does not begin with a space.  What is left is
    a gap for a blank line and one paragraph for any other line, which
    reportlab takes or refuses. *)
Lemma render_line_stripped (accepts : string -> bool) (st : render_state)
    (line : string) :
  render_line accepts st line
  = if is_blank line then
      Ok {| story := story st ++ [Spacer 15];
            current_section := current_section st;
            in_bullet_list := false |}
    else if parses accepts (text (line_paragraph line)) then
      Ok (if is_heading line then
            {| story := flushed st
                        ++ [Para (line_paragraph line);
                            Spacer (if startswith (strip line) "# " then 15 else 10)];
               current_section := [];
               in_bullet_list := false |}
          else
            {| story := story st;
               current_section := current_section st ++ [line_paragraph line];
               in_bullet_list :=
                 startswith (strip line) "* " || startswith (strip line) "- " |})
    else Raise ValueError.
Proof.
  unfold render_line, is_blank, is_heading, line_paragraph, new_paragraph. cbv zeta.
  rewrite !strip_not_indented, andb_false_r. cbn [orb].
  destruct (String.eqb (strip line) ""); [done |].
  destruct (startswith (strip line) "# ").
  { cbn [text]. by destruct (parses accepts _). }
  destruct (startswith (strip line) "## ").
  { cbn [text]. by destruct (parses accepts _). }
  cbn [orb].
  destruct (startswith (strip line) "* " || startswith (strip line) "- ");
    cbn [text]; by destruct (parses accepts _).
Qed.

(** C2, on the code as it is: each line is stripped before it is
    classified, so the indented line after the bullets is no longer
    indented when the continuation test looks at it; it becomes a
    paragraph of its own and the last bullet keeps its text. *)
Theorem continuation_line_becomes_paragraph (accepts : string -> bool) :
  build_story accepts "Report" sample_markup
  = Ok [ Para (Paragraph "Report" Title); Spacer 20;
         Para (Paragraph "Title" Heading1); Spacer 15;
         Para (Paragraph "Sub" Heading2); Spacer 10;
         Para (Paragraph "• one" BulletPoint);
         Para (Paragraph "• two" BulletPoint);
         Para (Paragraph "more text" Normal) ].
Proof. vm_compute. reflexivity. Qed.

(** ** Report composer *)

Lemma respond_json (env : environment) (req : ReportRequest)
    (patient_info : option Patient) (accept content : string) :
  wants_pdf req accept = false ->
  respond env req patient_info accept content = Ok (JsonContent content).
Proof. unfold respond. by intros ->. Qed.

Lemma scores_ok (P : Z -> Prop) (assessments : list Assessment) :
  Forall (fun a => exists s, compute_assessment_score a = Ok s /\ P s) assessments ->
  exists scores,
    mapM compute_assessment_score assessments = Ok scores /\ Forall P scores.
Proof.
  induction 1 as [| a l (s & Hs & HP) _ (scores & Hscores & HPs)]; simpl.
  - by exists [].
  - exists (s :: scores). rewrite Hs. simpl. rewrite Hscores. simpl. auto.
Qed.

Lemma scores_defined (assessments : list Assessment) (scores : list Z) :
  mapM compute_assessment_score assessments = Ok scores ->
  Forall (fun a => exists s, compute_assessment_score a = Ok s /\ True) assessments.
Proof.
  intros H. apply mapM_ok_inv in H.
  induction H; constructor; eauto.
Qed.

Lemma has_scores_none (assessments : list Assessment) :
  Forall (fun a => exists s, compute_assessment_score a = Ok s /\ s <= 0) assessments ->
  has_scores assessments = Ok false.
Proof.
  induction 1 as [| a l (s & Hs & Hle) _ IH]; simpl; [done |].
  rewrite Hs. simpl. destruct (Z.ltb_spec 0 s); [lia | done].
Qed.

Lemma has_scores_defined (assessments : list Assessment) :
  Forall (fun a => exists s, compute_assessment_score a = Ok s /\ True) assessments ->
  exists b, has_scores assessments = Ok b.
Proof.
  induction 1 as [| a l (s & Hs & _) _ [b IH]]; simpl; [eauto |].
  rewrite Hs. simpl. destruct (0 <? s); eauto.
Qed.

Lemma build_prompt_ok (req : ReportRequest) (patient_info : option Patient)
    (stats : dashboard) (assessments : list Assessment) (workouts : list Workout) :
  Forall (fun a => exists s, compute_assessment_score a = Ok s /\ True) assessments ->
  exists prompt, build_prompt req patient_info stats assessments workouts = Ok prompt.
Proof.
  intros Hall. unfold build_prompt.
  assert (Hlast : Forall (fun a => exists s, compute_assessment_score a = Ok s /\ True)
                         (last_n 50 assessments)) by by apply Forall_drop.
  assert (exists previews, mapM preview_assessment (last_n 50 assessments) = Ok previews)
    as [previews ->].
  { clear Hall. generalize dependent (last_n 50 assessments). intros l Hl.
    induction Hl as [| a l (s & Hs & _) _ [previews IH]]; [by exists [] |].
    rewrite mapM_cons, IH. unfold preview_assessment. rewrite Hs. simpl. eauto. }
  simpl. eauto.
Qed.

Lemma no_positive_scores (scores : list Z) :
  Forall (fun s => s <= 0) scores -> List.filter (fun s => 0 <? s) scores = [].
Proof.
  induction 1 as [| s l Hs _ IH]; simpl; [done |].
  destruct (Z.ltb_spec 0 s); [lia | done].
Qed.

(** C5, as the code has it: when every assessment of the request has a
    score, none of them above 0, and there is no workout, the content
    that is composed is the fixed "insufficient data" narrative, which
    names the patient (or "the patient", and the age when it is known)
    and lists the next steps; nothing is sent to the generator, whatever
    the configuration.  A JSON answer returns that narrative, a PDF
    answer is what the renderer makes of it. *)
Theorem insufficient_data_report (env : environment) (st : store)
    (req : ReportRequest) (accept : string) :
  let patient_info := patient_info_of st req in
  let pname :=
    match patient_info with Some p => p_name p | None => "the patient" end in
  let age_str :=
    match patient_info ≫= p_age with
    | Some age => " (Age " +:+ pretty age +:+ ")"
    | None => ""
    end in
  let narrative :=
    "Insufficient data to generate a detailed report for " +:+ pname +:+ age_str
      +:+ " at this time." +:+ nl +:+ nl
    +:+ "What this means:"
    +:+ "- No scored assessment fields were provided yet, and no home workouts are recorded."
    +:+ nl +:+ nl
    +:+ "Recommended next steps:"
    +:+ "- Complete at least one assessment with key skill ratings (e.g., Fine Motor, Gross Motor, Communication)."
    +:+ nl
    +:+ "- Optionally log a few home workout activities to enrich the analysis." +:+ nl
    +:+ "Once new data is available, generate the report again to see personalized insights and recommendations." in
  Forall (fun a => exists s, compute_assessment_score a = Ok s /\ s <= 0)
         (for_patient a_patientId (r_patientId req) (assessments st)) ->
  for_patient w_patientId (r_patientId req) (workouts st) = [] ->
  compose_content env req patient_info
    (for_patient a_patientId (r_patientId req) (assessments st))
    (for_patient w_patientId (r_patientId req) (workouts st))
  = Ok {| content := narrative; generator_calls := [] |}
  /\ generate_report env st req accept
     = (r ← respond env req patient_info accept narrative; mret (r, []))
  /\ (wants_pdf req accept = false ->
      generate_report env st req accept = Ok (JsonContent narrative, [])).
Proof.
  intros patient_info pname age_str narrative Hscores Hworkouts.
  assert (Hcomposed :
            compose_content env req patient_info
              (for_patient a_patientId (r_patientId req) (assessments st))
              (for_patient w_patientId (r_patientId req) (workouts st))
            = Ok {| content := narrative; generator_calls := [] |}).
  { unfold compose_content, compute_dashboard_stats.
    rewrite Hworkouts.
    destruct (scores_ok _ _ Hscores) as (scores & -> & Hle). simpl.
    rewrite (no_positive_scores _ Hle). simpl.
    rewrite (has_scores_none _ Hscores). simpl.
    destruct (gemini_configured env); simpl.
    - edestruct build_prompt_ok as [prompt ->].
      { eapply Forall_impl; [exact Hscores |]. intros a (s & Hs & _). eauto. }
      reflexivity.
    - reflexivity. }
  assert (Hreport :
            generate_report env st req accept
            = (r ← respond env req patient_info accept narrative; mret (r, []))).
  { unfold generate_report. cbv zeta. fold patient_info. by rewrite Hcomposed. }
  split; [exact Hcomposed |]. split; [exact Hreport |].
  intros Hjson. by rewrite Hreport, respond_json.
Qed.

Lemma insufficient_data_report_witness :
  generate_report (sample_environment true) store_with_text_rating sample_request ""
  = Ok (JsonContent
          ("Insufficient data to generate a detailed report for the patient at this time."
           +:+ nl +:+ nl
           +:+ "What this means:"
           +:+ "- No scored assessment fields were provided yet, and no home workouts are recorded."
           +:+ nl +:+ nl
           +:+ "Recommended next steps:"
           +:+ "- Complete at least one assessment with key skill ratings (e.g., Fine Motor, Gross Motor, Communication)."
           +:+ nl
           +:+ "- Optionally log a few home workout activities to enrich the analysis." +:+ nl
           +:+ "Once new data is available, generate the report again to see personalized insights and recommendations."),
        []).
Proof.
  apply (insufficient_data_report (sample_environment true) store_with_text_rating
           sample_request "").
  - repeat constructor. exists 0. split; [by vm_compute | lia].
  - reflexivity.
  - reflexivity.
Defined.

(** C5 as stated fails: a store whose one assessment rates grip
    [-10^400] has no assessment with a score above 0 and no workout, yet
    the request ends in [OverflowError], configured or not, instead of
    returning the narrative: the statistics are computed first, and the
    score overflows the floats. *)
Lemma insufficient_data_report_counterexample :
  (forall a s,
     a ∈ for_patient a_patientId (r_patientId sample_request)
           (assessments store_with_huge_negative_rating) ->
     compute_assessment_score a = Ok s -> s <= 0)
  /\ for_patient w_patientId (r_patientId sample_request)
       (workouts store_with_huge_negative_rating) = []
  /\ generate_report (sample_environment true) store_with_huge_negative_rating
       sample_request "" = Raise OverflowError
  /\ generate_report (sample_environment false) store_with_huge_negative_rating
       sample_request "" = Raise OverflowError.
Proof.
  split; [| split; [reflexivity | split; by vm_compute]].
  intros a s Ha.
  replace (for_patient a_patientId (r_patientId sample_request)
             (assessments store_with_huge_negative_rating))
    with [sample_assessment [("fineMotor_grip", VInt (- 10 ^ 400))]] in Ha
    by (by vm_compute).
  apply list_elem_of_singleton in Ha as ->.
  assert (Hscore : compute_assessment_score
                     (sample_assessment [("fineMotor_grip", VInt (- 10 ^ 400))])
                   = Raise OverflowError) by (by vm_compute).
  rewrite Hscore. discriminate.
Qed.

(** When the generator is configured, the request has data to report and
    the call of the generator fails, the failure is caught: the content
    is the fallback text with the reason and the three headline
    statistics, and it goes on to the answer like any other content. *)
Lemma generation_failure_content (env : environment) (st : store)
    (req : ReportRequest) (accept reason : string) (stats : dashboard) :
  let assessments := for_patient a_patientId (r_patientId req) (assessments st) in
  let workouts := for_patient w_patientId (r_patientId req) (workouts st) in
  let patient_info := patient_info_of st req in
  let fallback :=
    "AI generation failed. Fallback summary based on available data." +:+ nl
    +:+ "Reason: " +:+ reason +:+ nl
    +:+ "Active Patients: " +:+ pretty (activePatients stats) +:+ nl
    +:+ "Average Progress: " +:+ pretty (averageProgress stats) +:+ "%" +:+ nl
    +:+ "Total Workouts: " +:+ pretty (homeWorkouts stats) +:+ nl in
  gemini_configured env = true ->
  compute_dashboard_stats (today_utc env) assessments workouts = Ok stats ->
  has_scores assessments = Ok true \/ workouts <> [] ->
  (forall prompt,
     build_prompt req patient_info stats assessments workouts = Ok prompt ->
     generate_content env prompt = GenerationFailed reason) ->
  exists prompt,
    build_prompt req patient_info stats assessments workouts = Ok prompt
    /\ generate_report env st req accept
       = (r ← respond env req patient_info accept fallback; mret (r, [prompt]))
    /\ (wants_pdf req accept = false ->
        generate_report env st req accept = Ok (JsonContent fallback, [prompt])).
Proof.
  intros assessments workouts patient_info fallback Hconf Hstats Hdata Hfail.
  pose proof Hstats as Hscores.
  unfold compute_dashboard_stats in Hscores.
  apply bind_ok_inv in Hscores as (scores & Hscores & _).
  apply scores_defined in Hscores.
  destruct (build_prompt_ok req patient_info stats assessments workouts Hscores)
    as [prompt Hprompt].
  destruct (has_scores_defined _ Hscores) as [scored Hscored].
  assert (Hreport :
            generate_report env st req accept
            = (r ← respond env req patient_info accept fallback; mret (r, [prompt]))).
  { unfold generate_report, compose_content.
    fold assessments workouts patient_info.
    rewrite Hstats. simpl. rewrite Hscored. simpl. rewrite Hconf. simpl.
    rewrite Hprompt. simpl.
    assert (Hnone : negb scored && (len workouts =? 0) = false).
    { destruct Hdata as [Htrue | Hsome].
      - rewrite Htrue in Hscored. by injection Hscored as <-.
      - destruct workouts; [done |]. rewrite len_cons.
        apply andb_false_intro2, Z.eqb_neq. unfold len. lia. }
    rewrite Hnone, (Hfail prompt Hprompt). reflexivity. }
  exists prompt. split; [done |]. split; [exact Hreport |].
  intros Hjson. by rewrite Hreport, respond_json.
Qed.

(** C6, on the code as it is: the failure of the generator is caught and
    a JSON answer returns the fallback text with the reason and the three
    headline statistics.  A PDF answer hands the same text to reportlab
    as it is: when the reason opens a tag that reportlab refuses, the
    paragraph of that line is not built and the request ends in
    [ValueError] after all. *)
Theorem generation_failure_breaks_pdf (generate : user_prompt -> generation)
    (accepts : string -> bool) :
  (forall prompt, generate prompt = GenerationFailed "<b>quota exceeded") ->
  accepts "Reason: <b>quota exceeded" = false ->
  generate_report (failing_environment generate accepts) store_with_one_rating
    pdf_request "" = Raise ValueError
  /\ exists prompt,
       generate_report (failing_environment generate accepts) store_with_one_rating
         sample_request ""
       = Ok (JsonContent
               ("AI generation failed. Fallback summary based on available data." +:+ nl
                +:+ "Reason: <b>quota exceeded" +:+ nl
                +:+ "Active Patients: 1" +:+ nl
                +:+ "Average Progress: 80%" +:+ nl
                +:+ "Total Workouts: 1" +:+ nl),
             [prompt]).
Proof.
  intros Hfail Hrefused. split.
  - destruct (generation_failure_content (failing_environment generate accepts)
                store_with_one_rating pdf_request "" "<b>quota exceeded"
                (mk_dashboard 1 1 80 1))
      as (prompt & _ & -> & _);
      [reflexivity | by vm_compute | left; by vm_compute | intros prompt _; apply Hfail |].
    unfold respond.
    replace (wants_pdf pdf_request "") with true by (by vm_compute).
    cbv zeta. cbn [reportlab_available markup_ok failing_environment].
    unfold _build_pdf_bytes.
    assert (Hstory :
              build_story accepts
                (match patient_info_of store_with_one_rating pdf_request with
                 | Some p => p_name p
                 | None => "Patient Report"
                 end +:+ " - " +:+ title_case (reportType pdf_request))
                (clean_content
                   ("AI generation failed. Fallback summary based on available data."
                    +:+ nl +:+ "Reason: " +:+ "<b>quota exceeded" +:+ nl
                    +:+ "Active Patients: " +:+ pretty (activePatients (mk_dashboard 1 1 80 1))
                    +:+ nl
                    +:+ "Average Progress: "
                    +:+ pretty (averageProgress (mk_dashboard 1 1 80 1)) +:+ "%" +:+ nl
                    +:+ "Total Workouts: " +:+ pretty (homeWorkouts (mk_dashboard 1 1 80 1))
                    +:+ nl))
              = Raise ValueError).
    { vm_compute. rewrite Hrefused. reflexivity. }
    by rewrite Hstory.
  - destruct (generation_failure_content (failing_environment generate accepts)
                store_with_one_rating sample_request "" "<b>quota exceeded"
                (mk_dashboard 1 1 80 1))
      as (prompt & _ & _ & Hjson);
      [reflexivity | by vm_compute | left; by vm_compute | intros prompt _; apply Hfail |].
    exists prompt. apply Hjson. reflexivity.
Qed.

Lemma generation_failure_breaks_pdf_witness :
  generate_report
    (failing_environment (fun _ => GenerationFailed "<b>quota exceeded") closed_bold)
    store_with_one_rating pdf_request "" = Raise ValueError.
Proof.
  apply (generation_failure_breaks_pdf
           (fun _ => GenerationFailed "<b>quota exceeded") closed_bold).
  - intros prompt. reflexivity.
  - reflexivity.
Defined.

(** ** Record store *)

(** C10: a clear request whose type is none of "patients", "assessments",
    "workouts" and "all" leaves the three collections as they were and
    still answers "cleared" with the type it was given. *)
Theorem admin_clear_unknown_type (t : string) (st : store) :
  t ∉ ["patients"; "assessments"; "workouts"; "all"] ->
  admin_clear (Some t) st
  = (st, {| cleared_status := "cleared"; cleared_type := Some t |}).
Proof.
  intros Hnot.
  assert (Hne : forall u, u ∈ ["patients"; "assessments"; "workouts"; "all"] ->
                          String.eqb t u = false).
  { intros u Hu. apply String.eqb_neq. intros ->. contradiction. }
  unfold admin_clear, type_in.
  rewrite !Hne by set_solver.
  simpl. by destruct st.
Qed.

Lemma admin_clear_unknown_type_witness :
  admin_clear (Some "everything") (mk_store [mk_Patient "1" "Ann" None] [] [])
  = (mk_store [mk_Patient "1" "Ann" None] [] [],
     {| cleared_status := "cleared"; cleared_type := Some "everything" |}).
Proof.
  apply admin_clear_unknown_type.
  intros H. repeat (apply elem_of_cons in H as [H | H]; [discriminate H |]).
  by apply elem_of_nil in H.
Defined.

(** * Further properties *)

(** ** Score engine: what the score depends on *)

Lemma sum_Permutation (l k : list Z) : l ≡ₚ k -> sum l = sum k.
Proof.
  induction 1 as [| x l k _ IH | x y l | l k m _ IH1 _ IH2].
  - done.
  - by rewrite !sum_cons, IH.
  - rewrite !sum_cons. lia.
  - by rewrite IH1.
Qed.

Lemma percentage_score_Permutation (l k : list Z) :
  l ≡ₚ k -> percentage_score l = percentage_score k.
Proof.
  intros Hperm. unfold percentage_score.
  pose proof (sum_Permutation _ _ Hperm) as Hsum.
  pose proof (Permutation_length Hperm) as Hlen.
  destruct l as [| x l], k as [| y k]; try done.
  unfold len. by rewrite Hsum, Hlen.
Qed.

Lemma dict_get_Permutation (d1 d2 : list (string * pyval)) (k : string) :
  NoDup (fst <$> d1) -> d1 ≡ₚ d2 -> dict_get d1 k = dict_get d2 k.
Proof.
  intros Hnodup Hperm. revert Hnodup.
  induction Hperm as [| [k1 v1] l l' Hp IH | [k1 v1] [k2 v2] l | l l' l'' Hp1 IH1 Hp2 IH2];
    intros Hnodup.
  - done.
  - simpl. apply NoDup_cons in Hnodup as [_ Hnodup]. by rewrite IH.
  - simpl. destruct (String.eqb_spec k1 k) as [-> | ?], (String.eqb_spec k2 k) as [-> | ?];
      try done.
    apply NoDup_cons in Hnodup as [Hnotin _]. exfalso. apply Hnotin. simpl. left.
  - rewrite IH1 by done. apply IH2. by rewrite <- Hp1.
Qed.

(** All rounded percentages of sums up to 30 over one to six ratings,
    against the exactly rounded ones. *)
Lemma round_percent_exact_on_ratings :
  forallb (fun c =>
             forallb (fun s =>
                        match round_percent s (c * 5) with
                        | Ok r => r =? div_half_even (s * 100) (c * 5)
                        | Raise _ => false
                        end)
                     (range 0 31))
          (range 1 7)
  = true.
Proof. by vm_compute. Qed.

Lemma elem_of_range_2 (lo hi i : Z) : lo <= i < hi -> i ∈ range lo hi.
Proof.
  intros Hi. unfold range. apply list_elem_of_fmap.
  exists (Z.to_nat (i - lo)). split; [lia |]. apply elem_of_seq. lia.
Qed.

(** X1: with every rating between 0 and 5 the score is the exactly rounded
    percentage [sum * 100 / (count * 5)], ties to even: the floating-point
    steps lose nothing, and the score lies between 0 and 100. *)
Theorem rated_score_is_exact (a : Assessment) :
  rating_values a <> [] ->
  Forall (fun v => 0 <= v <= 5) (rating_values a) ->
  compute_assessment_score a
  = Ok (div_half_even (sum (rating_values a) * 100) (len (rating_values a) * 5))
  /\ 0 <= div_half_even (sum (rating_values a) * 100) (len (rating_values a) * 5) <= 100.
Proof.
  intros Hne Hall.
  rewrite compute_assessment_score_values.
  pose proof (length_omap_le (fun k => convertible (dict_get (a_data a) k)) rating_keys)
    as Hlen.
  fold (rating_values a) in Hlen. change (length rating_keys) with 6%nat in Hlen.
  assert (Hsum : 0 <= sum (rating_values a) <= 5 * len (rating_values a)).
  { clear Hne Hlen. induction Hall as [| x l Hx _ IH].
    - unfold sum, len. simpl. lia.
    - rewrite sum_cons, len_cons. lia. }
  assert (Hc : 1 <= len (rating_values a) < 7).
  { unfold len. destruct (rating_values a); [done |]. simpl length in *. lia. }
  split.
  - pose proof round_percent_exact_on_ratings as Hall'.
    rewrite forallb_forall in Hall'.
    specialize (Hall' (len (rating_values a))
                  ltac:(apply list_elem_of_In, elem_of_range_2; lia)).
    rewrite forallb_forall in Hall'.
    specialize (Hall' (sum (rating_values a))
                  ltac:(apply list_elem_of_In, elem_of_range_2; lia)).
    unfold percentage_score. destruct (rating_values a) as [| v vals]; [done |].
    destruct (round_percent _ _) as [r |]; [| done].
    apply Z.eqb_eq in Hall'. by rewrite Hall'.
  - apply div_half_even_bounds; lia.
Qed.

Lemma rated_score_is_exact_witness :
  compute_assessment_score
    (sample_assessment [("fineMotor_grip", VInt 1); ("grossMotor_balance", VInt 2);
                        ("cognitive_approach", VInt 2)])
  = Ok 33.
Proof.
  apply (proj1 (rated_score_is_exact
                  (sample_assessment [("fineMotor_grip", VInt 1); ("grossMotor_balance", VInt 2);
                                      ("cognitive_approach", VInt 2)])
                  ltac:(by vm_compute)
                  ltac:(vm_compute; repeat constructor; discriminate))).
Defined.

Lemma rating_values_ext (a b : Assessment) :
  (forall k, k ∈ rating_keys -> dict_get (a_data a) k = dict_get (a_data b) k) ->
  rating_values a = rating_values b.
Proof.
  intros Hsame. unfold rating_values.
  induction rating_keys as [| k keys IH]; [done |]. csimpl.
  rewrite (Hsame k) by (apply elem_of_cons; auto).
  rewrite IH by (intros k' Hk'; apply Hsame, elem_of_cons; auto). done.
Qed.

(** X2: the score looks at nothing but the values under the six rating
    keys: assessments that agree there score alike, whatever else their
    data, identifiers and timestamps hold, and the order in which a
    mapping lists its keys has no influence. *)
Theorem score_depends_on_rating_keys_only (a b : Assessment) :
  ((forall k, k ∈ rating_keys -> dict_get (a_data a) k = dict_get (a_data b) k) ->
   compute_assessment_score a = compute_assessment_score b)
  /\ (NoDup (fst <$> a_data a) -> a_data a ≡ₚ a_data b ->
      compute_assessment_score a = compute_assessment_score b).
Proof.
  split.
  - intros Hsame. by rewrite !compute_assessment_score_values, (rating_values_ext a b).
  - intros Hnodup Hperm.
    rewrite !compute_assessment_score_values, (rating_values_ext a b); [done |].
    intros k _. by apply dict_get_Permutation.
Qed.

Lemma score_depends_on_rating_keys_only_witness :
  compute_assessment_score
    (sample_assessment [("fineMotor_grip", VInt 4); ("fineMotor_notes", VStr "tired")])
  = compute_assessment_score (assessment_on 1 4)
  /\ compute_assessment_score
       (sample_assessment [("fineMotor_grip", VInt 4); ("communication_clarity", VInt 2)])
     = compute_assessment_score
         (sample_assessment [("communication_clarity", VInt 2); ("fineMotor_grip", VInt 4)]).
Proof.
  split.
  - apply (proj1 (score_depends_on_rating_keys_only
                    (sample_assessment
                       [("fineMotor_grip", VInt 4); ("fineMotor_notes", VStr "tired")])
                    (assessment_on 1 4))).
    intros k Hk. unfold rating_keys in Hk.
    repeat (apply elem_of_cons in Hk as [-> | Hk]; [reflexivity |]).
    by apply elem_of_nil in Hk.
  - apply (proj2 (score_depends_on_rating_keys_only
                    (sample_assessment
                       [("fineMotor_grip", VInt 4); ("communication_clarity", VInt 2)])
                    (sample_assessment
                       [("communication_clarity", VInt 2); ("fineMotor_grip", VInt 4)]))).
    + apply (bool_decide_unpack _). by vm_compute.
    + apply Permutation_swap.
Defined.

(** X3: the score depends on the rating values as a multiset: which of
    the six keys holds which rating does not matter. *)
Theorem score_invariant_under_exchange (a b : Assessment) :
  rating_values a ≡ₚ rating_values b ->
  compute_assessment_score a = compute_assessment_score b.
Proof.
  intros Hperm. rewrite !compute_assessment_score_values.
  by apply percentage_score_Permutation.
Qed.

Lemma score_invariant_under_exchange_witness :
  compute_assessment_score
    (sample_assessment [("fineMotor_grip", VInt 4); ("communication_clarity", VInt 2)])
  = compute_assessment_score
      (sample_assessment [("grossMotor_balance", VInt 2); ("emotional_quality", VInt 4)]).
Proof.
  apply score_invariant_under_exchange.
  change ([4; 2] ≡ₚ [2; 4]). apply Permutation_swap.
Defined.

(** ** Dashboard statistics *)

Lemma mapM_app {A B} (f : A -> result B) (l k : list A) :
  mapM f (l ++ k) = (a ← mapM f l; b ← mapM f k; mret (a ++ b)).
Proof.
  induction l as [| x l IH].
  - simpl. by destruct (mapM f k).
  - rewrite <- app_comm_cons, !mapM_cons, IH.
    destruct (f x); simpl; [| done].
    destruct (mapM f l); simpl; [| done].
    by destruct (mapM f k).
Qed.

Lemma size_list_to_set_le (l : list string) :
  (size (list_to_set l : gset string) <= length l)%nat.
Proof.
  induction l as [| x l IH].
  - rewrite list_to_set_nil, size_empty. simpl. lia.
  - rewrite list_to_set_cons, size_union_alt, size_singleton. simpl length.
    assert (Hsub : list_to_set l ∖ {[x]} ⊆ (list_to_set l : gset string))
      by (intros y [Hy _]%elem_of_difference; exact Hy).
    apply subseteq_size in Hsub. lia.
Qed.

Lemma size_union_le (X Y : gset string) : (size (X ∪ Y) <= size X + size Y)%nat.
Proof.
  rewrite size_union_alt.
  assert (Hsub : Y ∖ X ⊆ Y) by (intros y [Hy _]%elem_of_difference; exact Hy).
  apply subseteq_size in Hsub. lia.
Qed.

Lemma filter_within (P : Z -> Prop) (p : Z -> bool) (l : list Z) :
  Forall P l -> Forall P (List.filter p l).
Proof.
  induction 1 as [| x l Hx _ IH]; simpl; [constructor |].
  destruct (p x); [by constructor | done].
Qed.

(** X4: when every rating lies between 0 and 5 the dashboard statistics
    exist and are within their natural bounds: the average progress
    between 0 and 100, today's assessments at most the assessments, the
    home workouts the number of workouts, the active patients at most
    the number of records. *)
Theorem dashboard_stats_bounds (today : Z) (assessments : list Assessment)
    (workouts : list Workout) :
  Forall (fun a => Forall (fun v => 0 <= v <= 5) (rating_values a)) assessments ->
  exists stats,
    compute_dashboard_stats today assessments workouts = Ok stats
    /\ 0 <= averageProgress stats <= 100
    /\ 0 <= todaysAssessments stats <= len assessments
    /\ homeWorkouts stats = len workouts
    /\ 0 <= activePatients stats <= len assessments + len workouts.
Proof.
  intros Hratings. unfold compute_dashboard_stats.
  destruct (scores_ok (fun s => 0 <= s <= 100) assessments) as (scores & -> & Hscores).
  { eapply Forall_impl; [exact Hratings |]. intros a. apply score_in_range. }
  cbn [mbind result_bind].
  set (avg_list := List.filter (fun s => 0 <? s) scores).
  destruct (rounded_mean_within 100 0 avg_list) as (avg & Havg & Hle & Hge); [lia | lia | |].
  { apply filter_within. eapply Forall_impl; [exact Hscores |]. intros s. simpl. lia. }
  change (match avg_list with
          | [] => Ok 0
          | _ :: _ => round_ratio (sum avg_list) (len avg_list)
          end) with (rounded_mean avg_list).
  rewrite Havg. cbn [mbind result_bind].
  eexists. split; [reflexivity |]. cbn [averageProgress todaysAssessments homeWorkouts
                                        activePatients].
  split; [| split; [| split; [done |]]].
  - assert (0 <= avg); [| lia].
    apply Hge, filter_within. eapply Forall_impl; [exact Hscores |]. intros s. simpl. lia.
  - split; [unfold len; lia | apply len_filter_le].
  - split; [lia |].
    pose proof (size_union_le (list_to_set (a_patientId <$> assessments))
                  (list_to_set (w_patientId <$> workouts))).
    pose proof (size_list_to_set_le (a_patientId <$> assessments)).
    pose proof (size_list_to_set_le (w_patientId <$> workouts)).
    rewrite !length_fmap in *. unfold len. lia.
Qed.

Lemma dashboard_stats_bounds_witness :
  exists stats,
    compute_dashboard_stats 739923 (assessments store_with_three_days)
      (workouts store_with_one_rating)
    = Ok stats
    /\ 0 <= averageProgress stats <= 100
    /\ 0 <= todaysAssessments stats <= len (assessments store_with_three_days)
    /\ homeWorkouts stats = len (workouts store_with_one_rating)
    /\ 0 <= activePatients stats
       <= len (assessments store_with_three_days) + len (workouts store_with_one_rating).
Proof.
  apply dashboard_stats_bounds.
  repeat constructor; by vm_compute.
Defined.

Lemma for_patient_ids {A} (pid : A -> string) (c : ascii) (s : string) (items : list A) :
  Forall (fun x => pid x = String c s) (for_patient pid (Some (String c s)) items).
Proof.
  unfold for_patient. induction items as [| x items IH]; simpl; [constructor |].
  destruct (String.eqb_spec (pid x) (String c s)); [by constructor | done].
Qed.

(** X5: asked about one patient, the dashboard counts at most one active
    patient. *)
Theorem dashboard_single_patient (st : store) (today : Z) (patientId : string)
    (stats : dashboard) :
  patientId <> "" ->
  dashboard_stats st today (Some patientId) = Ok stats ->
  0 <= activePatients stats <= 1.
Proof.
  intros Hne Hstats. destruct patientId as [| c s]; [done |].
  unfold dashboard_stats, compute_dashboard_stats in Hstats.
  apply bind_ok_inv in Hstats as (scores & _ & Hstats).
  apply bind_ok_inv in Hstats as (avg & _ & Hstats).
  injection Hstats as <-. cbn [activePatients].
  split; [lia |].
  set (X := list_to_set _ ∪ list_to_set _).
  assert (Hsub : X ⊆ ({[String c s]} : gset string)).
  { unfold X. intros x [Hx | Hx]%elem_of_union;
      apply elem_of_list_to_set, list_elem_of_fmap in Hx as (y & -> & Hy);
      apply elem_of_singleton.
    - pose proof (for_patient_ids a_patientId c s (assessments st)) as Hall.
      rewrite Forall_forall in Hall. by apply Hall.
    - pose proof (for_patient_ids w_patientId c s (workouts st)) as Hall.
      rewrite Forall_forall in Hall. by apply Hall. }
  apply subseteq_size in Hsub. rewrite size_singleton in Hsub. lia.
Qed.

Lemma dashboard_single_patient_witness :
  0 <= activePatients (mk_dashboard 1 1 80 1) <= 1.
Proof.
  apply (dashboard_single_patient store_with_one_rating 739923 "p1").
  - discriminate.
  - by vm_compute.
Defined.

(** X6: an assessment that scores 0 or less, such as one without
    ratings, does not enter the average progress. *)
Theorem unrated_assessment_leaves_average (today z : Z) (a : Assessment)
    (before after : list Assessment) (workouts : list Workout) :
  compute_assessment_score a = Ok z -> z <= 0 ->
  (stats ← compute_dashboard_stats today (before ++ a :: after) workouts;
   mret (averageProgress stats))
  = (stats ← compute_dashboard_stats today (before ++ after) workouts;
     mret (averageProgress stats)).
Proof.
  intros Hscore Hz. unfold compute_dashboard_stats.
  rewrite !mapM_app, mapM_cons, Hscore.
  destruct (mapM compute_assessment_score before) as [s1 |]; [| done].
  destruct (mapM compute_assessment_score after) as [s2 |]; [| done].
  cbn [mbind result_bind mret result_ret].
  rewrite !List.filter_app. simpl List.filter.
  destruct (Z.ltb_spec 0 z); [lia |].
  destruct (List.filter _ s1 ++ List.filter _ s2); [done |].
  by destruct (round_ratio _ _).
Qed.

Lemma unrated_assessment_leaves_average_witness :
  (stats ← compute_dashboard_stats 739923
             ([assessment_on 739923 3] ++ sample_assessment [] :: [assessment_on 739921 4]) [];
   mret (averageProgress stats))
  = (stats ← compute_dashboard_stats 739923
               ([assessment_on 739923 3] ++ [assessment_on 739921 4]) [];
     mret (averageProgress stats)).
Proof.
  apply (unrated_assessment_leaves_average 739923 0); [reflexivity | lia].
Defined.

(** ** Activity charts *)

Lemma weekly_activity_data (ws : list Workout) :
  compute_weekly_activity ws
  = Ok {| labels := weekday_labels;
          data := (fun i => len (List.filter (on_weekday i) ws)) <$> range 0 7 |}.
Proof.
  unfold compute_weekly_activity.
  erewrite mapM_ok_fmap; [reflexivity |].
  intros i Hi. unfold getitem.
  set (counts0 := foldl (fun counts i => <[i := 0]> counts) ∅ (range 0 7)).
  assert (H0 : counts0 !! i = Some 0).
  { change (range 0 7) with [0; 1; 2; 3; 4; 5; 6] in Hi.
    repeat (apply elem_of_cons in Hi as [-> | Hi]; [by vm_compute |]).
    by apply elem_of_nil in Hi. }
  pose proof (weekly_counts_lookup ws counts0 i) as Hv.
  destruct (weekly_counts_present ws counts0 i) as [v Hsome]; [by eexists |].
  rewrite Hsome in Hv |- *. rewrite H0 in Hv. simpl in Hv. by rewrite Hv.
Qed.

Lemma activity_distribution_data (ws : list Workout) :
  compute_activity_distribution ws
  = Ok {| labels := category_labels;
          data := (fun c => len (List.filter (in_category c) ws)) <$> categories |}.
Proof.
  unfold compute_activity_distribution.
  erewrite mapM_ok_fmap; [reflexivity |].
  intros c Hc. unfold getitem. rewrite count_category_lookup.
  set (counts0 := foldl (fun counts c => <[c := 0]> counts) ∅ categories).
  assert (H0 : counts0 !! c = Some 0).
  { unfold categories in Hc.
    repeat (apply elem_of_cons in Hc as [-> | Hc]; [by vm_compute |]).
    by apply elem_of_nil in Hc. }
  by rewrite H0.
Qed.

Lemma len_filter_Permutation {A} (p : A -> bool) (l k : list A) :
  l ≡ₚ k -> len (List.filter p l) = len (List.filter p k).
Proof.
  induction 1 as [| x l k _ IH | x y l | l k m _ IH1 _ IH2]; simpl.
  - done.
  - destruct (p x); rewrite ?len_cons; lia.
  - destruct (p x), (p y); rewrite ?len_cons; lia.
  - lia.
Qed.

Lemma len_filter_app {A} (p : A -> bool) (l k : list A) :
  len (List.filter p (l ++ k)) = len (List.filter p l) + len (List.filter p k).
Proof. rewrite List.filter_app. unfold len. rewrite length_app. lia. Qed.

Lemma zip_with_add_fmap {A} (f g : A -> Z) (l : list A) :
  zip_with Z.add (f <$> l) (g <$> l) = (fun x => f x + g x) <$> l.
Proof. induction l as [| x l IH]; csimpl; [done | by f_equal]. Qed.

(** X7: both activity charts depend on the workouts as a multiset; the
    order in which they are stored does not show. *)
Theorem activity_charts_ignore_order (ws ws' : list Workout) :
  ws ≡ₚ ws' ->
  compute_weekly_activity ws = compute_weekly_activity ws'
  /\ compute_activity_distribution ws = compute_activity_distribution ws'.
Proof.
  intros Hperm.
  rewrite !weekly_activity_data, !activity_distribution_data.
  split; do 2 f_equal; apply list_fmap_ext; intros _ i _;
    by apply len_filter_Permutation.
Qed.

Lemma activity_charts_ignore_order_witness :
  compute_weekly_activity [sample_workout "adl"; sample_workout "social"]
  = compute_weekly_activity [sample_workout "social"; sample_workout "adl"]
  /\ compute_activity_distribution [sample_workout "adl"; sample_workout "social"]
     = compute_activity_distribution [sample_workout "social"; sample_workout "adl"].
Proof. apply activity_charts_ignore_order, Permutation_swap. Defined.

(** X8: the charts of two collections taken together are the entry-wise
    sums of their charts. *)
Theorem activity_charts_add_up (ws1 ws2 : list Workout) :
  (exists d1 d2,
     compute_weekly_activity ws1 = Ok {| labels := weekday_labels; data := d1 |}
     /\ compute_weekly_activity ws2 = Ok {| labels := weekday_labels; data := d2 |}
     /\ compute_weekly_activity (ws1 ++ ws2)
        = Ok {| labels := weekday_labels; data := zip_with Z.add d1 d2 |})
  /\ (exists d1 d2,
        compute_activity_distribution ws1 = Ok {| labels := category_labels; data := d1 |}
        /\ compute_activity_distribution ws2 = Ok {| labels := category_labels; data := d2 |}
        /\ compute_activity_distribution (ws1 ++ ws2)
           = Ok {| labels := category_labels; data := zip_with Z.add d1 d2 |}).
Proof.
  split; do 2 eexists.
  - rewrite !weekly_activity_data. split; [reflexivity |]. split; [reflexivity |].
    rewrite zip_with_add_fmap. do 2 f_equal.
    apply list_fmap_ext. intros _ i _. apply len_filter_app.
  - rewrite !activity_distribution_data. split; [reflexivity |]. split; [reflexivity |].
    rewrite zip_with_add_fmap. do 2 f_equal.
    apply list_fmap_ext. intros _ c _. apply len_filter_app.
Qed.

(** ** Skills radar *)

Lemma radar_fold (keys : list string) (assessments : list Assessment) (vals : list Z) :
  foldl (fun vals a => foldl (collect_int (a_data a)) vals keys) vals assessments
  = vals ++ pooled_values keys assessments.
Proof.
  revert vals. unfold pooled_values.
  induction assessments as [| a l IH]; intros vals; csimpl.
  - by rewrite app_nil_r.
  - by rewrite IH, collect_int_fold, app_assoc.
Qed.

Lemma percentage_score_in_range (vals : list Z) :
  Forall (fun v => 0 <= v <= 5) vals ->
  exists s, percentage_score vals = Ok s /\ 0 <= s <= 100.
Proof.
  intros Hall. unfold percentage_score.
  destruct vals as [| v vals]; [exists 0; split; [done | lia] |].
  apply round_percent_unit.
  - rewrite len_cons. unfold len. lia.
  - induction Hall as [| x l Hx _ IH].
    + unfold sum, len. simpl. lia.
    + rewrite sum_cons, len_cons. lia.
Qed.

Lemma pooled_values_in_range (keys : list string) (assessments : list Assessment) :
  Forall rated_0_to_5 assessments ->
  Forall (fun v => 0 <= v <= 5) (pooled_values keys assessments).
Proof.
  intros Hall. unfold pooled_values. apply Forall_concat, Forall_fmap.
  eapply Forall_impl; [exact Hall |]. intros a Ha. simpl.
  apply Forall_forall. intros v (k & _ & Hv)%list_elem_of_omap. by apply (Ha k).
Qed.

(** X9: each value of the skills radar is the percentage of the values
    pooled over all assessments under the keys of its category, not a
    mean of per-assessment scores; with every rating between 0 and 5 the
    radar has its eight values, each between 0 and 100. *)
Theorem skills_radar_in_range (st : store) (patientId : option string) :
  let assessments := for_patient a_patientId patientId (assessments st) in
  Forall rated_0_to_5 assessments ->
  exists data,
    chart_dashboard_skills st patientId
    = Ok {| labels := category_labels; data := data |}
    /\ Forall2 (fun category v => percentage_score (pooled_values category.2 assessments) = Ok v)
               radar_categories data
    /\ length data = 8%nat
    /\ Forall (fun v => 0 <= v <= 100) data.
Proof.
  intros assessments Hall. unfold chart_dashboard_skills. fold assessments.
  rewrite (mapM_ext_in _ (fun category =>
                            percentage_score (pooled_values category.2 assessments))).
  2:{ intros [label keys] _. by rewrite radar_fold. }
  destruct (mapM_ok_exists
              (fun category => percentage_score (pooled_values category.2 assessments))
              radar_categories) as (data & -> & Hdata).
  { intros [label keys].
    destruct (percentage_score_in_range (pooled_values keys assessments)) as (s & Hs & _);
      [by apply pooled_values_in_range | eauto]. }
  exists data. split; [done |]. split; [done |]. split.
  - by apply Forall2_length in Hdata.
  - eapply Forall2_Forall_r; [exact Hdata |].
    apply Forall_forall. intros [label keys] _ v Hv.
    destruct (percentage_score_in_range (pooled_values keys assessments)) as (s & Hs & Hrange);
      [by apply pooled_values_in_range |].
    simpl in Hv. rewrite Hv in Hs. by injection Hs as <-.
Qed.

Lemma skills_radar_in_range_witness :
  exists data,
    chart_dashboard_skills store_with_three_days None
    = Ok {| labels := category_labels; data := data |}
    /\ Forall2 (fun category v =>
                  percentage_score
                    (pooled_values category.2
                       (for_patient a_patientId None (assessments store_with_three_days)))
                  = Ok v)
               radar_categories data
    /\ length data = 8%nat
    /\ Forall (fun v => 0 <= v <= 100) data.
Proof.
  apply (skills_radar_in_range store_with_three_days None).
  assert (Hgrip : forall ordinal grip, 0 <= grip <= 5 ->
                                       rated_0_to_5 (assessment_on ordinal grip)).
  { intros ordinal grip Hgrip k v. unfold convertible, assessment_on.
    cbn [a_data dict_get].
    destruct (String.eqb "fineMotor_grip" k); cbn [dict_get py_int];
      [intros [= <-]; exact Hgrip | discriminate]. }
  unfold store_with_three_days. cbn [for_patient assessments].
  repeat (apply List.Forall_cons; [apply Hgrip; lia |]).
  apply List.Forall_nil.
Defined.

(** ** Skill-performance report *)

Lemma present_ints_ok (a : Assessment) (keys : list string) :
  rated_or_absent a ->
  exists vals, present_ints a keys = Ok vals /\ Forall (fun v => 0 <= v <= 5) vals.
Proof.
  intros Ha. unfold present_ints.
  induction keys as [| k keys (vals & IH & Hvals)]; [by exists [] |].
  rewrite fmap_cons. cbn [List.filter].
  destruct (is_none (dict_get (a_data a) k)) eqn:Hnone; cbn [negb]; [eauto |].
  destruct (Ha k) as (v & Hv & Hrange); [by intros Heq; rewrite Heq in Hnone |].
  exists (v :: vals). rewrite mapM_cons, Hv, IH. split; [done | by constructor].
Qed.

Lemma add_category_score_ok (keys : list string) (scores : list Z) (a : Assessment) :
  rated_or_absent a -> Forall (fun s => 0 <= s <= 100) scores ->
  exists scores',
    add_category_score keys scores a = Ok scores'
    /\ Forall (fun s => 0 <= s <= 100) scores'.
Proof.
  intros Ha Hscores. unfold add_category_score.
  destruct (present_ints_ok a keys Ha) as (vals & -> & Hvals). cbn [mbind result_bind].
  destruct (percentage_score_in_range vals Hvals) as (s & Hs & Hrange).
  unfold percentage_score in Hs. destruct vals as [| v vals]; [eauto |].
  rewrite Hs. cbn [mbind result_bind]. eexists. split; [reflexivity |].
  apply Forall_app. split; [done | by constructor].
Qed.

Lemma category_scores_ok (keys : list string) (assessments : list Assessment)
    (scores : list Z) :
  Forall rated_or_absent assessments -> Forall (fun s => 0 <= s <= 100) scores ->
  exists scores',
    foldl_result (add_category_score keys) scores assessments = Ok scores'
    /\ Forall (fun s => 0 <= s <= 100) scores'.
Proof.
  intros Hall. revert scores.
  induction Hall as [| a l Ha _ IH]; intros scores Hscores; [by exists scores |].
  destruct (add_category_score_ok keys scores a Ha Hscores) as (scores1 & Hstep & H1).
  destruct (IH scores1 H1) as (scores' & Hfold & H').
  exists scores'. by rewrite foldl_result_cons, Hstep.
Qed.

Lemma rounded_mean_percent (vals : list Z) :
  Forall (fun s => 0 <= s <= 100) vals ->
  exists v, rounded_mean vals = Ok v /\ 0 <= v <= 100.
Proof.
  intros Hvals.
  destruct (rounded_mean_within 100 0 vals) as (v & Hv & Hle & Hge); [lia | lia | |].
  - eapply Forall_impl; [exact Hvals |]. intros s. simpl. lia.
  - exists v. split; [done |].
    assert (0 <= v); [| lia].
    apply Hge. eapply Forall_impl; [exact Hvals |]. intros s. simpl. lia.
Qed.

Lemma skill_performance_row_ok (assessments : list Assessment) (label : string)
    (keys : list string) :
  Forall rated_or_absent assessments ->
  exists row,
    skill_performance_row assessments (label, keys) = Ok row
    /\ skill row = label /\ row_in_range row.
Proof.
  intros Hall. unfold skill_performance_row.
  destruct (category_scores_ok keys assessments [] Hall) as (scores & -> & Hscores);
    [constructor |].
  cbn [mbind result_bind].
  destruct (rounded_mean_percent scores Hscores) as (cur & -> & Hcur).
  cbn [mbind result_bind].
  set (prev_scores := if 1 <? len scores then take (length scores - 1) scores else []).
  assert (Hprev : Forall (fun s => 0 <= s <= 100) prev_scores).
  { unfold prev_scores. destruct (1 <? len scores); [by apply Forall_take | constructor]. }
  destruct (rounded_mean_percent prev_scores Hprev) as (prev & Hprevious & Hrange).
  assert (exists prev',
            match prev_scores with
            | [] => Ok (Z.max 0 (cur - 5))
            | _ :: _ => round_ratio (sum prev_scores) (len prev_scores)
            end = Ok prev' /\ 0 <= prev' <= 100) as (prev' & -> & Hprev').
  { destruct prev_scores; [| eauto]. eexists. split; [reflexivity | lia]. }
  cbn [mbind result_bind]. eexists. split; [reflexivity |].
  split; [done |]. unfold row_in_range. cbn [current previous goal].
  split; [done |]. split; [done |].
  destruct (cur =? 0); lia.
Qed.

Lemma skills_of_rows (cats : list (string * list string)) (rows : list skill_row)
    (f : string * list string -> result skill_row) :
  Forall2 (fun c r => f c = Ok r) cats rows ->
  (forall c r, f c = Ok r -> skill r = c.1) ->
  skill <$> rows = fst <$> cats.
Proof.
  intros Hrows Hf. induction Hrows as [| c r cats rows Hc _ IH]; [done |].
  csimpl. by rewrite IH, (Hf c r Hc).
Qed.

(** X10: when every value the assessments hold is absent or converts to
    an integer between 0 and 5, the skill-performance report has its
    eight rows in their order, with current and previous scores between
    0 and 100 and goals between 80 and 100. *)
Theorem skill_performance_in_range (st : store) (patientId : option string) :
  Forall rated_or_absent (for_patient a_patientId patientId (assessments st)) ->
  exists rows,
    reports_skill_performance st patientId = Ok rows
    /\ skill <$> rows
       = ["Fine Motor Skills"; "Gross Motor Skills"; "Cognitive Abilities";
          "Communication Skills"; "Social Skills"; "ADL Skills";
          "Sensory Processing"; "Attention & Concentration"]
    /\ Forall row_in_range rows.
Proof.
  intros Hall. unfold reports_skill_performance.
  set (items := for_patient a_patientId patientId (assessments st)) in *.
  destruct (mapM_ok_exists (skill_performance_row items) performance_categories)
    as (rows & -> & Hrows).
  { intros [label keys].
    destruct (skill_performance_row_ok items label keys Hall) as (row & ? & _). eauto. }
  exists rows. split; [done |]. split.
  - apply (skills_of_rows performance_categories rows _ Hrows).
    intros [label keys] r Hr.
    destruct (skill_performance_row_ok items label keys Hall) as (row & Hrow & Hskill & _).
    rewrite Hr in Hrow. by injection Hrow as <-.
  - eapply Forall2_Forall_r; [exact Hrows |].
    apply Forall_forall. intros [label keys] _ r Hr.
    destruct (skill_performance_row_ok items label keys Hall) as (row & Hrow & _ & Hin).
    rewrite Hr in Hrow. by injection Hrow as <-.
Qed.

Lemma rated_or_absent_grip (ordinal grip : Z) :
  0 <= grip <= 5 -> rated_or_absent (assessment_on ordinal grip).
Proof.
  intros Hgrip k. unfold assessment_on. cbn [a_data dict_get].
  destruct (String.eqb "fineMotor_grip" k); cbn [dict_get py_int]; [eauto | done].
Qed.

Lemma skill_performance_in_range_witness :
  exists rows,
    reports_skill_performance store_with_three_days None = Ok rows
    /\ skill <$> rows
       = ["Fine Motor Skills"; "Gross Motor Skills"; "Cognitive Abilities";
          "Communication Skills"; "Social Skills"; "ADL Skills";
          "Sensory Processing"; "Attention & Concentration"]
    /\ Forall row_in_range rows.
Proof.
  apply skill_performance_in_range.
  unfold store_with_three_days. cbn [for_patient assessments].
  repeat (apply List.Forall_cons; [apply rated_or_absent_grip; lia |]).
  apply List.Forall_nil.
Defined.

Lemma mapM_raises {A B} (f : A -> result B) (l : list A) (x : A) :
  x ∈ l -> is_ok (f x) = false -> is_ok (mapM f l) = false.
Proof.
  intros Hx Hfx. induction l as [| y l IH]; [by apply elem_of_nil in Hx |].
  rewrite mapM_cons. apply elem_of_cons in Hx as [<- | Hx].
  - by destruct (f x).
  - destruct (f y); [| done]. cbn [mbind result_bind].
    specialize (IH Hx). by destruct (mapM f l).
Qed.

Lemma foldl_result_raises {A B} (step : B -> A -> result B) (l : list A) (x : A) (acc : B) :
  x ∈ l -> (forall acc, is_ok (step acc x) = false) ->
  is_ok (foldl_result step acc l) = false.
Proof.
  intros Hx Hstep. revert acc.
  induction l as [| y l IH]; intros acc; [by apply elem_of_nil in Hx |].
  rewrite foldl_result_cons. apply elem_of_cons in Hx as [<- | Hx].
  - specialize (Hstep acc). by destruct (step acc x).
  - destruct (step acc y); [| done]. cbn [mbind result_bind]. by apply IH.
Qed.

(** X11: one value that is present under a key of the skill-performance
    report and that [int] refuses is enough for the whole report to end
    in an exception, whatever else is stored. *)
Theorem skill_performance_fails_on_unconvertible (st : store)
    (patientId : option string) (a : Assessment) (label k : string)
    (keys : list string) :
  a ∈ for_patient a_patientId patientId (assessments st) ->
  (label, keys) ∈ performance_categories -> k ∈ keys ->
  dict_get (a_data a) k <> VNone ->
  is_ok (py_int (dict_get (a_data a) k)) = false ->
  is_ok (reports_skill_performance st patientId) = false.
Proof.
  intros Ha Hcat Hk Hpresent Hint. unfold reports_skill_performance.
  apply (mapM_raises _ _ (label, keys) Hcat).
  unfold skill_performance_row.
  assert (Hfold : forall scores,
            is_ok (foldl_result (add_category_score keys) scores
                     (for_patient a_patientId patientId (assessments st))) = false).
  { intros scores. apply (foldl_result_raises _ _ a _ Ha). intros acc.
    unfold add_category_score, present_ints.
    assert (Hraise : is_ok (mapM py_int
                              (List.filter (fun v => negb (is_none v))
                                 (dict_get (a_data a) <$> keys))) = false).
    { apply (mapM_raises _ _ (dict_get (a_data a) k)); [| done].
      apply list_elem_of_In, filter_In. split.
      - apply list_elem_of_In, list_elem_of_fmap. eauto.
      - by destruct (dict_get (a_data a) k). }
    by destruct (mapM py_int _). }
  specialize (Hfold []). by destruct (foldl_result _ _ _).
Qed.

Lemma skill_performance_fails_on_unconvertible_witness :
  is_ok (reports_skill_performance store_with_text_rating (Some "p1")) = false.
Proof.
  apply (skill_performance_fails_on_unconvertible store_with_text_rating (Some "p1")
           (sample_assessment [("communication_clarity", VStr "good")])
           "Communication Skills" "communication_clarity"
           ["communication_clarity"; "communication_grammar"]).
  - apply list_elem_of_here.
  - unfold performance_categories. do 3 apply list_elem_of_further. apply list_elem_of_here.
  - apply list_elem_of_here.
  - discriminate.
  - reflexivity.
Defined.

Lemma keyless_scores (assessments : list Assessment) (scores : list Z) :
  foldl_result (add_category_score []) scores assessments = Ok scores.
Proof.
  induction assessments as [| a l IH]; [done |].
  by rewrite foldl_result_cons.
Qed.

(** X12: the rows of Social Skills and of Attention and Concentration
    have no keys behind them: whenever the report exists they read 0, 0,
    80 and "On Track", whatever the assessments hold. *)
Theorem skill_performance_keyless_rows (st : store) (patientId : option string)
    (rows : list skill_row) :
  reports_skill_performance st patientId = Ok rows ->
  rows !! 4%nat
  = Some {| skill := "Social Skills"; current := 0; previous := 0; goal := 80;
            status := "On Track" |}
  /\ rows !! 7%nat
     = Some {| skill := "Attention & Concentration"; current := 0; previous := 0;
               goal := 80; status := "On Track" |}.
Proof.
  intros Hrows. unfold reports_skill_performance in Hrows.
  apply mapM_ok_inv in Hrows. unfold performance_categories in Hrows.
  repeat match goal with
         | H : Forall2 _ (_ :: _) _ |- _ =>
             apply Forall2_cons_inv_l in H as (? & ? & ? & H & ->)
         | H : Forall2 _ [] _ |- _ => apply Forall2_nil_inv_l in H as ->
         end.
  repeat match goal with
         | H : skill_performance_row _ (_, []) = Ok _ |- _ =>
             unfold skill_performance_row in H; rewrite keyless_scores in H;
             injection H as <-
         end.
  done.
Qed.

Lemma skill_performance_keyless_rows_witness :
  exists rows,
    reports_skill_performance store_with_three_days None = Ok rows
    /\ rows !! 4%nat
       = Some {| skill := "Social Skills"; current := 0; previous := 0; goal := 80;
                 status := "On Track" |}
    /\ rows !! 7%nat
       = Some {| skill := "Attention & Concentration"; current := 0; previous := 0;
                 goal := 80; status := "On Track" |}.
Proof.
  destruct (reports_skill_performance store_with_three_days None) as [rows |] eqn:Hrows;
    [| by vm_compute in Hrows].
  exists rows. split; [done |].
  exact (skill_performance_keyless_rows store_with_three_days None rows Hrows).
Defined.

(** ** Record store: clearing, patients and creation *)

(** X13: clearing composes as one expects: clearing twice is clearing
    once, the order of two clears does not matter, and clearing the three
    collections one after the other is clearing "all". *)
Theorem admin_clear_composes (st : store) (t1 t2 : option string) :
  fst (admin_clear t1 (fst (admin_clear t1 st))) = fst (admin_clear t1 st)
  /\ fst (admin_clear t1 (fst (admin_clear t2 st)))
     = fst (admin_clear t2 (fst (admin_clear t1 st)))
  /\ clear_type "patients" (clear_type "assessments" (clear_type "workouts" st))
     = clear_type "all" st
  /\ clear_type "all" st = {| patients := []; assessments := []; workouts := [] |}.
Proof.
  unfold clear_type, admin_clear.
  split; [| split; [| split; reflexivity]].
  - destruct (type_in t1 "assessments" "all"), (type_in t1 "workouts" "all"),
      (type_in t1 "patients" "all"); reflexivity.
  - destruct (type_in t1 "assessments" "all"), (type_in t1 "workouts" "all"),
      (type_in t1 "patients" "all"), (type_in t2 "assessments" "all"),
      (type_in t2 "workouts" "all"), (type_in t2 "patients" "all"); reflexivity.
Qed.

Lemma pretty_N_go_length (x : N) (s : string) :
  (String.length s <= String.length (pretty_N_go x s))%nat.
Proof.
  revert s. induction (N.lt_wf_0 x) as [x _ IH]; intros s.
  assert (x = 0 \/ 0 < x)%N as [-> | Hpos] by lia; [by rewrite pretty_N_go_0 |].
  rewrite pretty_N_go_step by done.
  etrans; [| by eapply IH, N.div_lt]. simpl. lia.
Qed.

Lemma pretty_Z_nonempty (z : Z) : pretty z <> "".
Proof.
  assert (Hpos : forall p : positive, pretty p <> "").
  { intros p. unfold pretty, pretty_positive, pretty, pretty_N.
    case_decide; [done |].
    rewrite pretty_N_go_step by lia.
    intros Hempty.
    pose proof (pretty_N_go_length (N.pos p `div` 10)
                  (String (pretty_N_char (N.pos p `mod` 10)) "")) as Hlen.
    rewrite Hempty in Hlen. simpl in Hlen. lia. }
  destruct z as [| p | p]; unfold pretty, pretty_Z; [done | apply Hpos | done].
Qed.

(** One turn of the loop of [_read_patients_as_map]. *)
Lemma patients_map_snoc (ps : list Patient) (p : Patient) :
  _read_patients_as_map (mk_store (ps ++ [p]) [] [])
  = let result := _read_patients_as_map (mk_store ps [] []) in
    let p :=
      if String.eqb (p_id p) ""
      then {| p_id := pretty (Z.of_nat (size result) + 1);
              p_name := p_name p; p_age := p_age p |}
      else p in
    <[p_id p := p]> result.
Proof. unfold _read_patients_as_map. cbn [patients]. by rewrite foldl_app. Qed.

Lemma patients_map_of_patients (st : store) :
  _read_patients_as_map st = _read_patients_as_map (mk_store (patients st) [] []).
Proof. reflexivity. Qed.

Lemma patients_map_entries (ps : list Patient) (k : string) (p : Patient) :
  _read_patients_as_map (mk_store ps [] []) !! k = Some p ->
  p_id p = k /\ k <> ""
  /\ exists q, q ∈ ps /\ p_name q = p_name p /\ p_age q = p_age p
               /\ (p_id q = "" \/ p_id q = k).
Proof.
  revert k p. induction ps as [| q ps IH] using rev_ind; intros k p; [done |].
  rewrite patients_map_snoc. cbv zeta.
  set (q' := if String.eqb (p_id q) "" then _ else q).
  assert (Hq' : p_id q' <> "" /\ p_name q = p_name q' /\ p_age q = p_age q'
                /\ (p_id q = "" \/ p_id q = p_id q')).
  { unfold q'. destruct (String.eqb_spec (p_id q) "") as [Hempty | Hid]; simpl.
    - split; [apply pretty_Z_nonempty | auto].
    - auto. }
  destruct Hq' as (Hne & Hname & Hage & Hid).
  destruct (decide (p_id q' = k)) as [<- | Hk].
  - rewrite lookup_insert_eq. intros [= <-]. split; [done |]. split; [done |].
    exists q. split; [apply elem_of_app; right; apply list_elem_of_here | done].
  - rewrite lookup_insert_ne by done. intros Hlookup.
    destruct (IH k p Hlookup) as (? & ? & q0 & Hq0 & ?).
    split; [done |]. split; [done |].
    exists q0. split; [apply elem_of_app; by left | done].
Qed.

(** X14: in the map that [_read_patients_as_map] builds every patient is
    filed under its own identifier, which is never empty, and stems from
    a stored patient with that identifier or with none. *)
Theorem patients_map_keys_are_ids (st : store) (k : string) (p : Patient) :
  _read_patients_as_map st !! k = Some p ->
  p_id p = k /\ k <> ""
  /\ exists q, q ∈ patients st /\ p_name q = p_name p /\ p_age q = p_age p
               /\ (p_id q = "" \/ p_id q = k).
Proof. rewrite patients_map_of_patients. apply patients_map_entries. Qed.

Lemma patients_map_keys_are_ids_witness :
  p_id {| p_id := "p1"; p_name := "Ann"; p_age := Some 7 |} = "p1" /\ "p1" <> ""
  /\ exists q, q ∈ patients store_with_one_rating
               /\ p_name q = p_name {| p_id := "p1"; p_name := "Ann"; p_age := Some 7 |}
               /\ p_age q = p_age {| p_id := "p1"; p_name := "Ann"; p_age := Some 7 |}
               /\ (p_id q = "" \/ p_id q = "p1").
Proof. apply (patients_map_keys_are_ids store_with_one_rating). by vm_compute. Defined.

Lemma patients_map_distinct (ps : list Patient) :
  Forall (fun p => p_id p <> "") ps -> NoDup (p_id <$> ps) ->
  (forall p, p ∈ ps -> _read_patients_as_map (mk_store ps [] []) !! p_id p = Some p)
  /\ size (_read_patients_as_map (mk_store ps [] [])) = length ps.
Proof.
  induction ps as [| q ps IH] using rev_ind; intros Hids Hnodup.
  { split; [by intros p Hp%elem_of_nil | done]. }
  apply Forall_app in Hids as [Hids Hq]. apply List.Forall_inv in Hq.
  rewrite fmap_app in Hnodup. apply NoDup_app in Hnodup as (Hnodup & Hfresh & _).
  destruct (IH Hids Hnodup) as [Hfind Hsize].
  rewrite patients_map_snoc. cbv zeta.
  rewrite (proj2 (String.eqb_neq (p_id q) "") Hq).
  assert (Hnew : _read_patients_as_map (mk_store ps [] []) !! p_id q = None).
  { destruct (_read_patients_as_map (mk_store ps [] []) !! p_id q) as [p |] eqn:Hp; [| done].
    exfalso. apply patients_map_entries in Hp as (_ & _ & q0 & Hq0 & _ & _ & [Hempty | Hsame]).
    - rewrite Forall_forall in Hids. by apply (Hids q0).
    - apply (Hfresh (p_id q)); [| apply list_elem_of_here].
      apply list_elem_of_fmap. eauto. }
  split.
  - intros p [Hp | Hp%list_elem_of_singleton]%elem_of_app.
    + rewrite lookup_insert_ne; [by apply Hfind |].
      intros Heq. apply (Hfresh (p_id q)); [| apply list_elem_of_here].
      apply list_elem_of_fmap. eauto.
    + subst p. apply lookup_insert_eq.
  - rewrite map_size_insert_None by done. rewrite Hsize, length_app. simpl. lia.
Qed.

(** X15: when the stored patients have identifiers that are present and
    different from one another, each of them is found in the map under
    its identifier and the map holds as many patients as are stored. *)
Theorem patients_map_finds_every_patient (st : store) :
  Forall (fun p => p_id p <> "") (patients st) -> NoDup (p_id <$> patients st) ->
  (forall p, p ∈ patients st -> _read_patients_as_map st !! p_id p = Some p)
  /\ size (_read_patients_as_map st) = length (patients st).
Proof. rewrite patients_map_of_patients. apply patients_map_distinct. Qed.

Lemma patients_map_finds_every_patient_witness :
  (forall p, p ∈ patients store_with_one_rating ->
             _read_patients_as_map store_with_one_rating !! p_id p = Some p)
  /\ size (_read_patients_as_map store_with_one_rating)
     = length (patients store_with_one_rating).
Proof.
  apply patients_map_finds_every_patient.
  - repeat constructor. discriminate.
  - apply (bool_decide_unpack _). by vm_compute.
Defined.

Lemma rstrip_idempotent (s : string) : rstrip (rstrip s) = rstrip s.
Proof.
  induction s as [| c s IH]; [done |]. simpl.
  destruct (rstrip s) as [| d t] eqn:Hs.
  - destruct (py_isspace c) eqn:Hc; [done |]. simpl. by rewrite Hc.
  - change (rstrip (String c (String d t)))
      with (match rstrip (String d t) with
            | EmptyString => if py_isspace c then EmptyString else String c EmptyString
            | String d' t' => String c (String d' t')
            end).
    by rewrite IH.
Qed.

Lemma strip_trimmed (s : string) : trimmed (strip s).
Proof.
  unfold trimmed, strip. split; [| apply rstrip_idempotent].
  destruct (rstrip (lstrip s)) as [| c t] eqn:Hstrip; [done |].
  apply rstrip_head in Hstrip as [t' Hl]. apply lstrip_head in Hl.
  simpl. by rewrite Hl.
Qed.

(** X16: a patient that has just been created is found in the patient
    map under the identifier that was handed out, whatever was filed
    there before; every other entry of the map and the two other
    collections are as they were, and the stored name carries no white
    space at either end. *)
Theorem create_patient_is_found (rt : runtime) (p : NewPatient) (st : store) :
  let st' := fst (create_patient rt p st) in
  let rec := snd (create_patient rt p st) in
  _read_patients_as_map st' !! p_id rec = Some rec
  /\ (forall k, k <> p_id rec ->
                _read_patients_as_map st' !! k = _read_patients_as_map st !! k)
  /\ trimmed (p_name rec)
  /\ assessments st' = assessments st /\ workouts st' = workouts st.
Proof.
  cbv zeta. unfold create_patient. cbn [fst snd p_id p_name assessments workouts].
  rewrite (patients_map_of_patients (mk_store _ _ _)). cbn [patients].
  rewrite patients_map_snoc. cbv zeta. cbn [p_id].
  rewrite (proj2 (String.eqb_neq (pretty (now_ms rt)) "") (pretty_Z_nonempty _)).
  cbn [p_id]. rewrite <- patients_map_of_patients.
  split; [apply lookup_insert_eq |].
  split; [by intros k Hk; rewrite lookup_insert_ne |].
  split; [apply strip_trimmed | done].
Qed.

(** ** Record store: workouts *)

Lemma for_patient_app {A} (pid : A -> string) (patientId : option string)
    (l k : list A) :
  for_patient pid patientId (l ++ k)
  = for_patient pid patientId l ++ for_patient pid patientId k.
Proof.
  unfold for_patient. destruct patientId as [[| c s] |]; try done.
  apply List.filter_app.
Qed.

Lemma for_patient_singleton {A} (pid : A -> string) (patientId : option string) (x : A) :
  for_patient pid patientId [x] = if selects patientId (pid x) then [x] else [].
Proof. unfold for_patient, selects. by destruct patientId as [[| c s] |]. Qed.

Lemma len_app {A} (l k : list A) : len (l ++ k) = len l + len k.
Proof. unfold len. rewrite length_app. lia. Qed.

(** X17: a workout that has just been saved comes last in every listing
    that selects its patient and is absent from the others, which are
    unchanged; on the dashboard it adds one to the home workouts of those
    queries and at most one to the active patients, and it leaves the
    assessments of today and the average progress alone. *)
Theorem create_workout_is_listed (w : Workout) (st : store) (today : Z)
    (patientId : option string) (before : dashboard) :
  let st' := fst (create_workout w st) in
  let added := if selects patientId (w_patientId w) then 1 else 0 in
  dashboard_stats st today patientId = Ok before ->
  list_workouts st' patientId
  = list_workouts st patientId
    ++ (if selects patientId (w_patientId w) then [w] else [])
  /\ exists after,
       dashboard_stats st' today patientId = Ok after
       /\ homeWorkouts after = homeWorkouts before + added
       /\ activePatients before <= activePatients after <= activePatients before + added
       /\ todaysAssessments after = todaysAssessments before
       /\ averageProgress after = averageProgress before.
Proof.
  cbv zeta. unfold create_workout, list_workouts, dashboard_stats.
  cbn [fst workouts assessments].
  rewrite for_patient_app, for_patient_singleton.
  set (ws := for_patient w_patientId patientId (workouts st)).
  set (asms := for_patient a_patientId patientId (assessments st)).
  intros Hbefore. split; [done |].
  unfold compute_dashboard_stats in *.
  destruct (mapM compute_assessment_score asms) as [scores |]; [| done].
  cbn [mbind result_bind] in *.
  destruct (match List.filter (fun s : Z => 0 <? s) scores with
            | [] => Ok 0
            | _ :: _ => round_ratio (sum (List.filter (fun s : Z => 0 <? s) scores))
                          (len (List.filter (fun s : Z => 0 <? s) scores))
            end) as [avg |]; [| done].
  cbn [mbind result_bind mret result_ret] in *.
  injection Hbefore as <-. eexists. split; [reflexivity |].
  cbn [homeWorkouts activePatients todaysAssessments averageProgress].
  split; [| split; [| done]].
  - rewrite len_app. destruct (selects patientId (w_patientId w)); unfold len; simpl; lia.
  - destruct (selects patientId (w_patientId w)).
    + rewrite fmap_app, list_to_set_app_L. csimpl.
      rewrite (union_empty_r_L {[w_patientId w]}).
      set (X := list_to_set (a_patientId <$> asms) : gset string).
      set (Y := list_to_set (w_patientId <$> ws) : gset string).
      assert (Hsub : X ∪ Y ⊆ X ∪ (Y ∪ {[w_patientId w]}))
        by apply union_mono_l, union_subseteq_l.
      apply subseteq_size in Hsub.
      assert (Heq : X ∪ (Y ∪ {[w_patientId w]}) = (X ∪ Y) ∪ {[w_patientId w]})
        by apply (assoc_L (∪)).
      pose proof (size_union_le (X ∪ Y) {[w_patientId w]}) as Hle.
      rewrite <- Heq, size_singleton in Hle. lia.
    + rewrite app_nil_r. lia.
Qed.

Lemma create_workout_is_listed_witness :
  list_workouts (fst (create_workout (sample_workout "adl") store_with_one_rating)) (Some "p1")
  = list_workouts store_with_one_rating (Some "p1")
    ++ (if selects (Some "p1") (w_patientId (sample_workout "adl"))
        then [sample_workout "adl"] else [])
  /\ exists after,
       dashboard_stats (fst (create_workout (sample_workout "adl") store_with_one_rating))
         739923 (Some "p1") = Ok after
       /\ homeWorkouts after
          = homeWorkouts (mk_dashboard 1 1 80 1)
            + (if selects (Some "p1") (w_patientId (sample_workout "adl")) then 1 else 0)
       /\ activePatients (mk_dashboard 1 1 80 1) <= activePatients after
          <= activePatients (mk_dashboard 1 1 80 1)
             + (if selects (Some "p1") (w_patientId (sample_workout "adl")) then 1 else 0)
       /\ todaysAssessments after = todaysAssessments (mk_dashboard 1 1 80 1)
       /\ averageProgress after = averageProgress (mk_dashboard 1 1 80 1).
Proof.
  apply (create_workout_is_listed (sample_workout "adl") store_with_one_rating
           739923 (Some "p1") (mk_dashboard 1 1 80 1)).
  by vm_compute.
Defined.

(** ** Record store: assessments *)

Lemma dict_get_set_eq (d : list (string * pyval)) (k : string) (v : pyval) :
  dict_get (dict_set d k v) k = v.
Proof.
  induction d as [| [k' v'] d IH]; simpl.
  - by rewrite String.eqb_refl.
  - destruct (String.eqb k' k) eqn:Hk; simpl; by rewrite Hk.
Qed.

Lemma dict_get_set_ne (d : list (string * pyval)) (k k' : string) (v : pyval) :
  k <> k' -> dict_get (dict_set d k v) k' = dict_get d k'.
Proof.
  intros Hne. induction d as [| [k0 v0] d IH]; simpl.
  - by rewrite (proj2 (String.eqb_neq k k') Hne).
  - destruct (String.eqb_spec k0 k) as [-> | Hk0]; simpl.
    + by rewrite (proj2 (String.eqb_neq k k') Hne).
    + by rewrite IH.
Qed.

Lemma dict_get_data_keys (d : list (string * pyval)) (k : string) :
  is_data_key k = true ->
  dict_get (List.filter (fun kv => is_data_key (fst kv)) d) k = dict_get d k.
Proof.
  intros Hk. induction d as [| [k' v'] d IH]; [done |]. simpl.
  destruct (is_data_key k') eqn:Hk'; simpl.
  - by rewrite IH.
  - destruct (String.eqb_spec k' k) as [-> | _]; [congruence | done].
Qed.

Lemma dict_find_data_keys (d : list (string * pyval)) (k : string) :
  is_data_key k = false ->
  dict_find (List.filter (fun kv => is_data_key (fst kv)) d) k = None.
Proof.
  intros Hk. induction d as [| [k' v'] d IH]; [done |]. simpl.
  destruct (is_data_key k') eqn:Hk'; simpl; [| done].
  destruct (String.eqb_spec k' k) as [-> | _]; [congruence | done].
Qed.

Lemma filter_data_keys_set (d : list (string * pyval)) (v : pyval) :
  List.filter (fun kv => is_data_key (fst kv)) (dict_set d "patientId" v)
  = List.filter (fun kv => is_data_key (fst kv)) d.
Proof.
  induction d as [| [k' v'] d IH]; [done |]. simpl.
  destruct (String.eqb_spec k' "patientId") as [-> | Hk]; simpl; [done |].
  by rewrite IH.
Qed.

Lemma require_patient_named (payload : list (string * pyval)) :
  py_truthy (named_patient payload) = true ->
  exists payload',
    require_patient payload = Some payload'
    /\ dict_get payload' "patientId" = named_patient payload
    /\ (forall k, k <> "patientId" -> dict_get payload' k = dict_get payload k)
    /\ List.filter (fun kv => is_data_key (fst kv)) payload'
       = List.filter (fun kv => is_data_key (fst kv)) payload.
Proof.
  unfold require_patient, named_patient.
  destruct (py_truthy (dict_get payload "patientId")) eqn:Hid; cbn [negb].
  - intros _. by exists payload.
  - intros ->. cbn [negb]. eexists. split; [reflexivity |].
    split; [apply dict_get_set_eq |].
    split; [by intros k Hk; apply dict_get_set_ne | apply filter_data_keys_set].
Qed.

Lemma rating_keys_are_data_keys (k : string) :
  k ∈ rating_keys -> is_data_key k = true /\ k <> "patientId".
Proof.
  unfold rating_keys. intros Hk.
  repeat (apply elem_of_cons in Hk as [-> | Hk]; [by split |]).
  by apply elem_of_nil in Hk.
Qed.

Lemma ratings_ext (keys : list string) (d1 d2 : list (string * pyval)) :
  (forall k, k ∈ keys -> dict_get d1 k = dict_get d2 k) ->
  omap (fun k => convertible (dict_get d1 k)) keys
  = omap (fun k => convertible (dict_get d2 k)) keys.
Proof.
  intros Hkeys. induction keys as [| k keys IH]; [done |]. csimpl.
  rewrite (Hkeys k) by (apply elem_of_cons; auto).
  rewrite IH by (intros k' Hk'; apply Hkeys, elem_of_cons; auto). done.
Qed.

(** What the serialiser gives back: the keys in their order, and the
    plain values as they were. *)
Lemma stored_entries (rt : runtime) (d : list (string * pyval)) :
  serialisable rt d ->
  exists dumped,
    mapM (stored_entry rt) d = Ok dumped
    /\ (forall k, dict_find d k = None -> dict_find dumped k = None)
    /\ (forall k, plain_json (dict_get d k) = true -> dict_get dumped k = dict_get d k).
Proof.
  induction 1 as [| [k' v'] d Hkv _ (dumped & Hdumped & Hfind & Hget)].
  { exists []. by split. }
  assert (exists v, stored_entry rt (k', v') = Ok (k', v)
                    /\ (plain_json v' = true -> v = v')) as (v & Hv & Hplain).
  { unfold stored_entry. cbn [fst snd] in *.
    destruct (plain_json v') eqn:Hp; [by exists v' |].
    destruct Hkv as [? | Hok]; [done |].
    destruct (dump_json rt v') as [v |]; [| done]. by exists v. }
  exists ((k', v) :: dumped). rewrite mapM_cons, Hv, Hdumped.
  split; [done |]. split.
  - intros k. simpl. destruct (String.eqb k' k); [done | apply Hfind].
  - intros k. simpl. destruct (String.eqb k' k); [apply Hplain | apply Hget].
Qed.

Lemma serialisable_data (rt : runtime) (payload : list (string * pyval)) :
  serialisable rt payload ->
  serialisable rt (List.filter (fun kv => is_data_key (fst kv)) payload).
Proof.
  unfold serialisable. rewrite !Forall_forall. intros Hall kv Hkv.
  apply Hall. apply list_elem_of_In. apply list_elem_of_In in Hkv.
  by apply List.filter_In in Hkv as [? _].
Qed.

(** What [create_assessment] stores and answers for a payload that names
    a patient and that the serialiser accepts. *)
Lemma create_assessment_named (rt : runtime) (payload : list (string * pyval))
    (st : store) :
  py_truthy (named_patient payload) = true ->
  serialisable rt payload ->
  exists a,
    create_assessment rt payload st
    = ({| patients := patients st;
          assessments := assessments st ++ [a];
          workouts := workouts st |},
       match percentage_score (payload_ratings payload) with
       | Ok s => Created "Assessment saved successfully"
                         ("ASSESS_" +:+ pretty (now_ms rt)) s
       | Raise e => Unhandled e
       end)
    /\ a_id a = "ASSESS_" +:+ pretty (now_ms rt)
    /\ a_patientId a = py_str rt (named_patient payload)
    /\ (forall k, is_data_key k = true -> plain_json (dict_get payload k) = true ->
                  dict_get (a_data a) k = dict_get payload k)
    /\ (forall k, is_data_key k = false -> dict_find (a_data a) k = None).
Proof.
  intros Hnamed Hser.
  destruct (require_patient_named payload Hnamed)
    as (payload' & Hreq & Hid & Hrest & Hfilter).
  destruct (stored_entries rt _ (serialisable_data rt payload Hser))
    as (dumped & Hdumped & Hfind & Hget).
  unfold create_assessment. rewrite Hreq. cbv zeta. cbn [a_data a_id a_patientId].
  rewrite Hfilter, Hdumped.
  rewrite compute_assessment_score_values.
  replace (rating_values _) with (payload_ratings payload).
  2:{ unfold rating_values, payload_ratings. cbn [a_data]. apply ratings_ext.
      intros k [? ?]%rating_keys_are_data_keys. by rewrite dict_get_data_keys. }
  eexists. split; [reflexivity |]. cbn [a_id a_patientId a_data].
  split; [done |]. split; [by rewrite Hid |]. split.
  - intros k Hk Hplain. rewrite <- (dict_get_data_keys payload k Hk).
    apply Hget. by rewrite dict_get_data_keys.
  - intros k Hk. by apply Hfind, dict_find_data_keys.
Qed.

(** X18: an assessment is refused exactly when the payload names no
    patient, neither under [patientId] nor under [patient_id]: the answer
    is then the error 400 and nothing is written.  Whatever the payload,
    the patients and the workouts stay as they are and the assessments
    gain one record at the end or none. *)
Theorem create_assessment_requires_patient (rt : runtime)
    (payload : list (string * pyval)) (st : store) :
  ((exists code detail,
      snd (create_assessment rt payload st) = HTTPException code detail)
   <-> py_truthy (named_patient payload) = false)
  /\ (py_truthy (named_patient payload) = false ->
      create_assessment rt payload st
      = (st, HTTPException 400 "patientId is required"))
  /\ patients (fst (create_assessment rt payload st)) = patients st
  /\ workouts (fst (create_assessment rt payload st)) = workouts st
  /\ (assessments (fst (create_assessment rt payload st)) = assessments st
      \/ exists a, assessments (fst (create_assessment rt payload st))
                   = assessments st ++ [a]).
Proof.
  destruct (py_truthy (named_patient payload)) eqn:Hnamed.
  - destruct (require_patient_named payload Hnamed) as (payload' & Hreq & _).
    unfold create_assessment. rewrite Hreq. cbv zeta.
    destruct (mapM (stored_entry rt) _) as [dumped |]; cbn [fst snd patients workouts assessments].
    + split; [| split; [done |]; split; [done |]; split; [done |]; right; eauto].
      split; [| done]. intros (code & detail & Hanswer).
      by destruct (compute_assessment_score _).
    + split; [| split; [done |]; split; [done |]; split; [done |]; by left].
      split; [| done]. by intros (code & detail & Hanswer).
  - assert (Hrefused : create_assessment rt payload st
                       = (st, HTTPException 400 "patientId is required")).
    { unfold create_assessment, require_patient. unfold named_patient in Hnamed.
      destruct (py_truthy (dict_get payload "patientId")) eqn:Hid; [congruence |].
      cbn [negb]. by rewrite Hnamed. }
    rewrite Hrefused. cbn [fst snd].
    split; [split; [done | eauto] |]. split; [done |]. split; [done |]. split; [done |].
    by left.
Qed.

Lemma create_assessment_requires_patient_witness :
  create_assessment sample_runtime [("fineMotor_grip", VInt 4); ("patientId", VStr "")]
    store_with_one_rating
  = (store_with_one_rating, HTTPException 400 "patientId is required").
Proof.
  apply (proj1 (proj2 (create_assessment_requires_patient sample_runtime
                         [("fineMotor_grip", VInt 4); ("patientId", VStr "")]
                         store_with_one_rating))).
  reflexivity.
Defined.

(** X19: for a payload that names a patient and that the serialiser
    accepts, the stored record carries that patient, as [str] prints it,
    and every plain entry of the payload but [patientId] and [timestamp],
    which its data never hold; the score of the answer is the percentage
    score of the payload's ratings. *)
Theorem create_assessment_stores_payload (rt : runtime)
    (payload : list (string * pyval)) (st : store) :
  py_truthy (named_patient payload) = true ->
  serialisable rt payload ->
  exists a,
    assessments (fst (create_assessment rt payload st)) = assessments st ++ [a]
    /\ a_patientId a = py_str rt (named_patient payload)
    /\ (forall k, k <> "patientId" -> k <> "timestamp" ->
                  plain_json (dict_get payload k) = true ->
                  dict_get (a_data a) k = dict_get payload k)
    /\ dict_find (a_data a) "patientId" = None
    /\ dict_find (a_data a) "timestamp" = None
    /\ forall s, percentage_score (payload_ratings payload) = Ok s ->
                 snd (create_assessment rt payload st)
                 = Created "Assessment saved successfully" (a_id a) s.
Proof.
  intros Hnamed Hser.
  destruct (create_assessment_named rt payload st Hnamed Hser)
    as (a & -> & Hid & Hpid & Hdata & Hnone).
  exists a. cbn [fst snd assessments].
  split; [done |]. split; [done |].
  split.
  { intros k Hk1 Hk2. apply Hdata. unfold is_data_key.
    by rewrite (proj2 (String.eqb_neq k "patientId") Hk1),
               (proj2 (String.eqb_neq k "timestamp") Hk2). }
  split; [by apply Hnone |]. split; [by apply Hnone |].
  intros s Hs. by rewrite Hs, Hid.
Qed.

Lemma create_assessment_stores_payload_witness :
  exists a,
    assessments (fst (create_assessment sample_runtime
                        [("patient_id", VInt 7); ("fineMotor_grip", VStr "4")]
                        store_with_one_rating))
    = assessments store_with_one_rating ++ [a]
    /\ a_patientId a = "7"
    /\ snd (create_assessment sample_runtime
              [("patient_id", VInt 7); ("fineMotor_grip", VStr "4")]
              store_with_one_rating)
       = Created "Assessment saved successfully" (a_id a) 80.
Proof.
  destruct (create_assessment_stores_payload sample_runtime
              [("patient_id", VInt 7); ("fineMotor_grip", VStr "4")]
              store_with_one_rating eq_refl)
    as (a & Hstored & Hpid & _ & _ & _ & Hscore).
  { repeat constructor. }
  exists a. split; [exact Hstored |]. split; [exact Hpid |].
  exact (Hscore 80 eq_refl).
Defined.

Lemma for_patient_selected {A} (pid : A -> string) (patientId : option string)
    (x : A) (l : list A) :
  x ∈ l -> selects patientId (pid x) = true -> x ∈ for_patient pid patientId l.
Proof.
  intros Hx Hsel. unfold for_patient, selects in *.
  destruct patientId as [[| c s] |]; try done.
  apply list_elem_of_In, List.filter_In. split; [by apply list_elem_of_In | done].
Qed.

(** X20: when the ratings of a payload are plain and their score raises,
    the request ends in that exception, but the record has been written
    before; from then on the dashboard statistics and the session history
    raise for every query that selects the patient of the record, until
    the assessments are cleared. *)
Theorem create_assessment_stores_unscorable (rt : runtime)
    (payload : list (string * pyval)) (st : store) (e : exn)
    (today : Z) (patientId : option string) :
  py_truthy (named_patient payload) = true ->
  serialisable rt payload ->
  (forall k, k ∈ rating_keys -> plain_json (dict_get payload k) = true) ->
  percentage_score (payload_ratings payload) = Raise e ->
  selects patientId (py_str rt (named_patient payload)) = true ->
  let st' := fst (create_assessment rt payload st) in
  snd (create_assessment rt payload st) = Unhandled e
  /\ len (assessments st') = len (assessments st) + 1
  /\ is_ok (dashboard_stats st' today patientId) = false
  /\ is_ok (reports_session_history st' patientId) = false
  /\ is_ok (dashboard_stats (clear_type "assessments" st') today patientId) = true.
Proof.
  intros Hnamed Hser Hplain Hraise Hsel. cbv zeta.
  destruct (create_assessment_named rt payload st Hnamed Hser)
    as (a & -> & _ & Hpid & Hdata & _).
  cbn [fst snd]. rewrite Hraise.
  split; [done |]. split; [cbn [assessments]; by rewrite len_app |].
  assert (Hscore : compute_assessment_score a = Raise e).
  { rewrite compute_assessment_score_values, <- Hraise. f_equal.
    apply ratings_ext. intros k Hk.
    destruct (rating_keys_are_data_keys k Hk) as [Hkey _]. by apply Hdata, Hplain. }
  assert (Ha : a ∈ for_patient a_patientId patientId (assessments st ++ [a])).
  { apply for_patient_selected; [| by rewrite Hpid].
    apply elem_of_app. right. apply list_elem_of_here. }
  split; [| split; [| by destruct patientId as [[| c s] |]]].
  - unfold dashboard_stats, compute_dashboard_stats. cbn [assessments workouts].
    pose proof (mapM_raises compute_assessment_score _ a Ha) as Hm.
    rewrite Hscore in Hm. specialize (Hm eq_refl).
    by destruct (mapM compute_assessment_score _).
  - unfold reports_session_history. cbn [assessments].
    pose proof (mapM_raises (session_item_of (_read_patients_as_map
                  {| patients := patients st; assessments := assessments st ++ [a];
                     workouts := workouts st |})) _ a Ha) as Hm.
    unfold session_item_of at 1 in Hm. rewrite Hscore in Hm. specialize (Hm eq_refl).
    by destruct (mapM _ _).
Qed.

Lemma create_assessment_stores_unscorable_witness :
  snd (create_assessment sample_runtime payload_with_huge_rating store_with_one_rating)
  = Unhandled OverflowError
  /\ is_ok (dashboard_stats
              (fst (create_assessment sample_runtime payload_with_huge_rating
                      store_with_one_rating)) 739923 (Some "p1")) = false.
Proof.
  destruct (create_assessment_stores_unscorable sample_runtime payload_with_huge_rating
              store_with_one_rating OverflowError 739923 (Some "p1"))
    as (Hanswer & _ & Hstats & _).
  - reflexivity.
  - repeat constructor.
  - intros k Hk. unfold rating_keys in Hk.
    repeat (apply elem_of_cons in Hk as [-> | Hk]; [reflexivity |]).
    by apply elem_of_nil in Hk.
  - by vm_compute.
  - reflexivity.
  - split; [exact Hanswer | exact Hstats].
Defined.

(** ** Session history *)

Lemma insert_by_date_Permutation (x : session_item) (l : list session_item) :
  insert_by_date x l ≡ₚ x :: l.
Proof.
  induction l as [| y l IH]; [done |]. simpl.
  destruct (si_date x <? si_date y); [| done].
  rewrite IH. apply Permutation_swap.
Qed.

Lemma sort_by_date_desc_Permutation (items : list session_item) :
  sort_by_date_desc items ≡ₚ items.
Proof.
  unfold sort_by_date_desc. induction items as [| x items IH]; [done |]. simpl.
  by rewrite insert_by_date_Permutation, IH.
Qed.

Lemma insert_by_date_sorted (x : session_item) (l : list session_item) :
  StronglySorted later_first l -> StronglySorted later_first (insert_by_date x l).
Proof.
  induction 1 as [| y l Hsorted IH Hall]; simpl.
  { repeat constructor. }
  destruct (Z.ltb_spec (si_date x) (si_date y)) as [Hlt | Hge].
  - constructor; [done |]. rewrite insert_by_date_Permutation.
    constructor; [unfold later_first; lia | done].
  - constructor; [by constructor |].
    constructor; [done |].
    eapply Forall_impl; [exact Hall |]. unfold later_first. intros z. simpl. lia.
Qed.

Lemma sort_by_date_desc_sorted (items : list session_item) :
  StronglySorted later_first (sort_by_date_desc items).
Proof.
  unfold sort_by_date_desc. induction items as [| x items IH]; simpl.
  - constructor.
  - by apply insert_by_date_sorted.
Qed.

Lemma insert_by_date_dated (d : Z) (x : session_item) (l : list session_item) :
  List.filter (dated d) (insert_by_date x l) = List.filter (dated d) (x :: l).
Proof.
  induction l as [| y l IH]; [done |]. cbn [insert_by_date].
  destruct (Z.ltb_spec (si_date x) (si_date y)) as [Hlt | Hge]; [| done].
  cbn [List.filter] in *. rewrite IH. unfold dated.
  destruct (Z.eqb_spec (si_date x) d), (Z.eqb_spec (si_date y) d); try done. lia.
Qed.

Lemma sort_by_date_desc_dated (d : Z) (items : list session_item) :
  List.filter (dated d) (sort_by_date_desc items) = List.filter (dated d) items.
Proof.
  unfold sort_by_date_desc. induction items as [| x items IH]; [done |].
  cbn [foldr]. rewrite insert_by_date_dated. cbn [List.filter]. by rewrite IH.
Qed.

Lemma session_item_of_ok (patients_map : gmap string Patient) (a : Assessment)
    (it : session_item) :
  session_item_of patients_map a = Ok it -> item_of a it.
Proof.
  unfold session_item_of, item_of, notes_of.
  destruct (compute_assessment_score a) as [score |]; [| done].
  cbn [mbind result_bind].
  destruct (slice60 _) as [notes |]; [| done].
  cbn [mbind result_bind mret result_ret]. by intros [= <-].
Qed.

(** X21: the session history holds one item for each assessment that the
    query selects, later dates first, and the items of one date in the
    order in which their assessments are stored. *)
Theorem session_history_order (st : store) (patientId : option string)
    (items : list session_item) :
  reports_session_history st patientId = Ok items ->
  exists raw,
    Forall2 item_of (for_patient a_patientId patientId (assessments st)) raw
    /\ items ≡ₚ raw
    /\ StronglySorted later_first items
    /\ forall d, List.filter (dated d) items = List.filter (dated d) raw.
Proof.
  unfold reports_session_history. cbv zeta.
  destruct (mapM _ _) as [raw |] eqn:Hraw; [| done].
  cbn [mbind result_bind mret result_ret]. intros [= <-].
  exists raw. split.
  { apply mapM_ok_inv in Hraw. eapply Forall2_impl; [exact Hraw |].
    intros a it. apply session_item_of_ok. }
  split; [apply sort_by_date_desc_Permutation |].
  split; [apply sort_by_date_desc_sorted | intros d; apply sort_by_date_desc_dated].
Qed.

Lemma session_history_order_witness :
  exists items raw,
    reports_session_history store_with_three_days (Some "p1") = Ok items
    /\ Forall2 item_of
         (for_patient a_patientId (Some "p1") (assessments store_with_three_days)) raw
    /\ items ≡ₚ raw
    /\ StronglySorted later_first items
    /\ forall d, List.filter (dated d) items = List.filter (dated d) raw.
Proof.
  destruct (reports_session_history store_with_three_days (Some "p1"))
    as [items |] eqn:Hitems; [| by vm_compute in Hitems].
  destruct (session_history_order store_with_three_days (Some "p1") items Hitems)
    as (raw & Hraw).
  exists items, raw. split; [reflexivity | exact Hraw].
Defined.

Lemma char_count_take_chars (n : nat) (s : string) :
  char_count (take_chars n s) = Nat.min n (char_count s).
Proof.
  revert n. induction s as [| c s IH]; intros n; simpl; [lia |].
  destruct (is_continuation_byte c) eqn:Hc.
  - cbn [char_count]. rewrite Hc, IH. lia.
  - destruct n as [| n]; [done |]. cbn [char_count]. rewrite Hc, IH. lia.
Qed.

Lemma take_chars_prefix (n : nat) (s : string) :
  String.prefix (take_chars n s) s = true.
Proof.
  revert n. induction s as [| c s IH]; intros n; [done |]. cbn [take_chars].
  destruct (is_continuation_byte c).
  - rewrite prefix_cons. destruct (ascii_dec c c); [apply IH | done].
  - destruct n as [| n]; [done |].
    rewrite prefix_cons. destruct (ascii_dec c c); [apply IH | done].
Qed.

Lemma take_chars_all (n : nat) (s : string) :
  (char_count s <= n)%nat -> take_chars n s = s.
Proof.
  revert n. induction s as [| c s IH]; intros n; [done |]. cbn [take_chars char_count].
  destruct (is_continuation_byte c).
  - intros Hn. by rewrite IH.
  - destruct n as [| n]; [lia |]. intros Hn. rewrite IH; [done | lia].
Qed.

(** X22: when the ratings of the selected assessments lie between 0 and
    5 and their notes are absent or text, the session history exists and
    has one item for each of them; every item lasts 45 minutes, has a
    score between 0 and 100 and carries the first 60 characters of the
    notes, which are the whole notes when these are no longer. *)
Theorem session_history_items (st : store) (patientId : option string) :
  Forall (fun a => Forall (fun v => 0 <= v <= 5) (rating_values a)
                   /\ exists s, notes_of a = VStr s)
         (for_patient a_patientId patientId (assessments st)) ->
  exists items,
    reports_session_history st patientId = Ok items
    /\ len items = len (for_patient a_patientId patientId (assessments st))
    /\ Forall (fun it =>
                 si_duration it = 45 /\ 0 <= si_score it <= 100
                 /\ exists a s,
                      a ∈ for_patient a_patientId patientId (assessments st)
                      /\ notes_of a = VStr s
                      /\ si_notes it = VStr (take_chars 60 s)
                      /\ String.prefix (take_chars 60 s) s = true
                      /\ char_count (take_chars 60 s) = Nat.min 60 (char_count s)
                      /\ ((char_count s <= 60)%nat -> si_notes it = VStr s))
              items.
Proof.
  unfold reports_session_history. cbv zeta.
  set (selected := for_patient a_patientId patientId (assessments st)).
  set (patients_map := _read_patients_as_map st).
  intros Hall.
  assert (Hraw : exists raw,
             mapM (session_item_of patients_map) selected = Ok raw
             /\ length raw = length selected
             /\ Forall (fun it =>
                 si_duration it = 45 /\ 0 <= si_score it <= 100
                 /\ exists a s,
                      a ∈ selected
                      /\ notes_of a = VStr s
                      /\ si_notes it = VStr (take_chars 60 s)
                      /\ String.prefix (take_chars 60 s) s = true
                      /\ char_count (take_chars 60 s) = Nat.min 60 (char_count s)
                      /\ ((char_count s <= 60)%nat -> si_notes it = VStr s)) raw).
  { clearbody selected. induction Hall as [| a l [Hratings [s Hnotes]] _ (raw & Hraw & Hlen & Hitems)].
    { exists []. by split. }
    destruct (score_in_range a Hratings) as (score & Hscore & Hrange).
    assert (exists it, session_item_of patients_map a = Ok it
                       /\ si_duration it = 45 /\ si_score it = score
                       /\ si_notes it = VStr (take_chars 60 s))
      as (it & Hit & Hduration & Hsc & Hnt).
    { unfold session_item_of. rewrite Hscore. cbn [mbind result_bind].
      fold (notes_of a). rewrite Hnotes. cbn [slice60 mbind result_bind mret result_ret].
      eexists. split; [reflexivity | done]. }
    exists (it :: raw). rewrite mapM_cons, Hit, Hraw.
    split; [reflexivity |]. split; [simpl; by rewrite Hlen |].
    constructor.
    - rewrite Hsc, Hnt. split; [done |]. split; [done |].
      exists a, s. split; [apply list_elem_of_here |]. split; [done |]. split; [done |].
      split; [apply take_chars_prefix |]. split; [apply char_count_take_chars |].
      intros Hshort. by rewrite take_chars_all.
    - eapply Forall_impl; [exact Hitems |].
      intros it0 (? & ? & a0 & s0 & Ha0 & ?). split; [done |]. split; [done |].
      exists a0, s0. split; [by apply list_elem_of_further | done]. }
  destruct Hraw as (raw & -> & Hlen & Hitems).
  cbn [mbind result_bind mret result_ret].
  eexists. split; [reflexivity |].
  split; [unfold len; by rewrite sort_by_date_desc_Permutation, Hlen |].
  by rewrite sort_by_date_desc_Permutation.
Qed.

Lemma session_history_items_witness :
  exists items,
    reports_session_history store_with_three_days None = Ok items
    /\ len items = len (for_patient a_patientId None (assessments store_with_three_days)).
Proof.
  destruct (session_history_items store_with_three_days None) as (items & Hitems & Hlen & _).
  - unfold store_with_three_days. cbn [for_patient assessments].
    repeat (apply List.Forall_cons;
            [split; [vm_compute; repeat constructor; discriminate | by exists ""] |]).
    apply List.Forall_nil.
  - exists items. split; [exact Hitems | exact Hlen].
Defined.

(** X23: notes that are present and are neither text nor a list, [null]
    among them, cannot be cut to 60 characters: one such assessment among
    those selected is enough for the session history to end in an
    exception. *)
Theorem session_history_fails_on_unsliceable_notes (st : store)
    (patientId : option string) (a : Assessment) :
  a ∈ for_patient a_patientId patientId (assessments st) ->
  is_ok (slice60 (notes_of a)) = false ->
  is_ok (reports_session_history st patientId) = false
  /\ (dict_find (a_data a) "fineMotor_notes" = Some VNone ->
      slice60 (notes_of a) = Raise TypeError).
Proof.
  intros Ha Hnotes. split.
  - unfold reports_session_history. cbv zeta.
    pose proof (mapM_raises (session_item_of (_read_patients_as_map st)) _ a Ha) as Hm.
    unfold session_item_of at 1 in Hm. fold (notes_of a) in Hm.
    destruct (mapM _ _); [| done].
    discriminate Hm. destruct (compute_assessment_score a); [| done].
    cbn [mbind result_bind]. by destruct (slice60 (notes_of a)).
  - unfold notes_of. by intros ->.
Qed.

Lemma session_history_fails_on_unsliceable_notes_witness :
  is_ok (reports_session_history store_with_null_notes None) = false.
Proof.
  apply (session_history_fails_on_unsliceable_notes store_with_null_notes None
           (sample_assessment [("fineMotor_notes", VNone)])).
  - apply list_elem_of_further, list_elem_of_here.
  - reflexivity.
Defined.

(** ** Progress over time: days outside the window *)

Lemma foldl_result_app {A B} (step : B -> A -> result B) (l k : list A) (acc : B) :
  foldl_result step acc (l ++ k)
  = (acc' ← foldl_result step acc l; foldl_result step acc' k).
Proof.
  revert acc. induction l as [| x l IH]; intros acc; [done |].
  rewrite <- app_comm_cons, !foldl_result_cons.
  destruct (step acc x) as [acc' |]; [| done]. cbn [mbind result_bind]. apply IH.
Qed.

(** The loop over the assessments fills buckets and adds none. *)
Lemma add_to_bucket_keys (l : list Assessment) (buckets buckets' : gmap Z (list Z)) (d : Z) :
  foldl_result add_to_bucket buckets l = Ok buckets' ->
  buckets !! d = None -> buckets' !! d = None.
Proof.
  revert buckets. induction l as [| a l IH]; intros buckets; [by intros [= <-] |].
  rewrite foldl_result_cons.
  destruct (add_to_bucket buckets a) as [buckets1 |] eqn:Hstep; [| done].
  cbn [mbind result_bind]. intros Hfold Hd. apply (IH _ Hfold).
  unfold add_to_bucket in Hstep. cbv zeta in Hstep.
  destruct (buckets !! date (a_timestamp a)) as [vals |] eqn:Hiso.
  - destruct (compute_assessment_score a) as [s |]; [| done].
    injection Hstep as <-. rewrite lookup_insert_ne; [done |]. congruence.
  - by injection Hstep as <-.
Qed.

Lemma progress_dates_within (today n : Z) (dates : list Z) (d : Z) :
  1 <= n -> progress_dates today n = Ok dates -> d ∈ dates -> today - n < d <= today.
Proof.
  intros Hn. unfold progress_dates.
  destruct (mapM _ _) as [earlier |] eqn:Hearlier; [| done].
  cbn [mbind result_bind mret result_ret]. intros [= <-].
  intros Hrev.
  assert (Hd : d ∈ today :: earlier).
  { apply list_elem_of_In, List.in_rev, list_elem_of_In. exact Hrev. }
  apply elem_of_cons in Hd as [-> | Hd]; [lia |].
  apply mapM_ok_inv in Hearlier.
  apply list_elem_of_lookup in Hd as [i Hi].
  destruct (Forall2_lookup_r _ _ _ _ _ Hearlier Hi) as (j & Hj & Hdate).
  apply list_elem_of_lookup_2, elem_of_range in Hj.
  unfold date_fromordinal in Hdate.
  destruct ((1 <=? today - j) && (today - j <=? max_ordinal)); [| done].
  injection Hdate as <-. lia.
Qed.

Lemma clamp_days_positive (days : option Z) : 1 <= clamp_days days <= 90.
Proof. unfold clamp_days. lia. Qed.

(** X24: an assessment dated outside the days of the chart has no
    influence on the progress chart; it is not even scored, so that one
    whose score would raise does no harm there. *)
Theorem progress_ignores_days_outside (st : store) (today : Z)
    (patientId : option string) (days : option Z) (a : Assessment)
    (l1 l2 : list Assessment) :
  assessments st = l1 ++ a :: l2 ->
  date (a_timestamp a) <= today - clamp_days days \/ today < date (a_timestamp a) ->
  chart_dashboard_progress st today patientId days
  = chart_dashboard_progress
      {| patients := patients st; assessments := l1 ++ l2; workouts := workouts st |}
      today patientId days.
Proof.
  intros Hst Hout. unfold chart_dashboard_progress. cbv zeta. cbn [assessments].
  rewrite Hst. change (a :: l2) with ([a] ++ l2).
  rewrite !for_patient_app, for_patient_singleton.
  destruct (selects patientId (a_patientId a)); [| done].
  destruct (progress_dates today (clamp_days days)) as [dates |] eqn:Hdates; [| done].
  cbn [mbind result_bind].
  set (buckets0 := foldl (fun buckets iso => <[iso := []]> buckets) ∅ dates).
  rewrite !foldl_result_app.
  destruct (foldl_result add_to_bucket buckets0 _) as [buckets |] eqn:Hfold; [| done].
  cbn [mbind result_bind].
  assert (Hnone : buckets !! date (a_timestamp a) = None).
  { apply (add_to_bucket_keys _ _ _ _ Hfold). unfold buckets0.
    rewrite empty_buckets_lookup, bool_decide_eq_false_2; [done |].
    intros Hin. pose proof (clamp_days_positive days) as [Hpos _].
    apply (progress_dates_within today (clamp_days days) dates _ Hpos Hdates) in Hin.
    lia. }
  assert (Hstep : add_to_bucket buckets a = Ok buckets).
  { unfold add_to_bucket. cbv zeta. by rewrite Hnone. }
  cbn [app]. by rewrite foldl_result_cons, Hstep.
Qed.

Lemma progress_ignores_days_outside_witness :
  chart_dashboard_progress store_with_old_huge_rating 739923 None (Some 2)
  = chart_dashboard_progress
      {| patients := []; assessments := [assessment_on 739923 3] ++ []; workouts := [] |}
      739923 None (Some 2).
Proof.
  apply (progress_ignores_days_outside store_with_old_huge_rating 739923 None (Some 2)
           (assessment_on 739921 (10 ^ 400)) [assessment_on 739923 3] []).
  - reflexivity.
  - left. by vm_compute.
Defined.

(** ** Document renderer: what the blocks are *)

Lemma paragraphs_of_app (l k : list flowable) :
  paragraphs_of (l ++ k) = paragraphs_of l ++ paragraphs_of k.
Proof. apply omap_app. Qed.

Lemma paragraphs_of_Para (ps : list paragraph) : paragraphs_of (Para <$> ps) = ps.
Proof. induction ps as [| p ps IH]; [done |]. csimpl. by rewrite IH. Qed.

(** The loop over the lines ends in [ValueError] when reportlab refuses
    the text of one of their paragraphs, and in the blocks otherwise. *)
Lemma render_lines_refused (accepts : string -> bool) (lines : list string)
    (st : render_state) :
  forallb (parses accepts)
    (text <$> (line_paragraph <$> List.filter (fun line => negb (is_blank line)) lines))
  = false ->
  foldl_result (render_line accepts) st lines = Raise ValueError.
Proof.
  revert st. induction lines as [| line lines IH]; intros st; [done |].
  rewrite foldl_result_cons, render_line_stripped. cbn [List.filter].
  destruct (is_blank line); cbn [negb].
  - cbn [mbind result_bind]. apply IH.
  - rewrite !fmap_cons. cbn [forallb].
    destruct (parses accepts (text (line_paragraph line))); [| done].
    cbn [andb mbind result_bind]. apply IH.
Qed.

Lemma render_lines_paragraphs (accepts : string -> bool) (lines : list string)
    (st : render_state) :
  forallb (parses accepts)
    (text <$> (line_paragraph <$> List.filter (fun line => negb (is_blank line)) lines))
  = true ->
  exists st',
    foldl_result (render_line accepts) st lines = Ok st'
    /\ paragraphs_of (flushed st')
       = paragraphs_of (flushed st)
         ++ (line_paragraph <$> List.filter (fun line => negb (is_blank line)) lines).
Proof.
  revert st. induction lines as [| line lines IH]; intros st.
  { intros _. exists st. by rewrite app_nil_r. }
  rewrite foldl_result_cons, render_line_stripped. cbn [List.filter].
  destruct (is_blank line); cbn [negb].
  - cbn [mbind result_bind]. intros Hall.
    destruct (IH {| story := story st ++ [Spacer 15];
                    current_section := current_section st;
                    in_bullet_list := false |} Hall) as (st' & -> & Hparagraphs).
    exists st'. split; [done |]. rewrite Hparagraphs. f_equal.
    unfold flushed. cbn [story current_section].
    rewrite !paragraphs_of_app. cbn. by rewrite app_nil_r.
  - rewrite !fmap_cons. cbn [forallb].
    destruct (parses accepts (text (line_paragraph line))); [| done].
    cbn [andb mbind result_bind]. intros Hall.
    destruct (IH (if is_heading line
                  then {| story := flushed st
                                   ++ [Para (line_paragraph line);
                                       Spacer (if startswith (strip line) "# "
                                               then 15 else 10)];
                          current_section := [];
                          in_bullet_list := false |}
                  else {| story := story st;
                          current_section := current_section st ++ [line_paragraph line];
                          in_bullet_list := startswith (strip line) "* "
                                            || startswith (strip line) "- " |}) Hall)
      as (st' & -> & Hparagraphs).
    exists st'. split; [done |]. rewrite Hparagraphs.
    rewrite (cons_middle _ (paragraphs_of (flushed st))), app_assoc. f_equal.
    destruct (is_heading line); unfold flushed; cbn [story current_section].
    + rewrite fmap_nil, app_nil_r, paragraphs_of_app. done.
    + by rewrite fmap_app, !paragraphs_of_app, app_assoc.
Qed.

(** X25: a text of ASCII characters is rendered exactly when reportlab
    takes the title and the text of every line that is not blank, and
    ends in [ValueError] otherwise.  The paragraphs of the document are
    then the title followed by one paragraph for each such line, in the
    order of the lines: a heading, a bullet or plain text.  No paragraph
    is a nested bullet and none holds two lines, whatever the
    indentation. *)
Theorem build_story_paragraphs (accepts : string -> bool) (title content : string) :
  is_ascii content = true ->
  (forallb (parses accepts) (paragraph_texts title content) = true ->
   exists blocks,
     build_story accepts title content = Ok blocks
     /\ paragraphs_of blocks
        = Paragraph title Title :: (line_paragraph <$> written_lines content)
     /\ Forall (fun p => para_style p <> NestedBullet) (paragraphs_of blocks))
  /\ (forallb (parses accepts) (paragraph_texts title content) = false ->
      build_story accepts title content = Raise ValueError).
Proof.
  intros _. unfold paragraph_texts, written_lines, build_story, new_paragraph.
  cbn [forallb]. destruct (parses accepts title); cbn [andb mbind result_bind]; [| done].
  split; [| by intros Hrefused; rewrite (render_lines_refused _ _ _ Hrefused)].
  intros Hall.
  destruct (render_lines_paragraphs accepts (split_lines content)
              {| story := [Para (Paragraph title Title); Spacer 20];
                 current_section := []; in_bullet_list := false |} Hall)
    as (st & -> & Hparagraphs).
  cbn [mbind result_bind mret result_ret].
  exists (flushed st). split; [done |]. rewrite Hparagraphs.
  change (paragraphs_of (flushed _)) with [Paragraph title Title].
  split; [reflexivity |].
  constructor; [done |]. rewrite Forall_fmap, Forall_forall. intros line _. simpl.
  unfold line_paragraph. cbv zeta. by repeat case_match.
Qed.

Lemma build_story_paragraphs_witness :
  (exists blocks,
     build_story closed_bold "Report" ("# A <b>bold</b> start" +:+ nl +:+ "  * indented")
     = Ok blocks
     /\ paragraphs_of blocks
        = [Paragraph "Report" Title; Paragraph "A <b>bold</b> start" Heading1;
           Paragraph "• indented" BulletPoint])
  /\ build_story closed_bold "Report" ("intro" +:+ nl +:+ "<b>unclosed" +:+ nl +:+ "* end")
     = Raise ValueError.
Proof.
  split.
  - destruct (proj1 (build_story_paragraphs closed_bold "Report"
                       ("# A <b>bold</b> start" +:+ nl +:+ "  * indented") eq_refl) eq_refl)
      as (blocks & Hblocks & Hparagraphs & _).
    exists blocks. split; [exact Hblocks | exact Hparagraphs].
  - apply (proj2 (build_story_paragraphs closed_bold "Report"
                    ("intro" +:+ nl +:+ "<b>unclosed" +:+ nl +:+ "* end") eq_refl)).
    reflexivity.
Defined.

Lemma render_lines_without_headings (accepts : string -> bool) (lines : list string)
    (st : render_state) :
  Forall (fun line => is_heading line = false) lines ->
  forallb (parses accepts)
    (text <$> (line_paragraph <$> List.filter (fun line => negb (is_blank line)) lines))
  = true ->
  exists st',
    foldl_result (render_line accepts) st lines = Ok st'
    /\ story st' = story st ++ ((fun _ => Spacer 15) <$> List.filter is_blank lines)
    /\ current_section st'
       = current_section st
         ++ (line_paragraph <$> List.filter (fun line => negb (is_blank line)) lines).
Proof.
  intros Hlines. revert st.
  induction Hlines as [| line lines Hline _ IH]; intros st.
  { intros _. exists st. by rewrite !app_nil_r. }
  rewrite foldl_result_cons, render_line_stripped, Hline. cbn [List.filter].
  destruct (is_blank line); cbn [negb].
  - cbn [mbind result_bind]. intros Hall.
    destruct (IH {| story := story st ++ [Spacer 15];
                    current_section := current_section st;
                    in_bullet_list := false |} Hall) as (st' & Hfold & Hstory & Hsection).
    exists st'. split; [done |]. rewrite Hstory, Hsection. cbn [story current_section].
    by rewrite fmap_cons, <- app_assoc.
  - rewrite !fmap_cons. cbn [forallb].
    destruct (parses accepts (text (line_paragraph line))); [| done].
    cbn [andb mbind result_bind]. intros Hall.
    destruct (IH {| story := story st;
                    current_section := current_section st ++ [line_paragraph line];
                    in_bullet_list := startswith (strip line) "* "
                                      || startswith (strip line) "- " |} Hall)
      as (st' & Hfold & Hstory & Hsection).
    exists st'. split; [done |]. rewrite Hstory, Hsection. cbn [story current_section].
    by rewrite <- app_assoc.
Qed.

(** X26: in a text of ASCII characters without headings that reportlab
    takes, the gaps of the blank lines all come before the first
    paragraph: the document is the title, one gap for each blank line,
    and then the paragraphs of the written lines with nothing between
    them. *)
Theorem build_story_without_headings (accepts : string -> bool)
    (title content : string) :
  is_ascii content = true ->
  Forall (fun line => is_heading line = false) (split_lines content) ->
  forallb (parses accepts) (paragraph_texts title content) = true ->
  build_story accepts title content
  = Ok ([Para (Paragraph title Title); Spacer 20]
        ++ ((fun _ => Spacer 15) <$> blank_lines content)
        ++ (Para <$> (line_paragraph <$> written_lines content))).
Proof.
  intros _ Hlines. unfold paragraph_texts, written_lines, build_story, new_paragraph.
  cbn [forallb]. destruct (parses accepts title); cbn [andb mbind result_bind]; [| done].
  intros Hall.
  destruct (render_lines_without_headings accepts (split_lines content)
              {| story := [Para (Paragraph title Title); Spacer 20];
                 current_section := []; in_bullet_list := false |} Hlines Hall)
    as (st & -> & Hstory & Hsection).
  cbn [mbind result_bind mret result_ret]. unfold flushed.
  rewrite Hstory, Hsection. cbn [story current_section].
  by rewrite <- app_assoc.
Qed.

Lemma build_story_without_headings_witness :
  build_story closed_bold "Report" ("one" +:+ nl +:+ nl +:+ "* two")
  = Ok [ Para (Paragraph "Report" Title); Spacer 20; Spacer 15;
         Para (Paragraph "one" Normal); Para (Paragraph "• two" BulletPoint) ].
Proof.
  apply (build_story_without_headings closed_bold "Report"
           ("one" +:+ nl +:+ nl +:+ "* two")).
  - reflexivity.
  - vm_compute. repeat constructor.
  - reflexivity.
Defined.

(** ** Report composer: the text that is rendered *)

Lemma prefix_length (p s : string) :
  String.prefix p s = true -> (String.length p <= String.length s)%nat.
Proof.
  revert s. induction p as [| a p IH]; intros s; [simpl; lia |].
  destruct s as [| b s]; [done |]. rewrite prefix_cons.
  destruct (ascii_dec a b); [| done]. intros Hp%IH. simpl. lia.
Qed.

Lemma length_append (s t : string) :
  String.length (s +:+ t) = (String.length s + String.length t)%nat.
Proof. induction s as [| c s IH]; simpl; [done | by rewrite IH]. Qed.

(** Replacing by something no longer does not lengthen a string. *)
Lemma replace_go_length (old new : string) (skip : nat) (s : string) :
  (String.length new <= String.length old)%nat ->
  (String.length (replace_go old new skip s) + Nat.min skip (String.length s)
   <= String.length s)%nat.
Proof.
  intros Hnew. revert skip. induction s as [| c s IH]; intros skip; [simpl; lia |].
  cbn [replace_go]. destruct skip as [| k].
  - destruct (String.prefix old (String c s)) eqn:Hp.
    + apply prefix_length in Hp. specialize (IH (Nat.pred (String.length old))).
      rewrite length_append. simpl in *. lia.
    + specialize (IH 0%nat). simpl in *. lia.
  - specialize (IH k). simpl. lia.
Qed.

(** Replacing by something shorter shortens a string that holds the
    text replaced. *)
Lemma replace_shortens (old new s : string) :
  (String.length new < String.length old)%nat ->
  contains old s = true ->
  (String.length (replace old new s) < String.length s)%nat.
Proof.
  intros Hnew. unfold replace. induction s as [| c s IH].
  - destruct old; [simpl in Hnew; lia | done].
  - cbn [contains replace_go].
    destruct (String.prefix old (String c s)) eqn:Hp.
    + intros _. apply prefix_length in Hp.
      pose proof (replace_go_length old new (Nat.pred (String.length old)) s
                    ltac:(lia)) as Hlen.
      rewrite length_append. simpl in *. lia.
    + cbn [orb]. intros Hs%IH. simpl. lia.
Qed.

Lemma collapse_blank_lines_done (turns : nat) (s : string) :
  (String.length s <= turns)%nat ->
  contains blank_gap (collapse_blank_lines turns s) = false
  /\ (String.length (collapse_blank_lines turns s) <= String.length s)%nat.
Proof.
  revert s. induction turns as [| turns IH]; intros s Hlen.
  - destruct s; [by split | simpl in Hlen; lia].
  - cbn [collapse_blank_lines]. fold blank_gap.
    destruct (contains blank_gap s) eqn:Hgap; [| split; [done | lia]].
    pose proof (replace_shortens blank_gap (nl +:+ nl) s ltac:(simpl; lia) Hgap) as Hshort.
    destruct (IH (replace blank_gap (nl +:+ nl) s) ltac:(lia)) as [Hdone Hle].
    split; [done | lia].
Qed.

(** X27: the loop that removes runs of blank lines comes to an end, and
    the text handed to the renderer holds no three line breaks in a row
    and is no longer than the narrative. *)
Theorem clean_content_has_no_gap (content : string) :
  contains blank_gap (clean_content content) = false
  /\ (String.length (clean_content content) <= String.length content)%nat.
Proof.
  unfold clean_content. cbv zeta.
  destruct (collapse_blank_lines_done
              (String.length (replace "```" "" (replace "```markdown" "" content)))
              (replace "```" "" (replace "```markdown" "" content)) ltac:(lia))
    as [Hdone Hle].
  split; [done |].
  pose proof (replace_go_length "```" "" 0 (replace "```markdown" "" content)
                ltac:(simpl; lia)) as H1.
  pose proof (replace_go_length "```markdown" "" 0 content ltac:(simpl; lia)) as H2.
  unfold replace in *. lia.
Qed.

(** ** Report composer: what the generator is sent *)

Lemma for_patient_selects {A} (pid : A -> string) (patientId : option string)
    (items : list A) :
  Forall (fun x => selects patientId (pid x) = true) (for_patient pid patientId items).
Proof.
  apply Forall_forall. intros x Hx. unfold for_patient, selects in *.
  destruct patientId as [[| c s] |]; try done.
  apply list_elem_of_In, List.filter_In in Hx as [_ Hx]. done.
Qed.

Lemma last_n_length {A} (n : nat) (l : list A) : (length (last_n n l) <= n)%nat.
Proof. unfold last_n. rewrite length_drop. lia. Qed.

Lemma last_n_Forall {A} (P : A -> Prop) (n : nat) (l : list A) :
  Forall P l -> Forall P (last_n n l).
Proof. apply Forall_drop. Qed.

Lemma preview_assessments_ok (P : string -> Prop) (l : list Assessment)
    (previews : list assessment_preview) :
  mapM preview_assessment l = Ok previews ->
  Forall (fun a => P (a_patientId a)) l ->
  length previews = length l
  /\ Forall (fun ap => (length (ap_highlights ap) <= 8)%nat /\ P (ap_patientId ap)) previews.
Proof.
  intros Hpreviews%mapM_ok_inv. induction Hpreviews as [| a ap l previews Hap _ IH].
  { by split. }
  intros [Ha Hl]%Forall_cons. destruct (IH Hl) as [Hlen Hall].
  split; [simpl; by rewrite Hlen |]. constructor; [| done].
  unfold preview_assessment in Hap.
  destruct (compute_assessment_score a); [| done].
  injection Hap as <-. cbn [ap_highlights ap_patientId].
  split; [| done]. rewrite length_fmap, length_take. lia.
Qed.

Lemma build_prompt_sample (req : ReportRequest) (patient_info : option Patient)
    (stats : dashboard) (patientId : option string) (assessments : list Assessment)
    (workouts : list Workout) (prompt : user_prompt) :
  build_prompt req patient_info stats assessments workouts = Ok prompt ->
  Forall (fun a => selects patientId (a_patientId a) = true) assessments ->
  Forall (fun w => selects patientId (w_patientId w) = true) workouts ->
  sample_bounded prompt /\ sample_of_patient patientId prompt
  /\ up_stats prompt = stats /\ up_patient prompt = patient_info.
Proof.
  unfold build_prompt. cbv zeta.
  destruct (mapM preview_assessment (last_n 50 assessments)) as [previews |] eqn:Hpreviews;
    [| done].
  cbn [mbind result_bind mret result_ret]. intros [= <-] Hassessments Hworkouts.
  destruct (preview_assessments_ok (fun pid => selects patientId pid = true) _ _ Hpreviews
              (last_n_Forall _ 50 _ Hassessments)) as [Hlen Hall].
  unfold sample_bounded, sample_of_patient.
  cbn [up_assessmentsSample up_workoutsSample up_stats up_patient].
  split; [| split; [| done]].
  - split; [rewrite Hlen; apply last_n_length |].
    split; [rewrite length_fmap; apply last_n_length |].
    eapply Forall_impl; [exact Hall |]. by intros ap [? _].
  - split; [eapply Forall_impl; [exact Hall |]; by intros ap [_ ?] |].
    rewrite Forall_fmap. apply last_n_Forall.
    eapply Forall_impl; [exact Hworkouts |]. done.
Qed.

(** X28: a report request calls the generator at most once, and not at
    all when it is not configured.  What it sends is bounded and belongs
    to the request: at most the last 50 assessments with 8 entries each
    and at most the last 100 workouts, all of the patient asked about
    when there is one, with the dashboard statistics of that query. *)
Theorem generator_sample (env : environment) (st : store) (req : ReportRequest)
    (accept : string) (r : response) (calls : list user_prompt) :
  generate_report env st req accept = Ok (r, calls) ->
  (length calls <= 1)%nat
  /\ (gemini_configured env = false -> calls = [])
  /\ Forall (fun prompt =>
               sample_bounded prompt
               /\ sample_of_patient (r_patientId req) prompt
               /\ dashboard_stats st (today_utc env) (r_patientId req)
                  = Ok (up_stats prompt)
               /\ up_patient prompt = patient_info_of st req)
            calls.
Proof.
  unfold generate_report. cbv zeta.
  intros (c & Hc & Hr)%bind_ok_inv.
  apply bind_ok_inv in Hr as (r' & _ & [= _ <-]).
  unfold compose_content in Hc. unfold dashboard_stats.
  destruct (compute_dashboard_stats _ _ _) as [stats |]; [| done].
  cbn [mbind result_bind] in Hc.
  destruct (has_scores _) as [scored |]; [| done].
  cbn [mbind result_bind] in Hc.
  destruct (gemini_configured env); cbn [negb] in Hc.
  2:{ injection Hc as <-. cbn [generator_calls]. split; [simpl; lia |]. by split. }
  destruct (build_prompt _ _ _ _ _) as [prompt |] eqn:Hprompt; [| done].
  cbn [mbind result_bind] in Hc.
  apply (build_prompt_sample _ _ _ (r_patientId req)) in Hprompt
    as (Hbounded & Hpatient & Hstats & Hinfo);
    [| apply for_patient_selects | apply for_patient_selects].
  assert (Hcalls : generator_calls c = [] \/ generator_calls c = [prompt]).
  { destruct (negb scored && _); [left; by injection Hc as <- |].
    right. destruct (generate_content env prompt) as [[[| ? ?] |] | reason];
      by injection Hc as <-. }
  destruct Hcalls as [-> | ->].
  - split; [simpl; lia |]. by split.
  - split; [simpl; lia |]. split; [done |].
    constructor; [| done]. by rewrite Hstats.
Qed.

Lemma generator_sample_witness :
  exists r calls,
    generate_report fenced_environment store_with_one_rating sample_request "" = Ok (r, calls)
    /\ (length calls <= 1)%nat
    /\ Forall (fun prompt =>
                 sample_bounded prompt /\ sample_of_patient (Some "p1") prompt) calls.
Proof.
  destruct (generate_report fenced_environment store_with_one_rating sample_request "")
    as [[r calls] |] eqn:Hreport; [| by vm_compute in Hreport].
  destruct (generator_sample fenced_environment store_with_one_rating sample_request ""
              r calls Hreport) as (Hlen & _ & Hcalls).
  exists r, calls. split; [reflexivity |]. split; [exact Hlen |].
  eapply Forall_impl; [exact Hcalls |]. intros prompt (? & ? & _). by split.
Defined.

(** ** Report composer: the request as a whole *)






(** ** Skill-performance report: what the status says *)

Lemma skill_performance_row_inv (assessments : list Assessment)
    (category : string * list string) (row : skill_row) :
  skill_performance_row assessments category = Ok row ->
  exists scores,
    foldl_result (add_category_score (snd category)) [] assessments = Ok scores
    /\ rounded_mean scores = Ok (current row)
    /\ ((length scores <= 1)%nat -> previous row = Z.max 0 (current row - 5))
    /\ status row
       = (if previous row <=? current row then "On Track"
          else if 0 <? current row then "Improving" else "Needs Attention").
Proof.
  destruct category as [label keys]. unfold skill_performance_row. cbn [snd].
  destruct (foldl_result _ _ _) as [scores |] eqn:Hscores; [| done].
  cbn [mbind result_bind].
  destruct (rounded_mean scores) as [cur |] eqn:Hcur; [| done]. cbn [mbind result_bind].
  destruct (match (if 1 <? len scores then take (length scores - 1) scores else []) with
            | [] => Ok (Z.max 0 (cur - 5))
            | _ :: _ => _
            end) as [prev |] eqn:Hprev; [| done].
  cbn [mbind result_bind mret result_ret]. intros [= <-].
  exists scores. cbn [current previous status]. split; [done |]. split; [done |].
  split; [| done]. intros Hlen.
  destruct (Z.ltb_spec 1 (len scores)) as [Hmany | _]; [unfold len in Hmany; lia |].
  by injection Hprev as <-.
Qed.

Lemma category_scores_length (keys : list string) (assessments : list Assessment)
    (scores scores' : list Z) :
  foldl_result (add_category_score keys) scores assessments = Ok scores' ->
  (length scores' <= length scores + length assessments)%nat.
Proof.
  revert scores. induction assessments as [| a l IH]; intros scores.
  { intros [= <-]. simpl. lia. }
  rewrite foldl_result_cons.
  destruct (add_category_score keys scores a) as [scores1 |] eqn:Hstep; [| done].
  cbn [mbind result_bind]. intros Hfold%IH.
  assert ((length scores1 <= S (length scores))%nat); [| simpl; lia].
  unfold add_category_score in Hstep.
  destruct (present_ints a keys) as [vals |]; [| done]. cbn [mbind result_bind] in Hstep.
  destruct vals as [| v vals]; [injection Hstep as <-; lia |].
  destruct (round_percent _ _) as [s |]; [| done].
  injection Hstep as <-. rewrite length_app. simpl. lia.
Qed.

(** X30: in every row of the skill-performance report the status is read
    off the two scores: "On Track" when the current score is not below
    the previous one, "Improving" when it is below it and positive, and
    "Needs Attention" otherwise; so a score that has fallen reads
    "Improving" and one that has risen "On Track".  With at most one
    assessment, rated between 0 and 5, every row reads "On Track". *)
Theorem skill_performance_status (st : store) (patientId : option string)
    (rows : list skill_row) :
  reports_skill_performance st patientId = Ok rows ->
  Forall (fun row =>
            (status row = "On Track" <-> previous row <= current row)
            /\ (status row = "Improving" <-> 0 < current row < previous row)
            /\ (status row = "Needs Attention"
                <-> current row <= 0 /\ current row < previous row))
         rows
  /\ ((length (for_patient a_patientId patientId (assessments st)) <= 1)%nat ->
      Forall rated_or_absent (for_patient a_patientId patientId (assessments st)) ->
      Forall (fun row => status row = "On Track") rows).
Proof.
  unfold reports_skill_performance. cbv zeta.
  set (items := for_patient a_patientId patientId (assessments st)).
  intros Hrows%mapM_ok_inv. split.
  - eapply Forall2_Forall_r; [exact Hrows |].
    apply Forall_forall. intros category _ row Hrow.
    apply skill_performance_row_inv in Hrow as (_ & _ & _ & _ & ->).
    destruct (Z.leb_spec (previous row) (current row));
      [| destruct (Z.ltb_spec 0 (current row))];
      (split; [split; [intros ?; try done; lia | intros ?; try done; lia] |]);
      (split; split; [intros ?; try done; lia | intros ?; try done; lia
                      | intros ?; try done; lia | intros ?; try done; lia]).
  - intros Hfew Hrated.
    eapply Forall2_Forall_r; [exact Hrows |].
    apply Forall_forall. intros category _ row Hrow.
    apply skill_performance_row_inv in Hrow as (scores & Hscores & Hcur & Hprev & ->).
    pose proof (category_scores_length _ _ _ _ Hscores) as Hlen. simpl in Hlen.
    rewrite Hprev by lia.
    destruct (category_scores_ok (snd category) items [] Hrated) as (scores' & Hscores' & Hrange);
      [constructor |].
    rewrite Hscores in Hscores'. injection Hscores' as <-.
    destruct (rounded_mean_percent scores Hrange) as (cur & Hcur' & Hcur_range).
    rewrite Hcur in Hcur'. injection Hcur' as <-.
    destruct (Z.leb_spec (Z.max 0 (current row - 5)) (current row)); [done | lia].
Qed.

Lemma skill_performance_status_witness :
  exists rows,
    reports_skill_performance store_with_one_rating (Some "p1") = Ok rows
    /\ Forall (fun row => status row = "On Track") rows.
Proof.
  destruct (reports_skill_performance store_with_one_rating (Some "p1"))
    as [rows |] eqn:Hrows; [| by vm_compute in Hrows].
  exists rows. split; [reflexivity |].
  apply (proj2 (skill_performance_status store_with_one_rating (Some "p1") rows Hrows)).
  - vm_compute. lia.
  - replace (for_patient a_patientId (Some "p1") (assessments store_with_one_rating))
      with [sample_assessment [("fineMotor_grip", VInt 4)]] by (by vm_compute).
    apply List.Forall_cons; [| apply List.Forall_nil].
    apply (rated_or_absent_grip 0 4). lia.
Defined.
